(** * modulegraph: static import discovery (bbfreeze/modulegraph/modulegraph.py)

    A shallow embedding of the bytecode decoder and of the import-resolution
    engine of [ModuleGraph], followed by the properties of the specification
    that were checked against it.

    Conventions of the embedding
    - A [Node] object lives in the graph under its [graphident]; a reference
      to a node is that key.  Every node also carries the identity
      ([node_id]) it received when it was constructed.
    - The objects a node owns and that Python shares by reference (the
      [namespace] dict, the [globalnames] and [starimports] sets) live in a
      heap; a node holds their addresses.
    - A method is a function in the monad [M]: it takes the graph, and either
      returns a value, raises an exception (the graph as mutated so far is
      kept, as in Python), or runs out of fuel.  Fuel bounds the depth of the
      calls; the debug printing ([msg], [msgin], [msgout]) is left out. *)

From Stdlib Require Import ZArith Ascii String.
From Stdlib.Strings Require Import Byte.
From stdpp Require Import gmap strings list fin_maps.

Open Scope Z_scope.
Open Scope string_scope.

(* ===================================================================== *)
(** ** Strings *)
(* ===================================================================== *)

Module Str.

Definition dot : ascii := "."%char.

Definition is_dot (a : ascii) : bool := Ascii.eqb a dot.

(** [s.count(".")] *)
Fixpoint count_dot (s : string) : nat :=
  match s with
  | EmptyString => 0%nat
  | String a r => ((if is_dot a then 1 else 0) + count_dot r)%nat
  end.

(** ['.' in s] *)
Definition has_dot (s : string) : bool := negb (Nat.eqb (count_dot s) 0).

(** [s.split(".")] *)
Fixpoint split_dot (s : string) : list string :=
  match s with
  | EmptyString => [EmptyString]
  | String a r =>
      if is_dot a then EmptyString :: split_dot r
      else match split_dot r with
           | h :: t => String a h :: t
           | [] => [String a EmptyString]
           end
  end.

(** [".".join(l)] *)
Fixpoint join_dot (l : list string) : string :=
  match l with
  | [] => EmptyString
  | [x] => x
  | x :: r => x +:+ "." +:+ join_dot r
  end.

(** The text before the first dot and, when there is a dot, the text
    after it: [s[:i]] and [s[i+1:]] for [i = s.find(".")]. *)
Fixpoint cut (s : string) : string * option string :=
  match s with
  | EmptyString => (EmptyString, None)
  | String a r =>
      if is_dot a then (EmptyString, Some r)
      else let '(h, t) := cut r in (String a h, t)
  end.

(** [s[:s.rfind(".")]] for a string that has a dot. *)
Definition before_last_dot (s : string) : string :=
  join_dot (removelast (split_dot s)).

(** [l[:-n]] for [n >= 1] *)
Definition drop_last {A} (n : nat) (l : list A) : list A :=
  take (length l - n) l.

Definition nonempty (s : string) : bool :=
  match s with EmptyString => false | _ => true end.

(** [s.startswith(p)] *)
Fixpoint startswith (p s : string) : bool :=
  match p, s with
  | EmptyString, _ => true
  | String a p', String b s' => Ascii.eqb a b && startswith p' s'
  | String _ _, EmptyString => false
  end.

(** [s[n:]] *)
Fixpoint drop (n : nat) (s : string) : string :=
  match n, s with
  | O, _ => s
  | S n', String _ r => drop n' r
  | S _, EmptyString => EmptyString
  end.

(** [s.endswith(e)] *)
Definition endswith (e s : string) : bool :=
  String.eqb (drop (String.length s - String.length e) s) e
  && Nat.leb (String.length e) (String.length s).

(** [s[:-len(e)]]; Python's [s[:-0]] is the empty string. *)
Definition strip_suffix (e s : string) : string :=
  match String.length e with
  | O => EmptyString
  | n => substring 0 (String.length s - n) s
  end.

End Str.

(* ===================================================================== *)
(** ** Compiled code *)
(* ===================================================================== *)

(** A code object: the instruction bytes, the name table, the constant pool
    and the recorded source location.  The constant pool holds what the
    compiler puts there for imports (the level, [None] or the tuple of
    from-list names), nested code objects, and other constants. *)
Inductive code : Type :=
| Code (co_code : list byte) (co_names : list string)
       (co_consts : list const) (co_filename : string)
with const : Type :=
| CNone
| CInt (z : Z)
| CNames (names : list string)
| CCode (co : code)
| COther.

Definition co_code (co : code) : list byte := let 'Code c _ _ _ := co in c.
Definition co_names (co : code) : list string := let 'Code _ n _ _ := co in n.
Definition co_consts (co : code) : list const := let 'Code _ _ k _ := co in k.
Definition co_filename (co : code) : string := let 'Code _ _ _ f := co in f.

(** The opcode numbers the module reads from the host's [dis] tables when it
    is loaded ([chr(dis.opname.index('LOAD_CONST'))], ..., [dis.HAVE_ARGUMENT]). *)
Record Opcodes : Type := {
  LOAD_CONST : byte;
  IMPORT_NAME : byte;
  STORE_NAME : byte;
  STORE_GLOBAL : byte;
  HAVE_ARGUMENT : byte
}.

(** The exceptions the embedded code raises.  [StructError] is
    [struct.error]; [Dangling] is raised by the embedding alone, when a
    reference denotes no node of the graph, which the engine never makes
    happen. *)
Inductive exn : Type :=
| ImportError (msg : string)
| AssertionError
| AttributeError (what : string)
| KeyError (key : string)
| IndexError
| TypeError
| StructError
| RuntimeError (what : string)
| IOError (path : string)
| Dangling (ref : string).

(** What the scanners yield. *)
Inductive event : Type :=
| Store (name : string)
| Import (fromlist : const) (name : string)
| AbsoluteImport (fromlist : const) (name : string)
| RelativeImport (level : const) (fromlist : const) (name : string).

Module Decoder.
Section WithOpcodes.

Variable ops : Opcodes.

Definition byte_eqb (a b : byte) : bool := Byte.eqb a b.

(** [c >= HAVE_ARGUMENT] on one-character strings *)
Definition byte_geb (a b : byte) : bool := (Byte.to_N b <=? Byte.to_N a)%N.

(** [c in STORE_OPS] *)
Definition is_store (c : byte) : bool :=
  byte_eqb c (STORE_NAME ops) || byte_eqb c (STORE_GLOBAL ops).

(** [unpack('<H', lo hi)] *)
Definition u16 (lo hi : byte) : nat :=
  (Byte.to_nat lo + 256 * Byte.to_nat hi)%nat.

(** A generator is a list of the events it yields and the exception, if
    any, that ends it. *)
Definition stream : Type := list event * option exn.

Definition yield (e : event) (rest : stream) : stream :=
  (e :: fst rest, snd rest).

Definition stop (e : exn) : stream := ([], Some e).

(** The two-byte argument at [code[1:3]]; a shorter slice makes
    [struct.unpack] raise. *)
Definition arg_at1 (code : list byte) : option nat :=
  match code with
  | _ :: lo :: hi :: _ => Some (u16 lo hi)
  | _ => None
  end.

(** [scan_opcodes]: the decoder for Python 2.4 and older.  [n] bounds the
    iterations of [while code]; each one consumes at least one byte. *)
Fixpoint scan_opcodes_loop (n : nat) (names : list string)
    (consts : list const) (code : list byte) : stream :=
  match n with
  | O => ([], None)
  | S n' =>
      match code with
      | [] => ([], None)
      | c :: _ =>
          if is_store c then
            match arg_at1 code with
            | None => stop StructError
            | Some oparg =>
                match names !! oparg with
                | None => stop IndexError
                | Some nm =>
                    yield (Store nm)
                      (scan_opcodes_loop n' names consts (skipn 3 code))
                end
            end
          else
            if byte_eqb c (LOAD_CONST ops) then
              match code !! 3%nat with
              | None => stop IndexError
              | Some c3 =>
                  if byte_eqb c3 (IMPORT_NAME ops) then
                    match code with
                    | _ :: a0 :: a1 :: _ :: b0 :: b1 :: _ =>
                        match consts !! u16 a0 a1 with
                        | None => stop IndexError
                        | Some k =>
                            match names !! u16 b0 b1 with
                            | None => stop IndexError
                            | Some nm =>
                                yield (Import k nm)
                                  (scan_opcodes_loop n' names consts (skipn 6 code))
                            end
                        end
                    | _ => stop StructError
                    end
                  else if byte_geb c (HAVE_ARGUMENT ops) then
                    scan_opcodes_loop n' names consts (skipn 3 code)
                  else
                    scan_opcodes_loop n' names consts (skipn 1 code)
              end
            else if byte_geb c (HAVE_ARGUMENT ops) then
              scan_opcodes_loop n' names consts (skipn 3 code)
            else
              scan_opcodes_loop n' names consts (skipn 1 code)
      end
  end.

Definition scan_opcodes (co : code) : stream :=
  scan_opcodes_loop (length (co_code co)) (co_names co) (co_consts co)
    (co_code co).

(** [code[:9:3] == LOAD_CONST + LOAD_CONST + IMPORT_NAME] *)
Definition load_load_and_import (code : list byte) : bool :=
  match code !! 0%nat, code !! 3%nat, code !! 6%nat with
  | Some c0, Some c3, Some c6 =>
      byte_eqb c0 (LOAD_CONST ops) && byte_eqb c3 (LOAD_CONST ops)
      && byte_eqb c6 (IMPORT_NAME ops)
  | _, _, _ => false
  end.

(** The event for a decoded (level, fromlist, name) triple. *)
Definition import_event (level fromlist : const) (name : string) : event :=
  match level with
  | CInt (-1) => Import fromlist name
  | CInt 0 => AbsoluteImport fromlist name
  | _ => RelativeImport level fromlist name
  end.

(** [scan_opcodes_25]: the decoder for Python 2.5 and later. *)
Fixpoint scan_opcodes_25_loop (n : nat) (names : list string)
    (consts : list const) (code : list byte) : stream :=
  match n with
  | O => ([], None)
  | S n' =>
      match code with
      | [] => ([], None)
      | c :: _ =>
          if is_store c then
            match arg_at1 code with
            | None => stop StructError
            | Some oparg =>
                match names !! oparg with
                | None => stop IndexError
                | Some nm =>
                    yield (Store nm)
                      (scan_opcodes_25_loop n' names consts (skipn 3 code))
                end
            end
          else
            if load_load_and_import code then
              match code with
              | _ :: a0 :: a1 :: _ :: b0 :: b1 :: _ :: c0 :: c1 :: _ =>
                  match consts !! u16 a0 a1 with
                  | None => stop IndexError
                  | Some level =>
                      match consts !! u16 b0 b1 with
                      | None => stop IndexError
                      | Some fromlist =>
                          match names !! u16 c0 c1 with
                          | None => stop IndexError
                          | Some nm =>
                              yield (import_event level fromlist nm)
                                (scan_opcodes_25_loop n' names consts (skipn 9 code))
                          end
                      end
                  end
              | _ => stop StructError
              end
            else if byte_geb c (HAVE_ARGUMENT ops) then
              scan_opcodes_25_loop n' names consts (skipn 3 code)
            else
              scan_opcodes_25_loop n' names consts (skipn 1 code)
      end
  end.

Definition scan_opcodes_25 (co : code) : stream :=
  scan_opcodes_25_loop (length (co_code co)) (co_names co) (co_consts co)
    (co_code co).

(** [sys.version_info >= (2, 5)], on the (major, minor) prefix. *)
Definition version_ge_25 (v : nat * nat) : bool :=
  (2 <? fst v)%nat || ((fst v =? 2)%nat && (5 <=? snd v)%nat).

(** The scanner [scan_code] selects. *)
Definition scanner (v : nat * nat) (co : code) : stream :=
  if version_ge_25 v then scan_opcodes_25 co else scan_opcodes co.

End WithOpcodes.
End Decoder.

(* ===================================================================== *)
(** ** Nodes, the graph and the host *)
(* ===================================================================== *)

(** The classes of [Node] the engine instantiates. *)
Inductive NodeClass : Type :=
| AliasNode
| ExcludedModule
| MissingModule
| Script
| BuiltinModule
| SourceModule
| CompiledModule
| Package
| Extension
| NamespaceModule.

(** A [Node] object.  [cls] is its class and [node_id] the identity it got
    when it was constructed; [namespace], [globalnames] and [starimports]
    are the addresses of its dict and of its two sets; [code_handle] is the
    attribute [code]. *)
Record Node : Type := {
  cls : NodeClass;
  node_id : nat;
  graphident : string;
  identifier : string;
  namespace : nat;
  filename : option string;
  packagepath : option (list string);
  code_handle : option code;
  globalnames : nat;
  starimports : nat
}.

Definition set_filename (f : option string) (n : Node) : Node :=
  {| cls := cls n; node_id := node_id n; graphident := graphident n;
     identifier := identifier n; namespace := namespace n; filename := f;
     packagepath := packagepath n; code_handle := code_handle n;
     globalnames := globalnames n; starimports := starimports n |}.

Definition set_packagepath (p : option (list string)) (n : Node) : Node :=
  {| cls := cls n; node_id := node_id n; graphident := graphident n;
     identifier := identifier n; namespace := namespace n;
     filename := filename n; packagepath := p; code_handle := code_handle n;
     globalnames := globalnames n; starimports := starimports n |}.

Definition set_code (c : option code) (n : Node) : Node :=
  {| cls := cls n; node_id := node_id n; graphident := graphident n;
     identifier := identifier n; namespace := namespace n;
     filename := filename n; packagepath := packagepath n; code_handle := c;
     globalnames := globalnames n; starimports := starimports n |}.

(** The value registered for a lazy node: [None] (excluded), an [Alias], or
    the list of implied dependencies. *)
Inductive lazy : Type :=
| LazyNone
| LazyAlias (target : string)
| LazyDeps (deps : list string).

(** A [ModuleGraph] object: the nodes by [graphident]; the edges, each with
    its source ([None] is the graph object itself, the source
    [createReference] uses when [fromnode] is [None]), its target and its
    [edge_data]; the attributes [lazynodes], [path] and [replace_paths]; and
    the heap of the dicts and sets the nodes hold, with the next free
    address. *)
Record ModuleGraph : Type := {
  nodes : gmap string Node;
  edges : gset (option string * string * string);
  lazynodes : gmap string lazy;
  path : list string;
  replace_paths : list (string * string);
  dicts : gmap nat (gmap string (option string));
  sets : gmap nat (gset string);
  next : nat
}.

Definition with_nodes (x : gmap string Node) (g : ModuleGraph) : ModuleGraph :=
  {| nodes := x; edges := edges g; lazynodes := lazynodes g; path := path g;
     replace_paths := replace_paths g; dicts := dicts g; sets := sets g;
     next := next g |}.

Definition with_edges (x : gset (option string * string * string))
    (g : ModuleGraph) : ModuleGraph :=
  {| nodes := nodes g; edges := x; lazynodes := lazynodes g; path := path g;
     replace_paths := replace_paths g; dicts := dicts g; sets := sets g;
     next := next g |}.

Definition with_lazynodes (x : gmap string lazy) (g : ModuleGraph) : ModuleGraph :=
  {| nodes := nodes g; edges := edges g; lazynodes := x; path := path g;
     replace_paths := replace_paths g; dicts := dicts g; sets := sets g;
     next := next g |}.

Definition with_dicts (x : gmap nat (gmap string (option string)))
    (g : ModuleGraph) : ModuleGraph :=
  {| nodes := nodes g; edges := edges g; lazynodes := lazynodes g;
     path := path g; replace_paths := replace_paths g; dicts := x;
     sets := sets g; next := next g |}.

Definition with_sets (x : gmap nat (gset string)) (g : ModuleGraph) : ModuleGraph :=
  {| nodes := nodes g; edges := edges g; lazynodes := lazynodes g;
     path := path g; replace_paths := replace_paths g; dicts := dicts g;
     sets := x; next := next g |}.

Definition with_next (x : nat) (g : ModuleGraph) : ModuleGraph :=
  {| nodes := nodes g; edges := edges g; lazynodes := lazynodes g;
     path := path g; replace_paths := replace_paths g; dicts := dicts g;
     sets := sets g; next := x |}.

(** The module types of [imp]; [NAMESPACE] is the tag [find_module] uses for
    a namespace package (the class [NamespaceModule] itself in the source). *)
Inductive modtype : Type :=
| PY_SOURCE
| PY_COMPILED
| C_EXTENSION
| PKG_DIRECTORY
| C_BUILTIN
| NAMESPACE.

(** An open file as the engine uses it: the four bytes [fp.read(4)] returns,
    and the code object the host makes of the file ([compile] of its text for
    a source file, [marshal.load] past the header for a cached one). *)
Record file : Type := {
  head4 : list byte;
  unit_code : code
}.

(** An entry of [sys.modules]: its [__file__] and [__path__]. *)
Record sysmodule : Type := {
  mod_file : option string;
  mod_path : option (list string)
}.

(** What [find_module] returns: [(fp, pathname, (suffix, mode, typ))]. *)
Definition descriptor : Type :=
  option file * option string * (string * string * modtype).

(** The host: the interpreter, its libraries and the file system, and the
    two module-level tables [packagePathMap] and [replacePackageMap].
    [imp_find_module name dirs] is [None] where [imp.find_module] raises
    [ImportError]; [listdir] is [None] where [os.listdir] raises;
    [join_empty f] is [os.path.join(f, '')]; [compile_file pathname] is the
    code object [compile] makes of the text of the file, [None] when the
    file cannot be read. *)
Record Host : Type := {
  opcodes : Opcodes;
  version_info : nat * nat;
  sys_path : list string;
  builtin_module_names : list string;
  sys_modules : string -> option sysmodule;
  imp_find_module : string -> list string ->
                    option (option file * string * (string * string * modtype));
  imp_get_magic : list byte;
  imp_get_suffixes : list (string * string * modtype);
  realpath : string -> string;
  normpath : string -> string;
  join_empty : string -> string;
  basename : string -> string;
  listdir : string -> option (list string);
  compile_file : string -> option code;
  packagePathMap : gmap string (list string);
  replacePackageMap : gmap string string
}.

(* ===================================================================== *)
(** ** The monad of the engine *)
(* ===================================================================== *)

(** How a method ends: it returns [a], or raises [e], in both cases with
    the graph as it has become; or the fuel did not suffice. *)
Inductive result (A : Type) : Type :=
| Ok (a : A) (g : ModuleGraph)
| Raise (e : exn) (g : ModuleGraph)
| OutOfFuel.

Arguments Ok {A} a g.
Arguments Raise {A} e g.
Arguments OutOfFuel {A}.

Definition M (A : Type) : Type := ModuleGraph -> result A.

Definition ret {A} (a : A) : M A := fun g => Ok a g.

Definition bind {A B} (c : M A) (k : A -> M B) : M B :=
  fun g =>
    match c g with
    | Ok a g' => k a g'
    | Raise e g' => Raise e g'
    | OutOfFuel => OutOfFuel
    end.

Definition raise {A} (e : exn) : M A := fun g => Raise e g.

Definition out_of_fuel {A} : M A := fun _ => OutOfFuel.

(** [try: c  except ImportError, msg: ...]: the result of [c], or the
    message of the [ImportError] it raised. *)
Definition try_ImportError {A} (c : M A) : M (A + string) :=
  fun g =>
    match c g with
    | Ok a g' => Ok (inl a) g'
    | Raise (ImportError msg) g' => Ok (inr msg) g'
    | Raise e g' => Raise e g'
    | OutOfFuel => OutOfFuel
    end.

Declare Scope m_scope.
Delimit Scope m_scope with M.
Notation "x <- c ;; k" := (bind c (fun x => k))
  (at level 100, c at next level, right associativity) : m_scope.
Notation "c ;; k" := (bind c (fun _ => k))
  (at level 100, right associativity) : m_scope.
Open Scope m_scope.

Fixpoint forM_ {A} (l : list A) (body : A -> M unit) : M unit :=
  match l with
  | [] => ret tt
  | x :: r => body x ;; forM_ r body
  end.

Fixpoint foldM {A B} (body : B -> A -> M B) (acc : B) (l : list A) : M B :=
  match l with
  | [] => ret acc
  | x :: r => acc' <- body acc x ;; foldM body acc' r
  end.

Definition assert (b : bool) : M unit :=
  if b then ret tt else raise AssertionError.

(** The node a reference denotes. *)
Definition node (r : string) : M Node :=
  fun g =>
    match nodes g !! r with
    | Some n => Ok n g
    | None => Raise (Dangling r) g
    end.

(** Assignment to an attribute of the node [r]. *)
Definition update_node (r : string) (f : Node -> Node) : M unit :=
  fun g => Ok tt (with_nodes (alter f r (nodes g)) g).

(** Allocation: the next free address. *)
Definition fresh : M nat :=
  fun g => Ok (next g) (with_next (S (next g)) g).

Definition new_dict : M nat :=
  l <- fresh ;;
  fun g => Ok l (with_dicts (<[l := ∅]> (dicts g)) g).

Definition new_set : M nat :=
  l <- fresh ;;
  fun g => Ok l (with_sets (<[l := ∅]> (sets g)) g).

Definition dict_at (l : nat) (g : ModuleGraph) : gmap string (option string) :=
  default ∅ (dicts g !! l).

Definition set_at (l : nat) (g : ModuleGraph) : gset string :=
  default ∅ (sets g !! l).

(** [d.get(k)] / [k in d] on the dict at [l]: the entry, if there is one. *)
Definition dict_get (l : nat) (k : string) : M (option (option string)) :=
  fun g => Ok (dict_at l g !! k) g.

(** [d[k] = v] *)
Definition dict_set (l : nat) (k : string) (v : option string) : M unit :=
  fun g => Ok tt (with_dicts (<[l := <[k := v]> (dict_at l g)]> (dicts g)) g).

(** [s.add(x)] *)
Definition set_add (l : nat) (x : string) : M unit :=
  fun g => Ok tt (with_sets (<[l := set_at l g ∪ {[x]}]> (sets g)) g).

(** [s.update(t)] for the sets at [l] and [l'] *)
Definition set_update (l l' : nat) : M unit :=
  fun g => Ok tt (with_sets (<[l := set_at l g ∪ set_at l' g]> (sets g)) g).

(** [s.pop()] *)
Definition pop (s : gset string) : M string :=
  match elements s with
  | x :: _ => ret x
  | [] => raise (KeyError "pop from an empty set")
  end.

(** Truth value of a [packagepath]: [None] and the empty list are false. *)
Definition path_true (p : option (list string)) : bool :=
  match p with
  | Some (_ :: _) => true
  | _ => false
  end.

Definition qualify (pkg name : string) : string := pkg +:+ "." +:+ name.

(* ===================================================================== *)
(** ** The graph container *)
(* ===================================================================== *)

(** [ModuleGraph] inherits node and edge storage from [ObjectGraph] of the
    [altgraph] library, which is not part of the repository. *)
Module ObjectGraph.

(** Modelled from the spec: [ObjectGraph.findNode] of altgraph, which is
    not under src/.  The graph holds at most one Node per identifier and
    looks it up by that key. *)
Definition findNode (name : string) : M (option string) :=
  fun g =>
    match nodes g !! name with
    | Some _ => Ok (Some name) g
    | None => Ok None g
    end.

(** Modelled from the spec: [ObjectGraph.addNode] of altgraph, which is
    not under src/.  A node is stored under its [graphident]; a node that
    is already stored is kept. *)
Definition addNode (n : Node) : M unit :=
  fun g =>
    match nodes g !! graphident n with
    | Some _ => Ok tt g
    | None => Ok tt (with_nodes (<[graphident n := n]> (nodes g)) g)
    end.

(** Modelled from the spec: [ObjectGraph.createReference] of altgraph,
    which is not under src/.  Edges are (source, target, kind) triples and
    an edge that is created again is not duplicated; a [None] source is the
    graph itself, a [None] target adds nothing. *)
Definition createReference (fromnode tonode : option string)
    (edge_data : string) : M unit :=
  fun g =>
    match tonode with
    | None => Ok tt g
    | Some t => Ok tt (with_edges (edges g ∪ {[(fromnode, t, edge_data)]}) g)
    end.

End ObjectGraph.

(** [ModuleGraph.createReference]: [edge_data] defaults to ['direct']. *)
Definition createReference (fromnode tonode : option string) : M unit :=
  ObjectGraph.createReference fromnode tonode "direct".

(** [Node.__init__]: a new identity, an empty namespace and empty name sets. *)
Definition Node_init (c : NodeClass) (ident : string) : M Node :=
  i <- fresh ;;
  ns <- new_dict ;;
  gn <- new_set ;;
  si <- new_set ;;
  ret {| cls := c; node_id := i; graphident := ident; identifier := ident;
         namespace := ns; filename := None; packagepath := None;
         code_handle := None; globalnames := gn; starimports := si |}.

(** [cls(name, *args)].  [Script.__init__] records the file name.
    [AliasNode.__init__] takes over the attributes [identifier],
    [packagepath], [namespace] and [globalnames] of the target; the fifth
    name it lists is ['startimports'], an attribute no node has, so
    [starimports] stays the alias's own empty set. *)
Definition construct (c : NodeClass) (name : string) (arg : option string)
    : M Node :=
  n <- Node_init c name ;;
  match c with
  | Script => ret (set_filename (Some name) n)
  | AliasNode =>
      match arg with
      | None => raise TypeError
      | Some o =>
          t <- node o ;;
          ret {| cls := cls n; node_id := node_id n;
                 graphident := graphident n; identifier := identifier t;
                 namespace := namespace t; filename := filename n;
                 packagepath := packagepath t; code_handle := code_handle n;
                 globalnames := globalnames t; starimports := starimports n |}
      end
  | _ => ret n
  end.

(** Modelled from the spec: [ObjectGraph.createNode] of altgraph, which is
    not under src/.  It asks [self.findNode] (the method [ModuleGraph]
    overrides, passed here as [find]) and constructs and stores a node only
    when there is none. *)
Definition createNode (find : string -> M (option string)) (c : NodeClass)
    (name : string) (arg : option string) : M string :=
  m <- find name ;;
  match m with
  | Some r => ret r
  | None =>
      n <- construct c name arg ;;
      ObjectGraph.addNode n ;;
      ret (graphident n)
  end.

(** [ModuleGraph.__init__]: implied entries first, then the excluded names,
    which overwrite them ("excludes is stronger than implies"). *)
Definition ModuleGraph_init (sys_path : list string) (path : option (list string))
    (excludes : list string) (replace_paths : list (string * string))
    (implies : list (string * lazy)) : ModuleGraph :=
  {| nodes := ∅;
     edges := ∅;
     lazynodes :=
       foldl (fun acc m => <[m := LazyNone]> acc)
             (foldl (fun acc kv => <[fst kv := snd kv]> acc) ∅ implies)
             excludes;
     path := default sys_path path;
     replace_paths := replace_paths;
     dicts := ∅;
     sets := ∅;
     next := 0%nat |}.

(* ===================================================================== *)
(** ** The resolution engine *)
(* ===================================================================== *)

(** What [implyNodeReference] is given as [other]: a module name or a node
    (the engine itself passes nothing else). *)
Inductive implied : Type :=
| IName (name : string)
| INode (ref : string).

(** Equality of byte strings. *)
Fixpoint bytes_eqb (a b : list byte) : bool :=
  match a, b with
  | [], [] => true
  | x :: a', y :: b' => Byte.eqb x y && bytes_eqb a' b'
  | _, _ => false
  end.

(** The methods of [ModuleGraph] call one another through [self].  A call is
    a value of [call A], [A] being what the method returns, and [self] maps
    a call to its computation. *)
Inductive call : Type -> Type :=
| FindNode (name : string) : call (option string)
| ImplyNodeReference (n : string) (other : implied) : call unit
| RunScript (pathname : string) (caller : option string) : call string
| ImportHook (name : string) (caller : option string)
    (fromlist : option (list string)) (level : Z) : call (gset string)
| DetermineParent (caller : option string) (level : Z) : call (option string)
| FindHeadPackage (parent : option string) (name : string)
    : call (string * string)
| LoadTail (q tail : string) : call string
| EnsureFromlist (m : string) (fromlist : list string) : call (gset string)
| ImportModule (partname fqname : string) (parent : option string)
    : call (option string)
| LoadModule (fqname : string) (fp : option file) (pathname : option string)
    (stuff : string * string * modtype) : call string
| SafeImportHook (name : string) (caller : option string)
    (fromlist : option (list string)) (level : Z) : call (gset string)
| ScanCode (co : code) (m : string) : call unit
| LoadPackage (fqname : string) (pathname : option string) : call string
| FindModule (name : string) (search : option (list string))
    (parent : option string) : call descriptor.

Definition Self : Type := forall A : Type, call A -> M A.

(** [self.findNode(name)], [self.import_hook(...)], ... *)
Module self.
Section Calls.
Variable self : Self.
Definition findNode name := self _ (FindNode name).
Definition implyNodeReference n other := self _ (ImplyNodeReference n other).
Definition run_script pathname caller := self _ (RunScript pathname caller).
Definition import_hook name caller fromlist level :=
  self _ (ImportHook name caller fromlist level).
Definition determine_parent caller level := self _ (DetermineParent caller level).
Definition find_head_package parent name := self _ (FindHeadPackage parent name).
Definition load_tail q tail := self _ (LoadTail q tail).
Definition ensure_fromlist m fromlist := self _ (EnsureFromlist m fromlist).
Definition import_module partname fqname parent :=
  self _ (ImportModule partname fqname parent).
Definition load_module fqname fp pathname stuff :=
  self _ (LoadModule fqname fp pathname stuff).
Definition _safe_import_hook name caller fromlist level :=
  self _ (SafeImportHook name caller fromlist level).
Definition scan_code co m := self _ (ScanCode co m).
Definition load_package fqname pathname := self _ (LoadPackage fqname pathname).
Definition find_module name search parent := self _ (FindModule name search parent).
End Calls.
End self.

(** [if buf: buf = os.path.realpath(buf)] *)
Definition location (host : Host) (buf : string) : string :=
  if Str.nonempty buf then realpath host buf else buf.

(** The bodies of the methods of [ModuleGraph], in the order of the source. *)
Module Methods.
Section Methods.

Variable host : Host.
Variable self : Self.

(** [if name in self.lazynodes: deps = self.lazynodes.pop(name)] *)
Definition lazy_pop (name : string) : M (option lazy) :=
  fun g =>
    match lazynodes g !! name with
    | None => Ok None g
    | Some deps => Ok (Some deps) (with_lazynodes (delete name (lazynodes g)) g)
    end.

Definition implyNodeReference (n : string) (other : implied) : M unit :=
  match other with
  | IName name =>
      others <- self.import_hook self name (Some n) None (-1) ;;
      forM_ (elements others) (fun o => createReference (Some n) (Some o))
  | INode o =>
      on <- node o ;;
      match cls on with
      | AliasNode =>
          ObjectGraph.addNode on ;;
          raise (AttributeError "connectTo")
      | _ => createReference (Some n) (Some o)
      end
  end.

Definition findNode (name : string) : M (option string) :=
  data <- ObjectGraph.findNode name ;;
  match data with
  | Some d => ret (Some d)
  | None =>
      deps <- lazy_pop name ;;
      match deps with
      | None => ret None
      | Some LazyNone =>
          m <- createNode (self.findNode self) ExcludedModule name None ;;
          ret (Some m)
      | Some (LazyAlias target) =>
          subs <- self._safe_import_hook self target None None (-1) ;;
          other <- pop subs ;;
          m <- createNode (self.findNode self) AliasNode name (Some other) ;;
          self.implyNodeReference self m (INode other) ;;
          ret (Some m)
      | Some (LazyDeps deps) =>
          subs <- self._safe_import_hook self name None None (-1) ;;
          m <- pop subs ;;
          forM_ deps (fun dep => self.implyNodeReference self m (IName dep)) ;;
          ret (Some m)
      end
  end.

(** The loop of [replace_paths_in_code] over [self.replace_paths]: the
    first rule whose prefix the file name starts with rewrites it. *)
Fixpoint rewrite_filename (rules : list (string * string)) (original : string)
    : string :=
  match rules with
  | [] => original
  | (f, r) :: rest =>
      let f := join_empty host f in
      let r := join_empty host r in
      if Str.startswith f original
      then r +:+ Str.drop (String.length f) original
      else rewrite_filename rest original
  end.

(** [replace_paths_in_code], for [self.replace_paths = rules] *)
Fixpoint replace_paths_in_code (rules : list (string * string)) (co : code)
    : code :=
  match co with
  | Code c names consts fname =>
      Code c names
        (map (fun k => match k with
                       | CCode c' => CCode (replace_paths_in_code rules c')
                       | _ => k
                       end) consts)
        (rewrite_filename rules (normpath host fname))
  end.

(** [if self.replace_paths: co = self.replace_paths_in_code(co)] *)
Definition replaced (co : code) : M code :=
  fun g =>
    match replace_paths g with
    | [] => Ok co g
    | rules => Ok (replace_paths_in_code rules co) g
    end.

(** [compile(file(pathname, READ_MODE).read()+'\n', pathname, 'exec')] *)
Definition compile (pathname : string) : M code :=
  match compile_file host pathname with
  | Some co => ret co
  | None => raise (IOError pathname)
  end.

Definition run_script (pathname : string) (caller : option string) : M string :=
  let pathname := realpath host pathname in
  m <- self.findNode self pathname ;;
  match m with
  | Some r => ret r
  | None =>
      co <- compile pathname ;;
      co <- replaced co ;;
      m <- createNode (self.findNode self) Script pathname None ;;
      update_node m (set_code (Some co)) ;;
      createReference caller (Some m) ;;
      self.scan_code self co m ;;
      ret m
  end.

Definition import_hook (name : string) (caller : option string)
    (fromlist : option (list string)) (level : Z) : M (gset string) :=
  parent <- self.determine_parent self caller level ;;
  qt <- self.find_head_package self parent name ;;
  m <- self.load_tail self (fst qt) (snd qt) ;;
  mn <- node m ;;
  subs <- (match fromlist with
           | Some (x :: l) =>
               if path_true (packagepath mn)
               then self.ensure_fromlist self m (x :: l)
               else ret ∅
           | _ => ret ∅
           end) ;;
  let modules : gset string := {[m]} ∪ subs in
  forM_ (elements modules) (fun x => createReference caller (Some x)) ;;
  ret modules.

Definition determine_parent (caller : option string) (level : Z)
    : M (option string) :=
  match caller with
  | None => ret None
  | Some c =>
      if (level =? 0)%Z then ret None
      else
        cn <- node c ;;
        let pname := identifier cn in
        if (1 <=? level)%Z then
          let level :=
            if path_true (packagepath cn) then (level - 1)%Z else level in
          if (level =? 0)%Z then
            parent <- self.findNode self pname ;;
            assert (bool_decide (parent = Some c)) ;;
            ret parent
          else if (Z.of_nat (Str.count_dot pname) <? level)%Z then
            raise (ImportError "relative importpath too deep")
          else
            self.findNode self
              (Str.join_dot
                 (Str.drop_last (Z.to_nat level) (Str.split_dot pname)))
        else if path_true (packagepath cn) then
          parent <- self.findNode self pname ;;
          assert (bool_decide (Some c = parent)) ;;
          ret parent
        else if Str.has_dot pname then
          let pname := Str.before_last_dot pname in
          parent <- self.findNode self pname ;;
          match parent with
          | Some p =>
              pn <- node p ;;
              assert (String.eqb (identifier pn) pname) ;;
              ret parent
          | None => ret parent
          end
        else ret None
  end.

Definition find_head_package (parent : option string) (name : string)
    : M (string * string) :=
  let head := fst (Str.cut name) in
  let tail := default "" (snd (Str.cut name)) in
  qname <- (match parent with
            | Some p => pn <- node p ;; ret (qualify (identifier pn) head)
            | None => ret head
            end) ;;
  q <- self.import_module self head qname parent ;;
  match q with
  | Some q' => ret (q', tail)
  | None =>
      match parent with
      | Some _ =>
          q <- self.import_module self head head None ;;
          match q with
          | Some q' => ret (q', tail)
          | None => raise (ImportError ("No module named " +:+ head))
          end
      | None => raise (ImportError ("No module named " +:+ qname))
      end
  end.

(** One turn of [while tail] and, through [self], the rest of the loop. *)
Definition load_tail (q : string) (tail : string) : M string :=
  if Str.nonempty tail then
    let head := fst (Str.cut tail) in
    let tail := default "" (snd (Str.cut tail)) in
    mn <- node q ;;
    let mname := qualify (identifier mn) head in
    m <- self.import_module self head mname (Some q) ;;
    match m with
    | None => raise (ImportError ("No module named " +:+ mname))
    | Some m' => self.load_tail self m' tail
    end
  else ret q.

(** [moduleInfoForPath]: the module name of a file name that ends in one
    of the host's module suffixes. *)
Fixpoint moduleInfo (suffixes : list (string * string * modtype))
    (p : string) : option string :=
  match suffixes with
  | [] => None
  | (ext, _, _) :: r =>
      if Str.endswith ext p then Some (Str.strip_suffix ext (basename host p))
      else moduleInfo r p
  end.

Definition moduleInfoForPath (p : string) : option string :=
  moduleInfo (imp_get_suffixes host) p.

(** [find_all_submodules]: the names the generator yields.  A directory
    that cannot be listed is skipped. *)
Definition find_all_submodules (m : string) : M (list string) :=
  n <- node m ;;
  if path_true (packagepath n) then
    ret (flat_map
           (fun dir =>
              match listdir host dir with
              | None => []
              | Some names =>
                  filter (fun x => x ≠ "__init__")
                         (omap moduleInfoForPath names)
              end)
           (default [] (packagepath n)))
  else ret [].

(** [ensure_fromlist]: the set of the nodes the generator yields; the
    from-list is visited in the order of [elements]. *)
Definition ensure_fromlist (m : string) (fromlist : list string)
    : M (gset string) :=
  let fl : gset string := list_to_set fromlist in
  fl <- (if bool_decide ("*" ∈ fl) then
           subs <- find_all_submodules m ;;
           ret ((fl ∪ list_to_set subs) ∖ {["*"]})
         else ret fl) ;;
  foldM (fun (acc : gset string) sub =>
           mn <- node m ;;
           submod <- dict_get (namespace mn) sub ;;
           match mjoin submod with
           | Some s => ret (acc ∪ {[s]})
           | None =>
               let fullname := qualify (identifier mn) sub in
               submod <- self.import_module self sub fullname (Some m) ;;
               match submod with
               | None => raise (ImportError ("No module named " +:+ fullname))
               | Some s => ret (acc ∪ {[s]})
               end
           end)
        ∅ (elements fl).

Definition import_module (partname fqname : string) (parent : option string)
    : M (option string) :=
  m <- self.findNode self fqname ;;
  match m with
  | Some m' =>
      (match parent with
       | Some p => createReference (Some m') (Some p)
       | None => ret tt
       end) ;;
      ret (Some m')
  | None =>
      ppath <- (match parent with
                | Some p => pn <- node p ;; ret (Some (packagepath pn))
                | None => ret None
                end) ;;
      match ppath with
      | Some None => ret None
      | _ =>
          found <- try_ImportError
                     (self.find_module self partname (mjoin ppath) parent) ;;
          match found with
          | inr _ => ret None
          | inl d =>
              m <- self.load_module self fqname (fst (fst d)) (snd (fst d)) (snd d) ;;
              (match parent with
               | Some p =>
                   createReference (Some m) (Some p) ;;
                   pn <- node p ;;
                   dict_set (namespace pn) partname (Some m)
               | None => ret tt
               end) ;;
              ret (Some m)
          end
      end
  end.

(** The first half of [load_module] for a unit that is not a package
    directory: the class of the node, its code object and its package
    path.  A cached unit whose first four bytes are not the host's magic
    number is refused. *)
Definition unit_of (fqname : string) (fp : option file)
    (pathname : option string) (typ : modtype)
    : M (NodeClass * option code * option (list string)) :=
  let read (k : file -> M (NodeClass * option code * option (list string))) :=
    match fp with
    | Some fl => k fl
    | None => raise (AttributeError "read")
    end in
  match typ with
  | PY_SOURCE =>
      read (fun fl => ret (SourceModule, Some (unit_code fl), None))
  | PY_COMPILED =>
      read (fun fl =>
        if bytes_eqb (head4 fl) (imp_get_magic host)
        then ret (CompiledModule, Some (unit_code fl), None)
        else raise (ImportError
               ("Bad magic number in " +:+ default "None" pathname)))
  | C_BUILTIN => ret (BuiltinModule, None, None)
  | NAMESPACE =>
      match sys_modules host fqname with
      | None => raise (KeyError fqname)
      | Some sm =>
          match mod_path sm with
          | None => raise (AttributeError "__path__")
          | Some p => ret (NamespaceModule, None, Some p)
          end
      end
  | _ => ret (Extension, None, None)
  end.

Definition load_module (fqname : string) (fp : option file)
    (pathname : option string) (stuff : string * string * modtype)
    : M string :=
  match snd stuff with
  | PKG_DIRECTORY => self.load_package self fqname pathname
  | _ =>
      plan <- unit_of fqname fp pathname (snd stuff) ;;
      let c := fst (fst plan) in
      let co := snd (fst plan) in
      let packagepath := snd plan in
      m <- createNode (self.findNode self) c fqname None ;;
      update_node m (set_filename pathname) ;;
      (match co with
       | Some co =>
           co <- replaced co ;;
           update_node m (set_code (Some co)) ;;
           self.scan_code self co m
       | None => ret tt
       end) ;;
      (match packagepath with
       | Some p => update_node m (set_packagepath (Some p))
       | None => ret tt
       end) ;;
      ret m
  end.

Definition _safe_import_hook (name : string) (caller : option string)
    (fromlist : option (list string)) (level : Z) : M (gset string) :=
  r <- try_ImportError (self.import_hook self name caller None level) ;;
  m <- (match r with
        | inr _ =>
            m <- createNode (self.findNode self) MissingModule name None ;;
            createReference caller (Some m) ;;
            ret m
        | inl mods =>
            assert (Nat.eqb (size mods) 1) ;;
            pop mods
        end) ;;
  foldM (fun (subs : gset string) sub =>
           mn <- node m ;;
           known <- dict_get (namespace mn) sub ;;
           match known with
           | Some sm =>
               createReference caller sm ;;
               ret (match sm with
                    | Some x => subs ∪ {[x]}
                    | None => subs
                    end)
           | None =>
               let fullname := qualify name sub in
               sm <- self.findNode self fullname ;;
               sm <- (match sm with
                      | Some _ => ret sm
                      | None =>
                          r <- try_ImportError
                                 (self.import_hook self name caller (Some [sub]) level) ;;
                          match r with
                          | inr _ =>
                              x <- createNode (self.findNode self) MissingModule
                                     fullname None ;;
                              ret (Some x)
                          | inl _ => self.findNode self fullname
                          end
                      end) ;;
               dict_set (namespace mn) sub sm ;;
               match sm with
               | Some x =>
                   createReference (Some x) (Some m) ;;
                   ret (subs ∪ {[x]})
               | None => ret subs
               end
           end)
        {[m]} (default [] fromlist).

(** The from-list constant of an import event: [None] or a tuple of names.
    The compiler emits nothing else in this position. *)
Definition as_fromlist (k : const) : M (option (list string)) :=
  match k with
  | CNone => ret None
  | CNames l => ret (Some l)
  | _ => raise TypeError
  end.

(** The level constant of a relative import event, an integer. *)
Definition as_level (k : const) : M Z :=
  match k with
  | CInt z => ret z
  | _ => raise TypeError
  end.

(** The branch of [scan_code] for the events ["import"] ([level] -1) and
    ["absolute_import"] ([level] 0). *)
Definition scan_import (m : string) (level : Z) (fromlist : const)
    (name : string) : M unit :=
  fl <- as_fromlist fromlist ;;
  let have_star :=
    match fl with
    | Some l => bool_decide ("*" ∈ l)
    | None => false
    end in
  let fl := option_map (filter (fun f => f ≠ "*")) fl in
  self._safe_import_hook self name (Some m) fl level ;;
  if have_star then
    mn <- node m ;;
    mm <- (if path_true (packagepath mn)
           then self.findNode self (qualify (identifier mn) name)
           else ret None) ;;
    mm <- (match mm with
           | None => self.findNode self name
           | Some _ => ret mm
           end) ;;
    match mm with
    | Some r =>
        mmn <- node r ;;
        set_update (globalnames mn) (globalnames mmn) ;;
        set_update (starimports mn) (starimports mmn) ;;
        match code_handle mmn with
        | None => set_add (starimports mn) name
        | Some _ => ret tt
        end
    | None => set_add (starimports mn) name
    end
  else ret tt.

(** The body of the loop of [scan_code], for one event of the scanner. *)
Definition scan_event (m : string) (ev : event) : M unit :=
  match ev with
  | Store name =>
      mn <- node m ;;
      set_add (globalnames mn) name
  | Import fromlist name => scan_import m (-1) fromlist name
  | AbsoluteImport fromlist name => scan_import m 0 fromlist name
  | RelativeImport level fromlist name =>
      level <- as_level level ;;
      fl <- as_fromlist fromlist ;;
      if Str.nonempty name then
        self._safe_import_hook self name (Some m) fl level ;; ret tt
      else
        parent <- self.determine_parent self (Some m) level ;;
        match parent with
        | None => raise (AttributeError "identifier")
        | Some p =>
            pn <- node p ;;
            self._safe_import_hook self (identifier pn) None fl 0 ;; ret tt
        end
  end.

Definition scan_code (co : code) (m : string) : M unit :=
  let events := Decoder.scanner (opcodes host) (version_info host) co in
  forM_ (fst events) (scan_event m) ;;
  (match snd events with
   | Some e => raise e
   | None => ret tt
   end) ;;
  forM_ (co_consts co)
        (fun c => match c with
                  | CCode c' => self.scan_code self c' m
                  | _ => ret tt
                  end).

Definition load_package (fqname : string) (pathname : option string)
    : M string :=
  match pathname with
  | None => raise TypeError
  | Some pathname =>
      let fqname :=
        match replacePackageMap host !! fqname with
        | Some newname => if Str.nonempty newname then newname else fqname
        | None => fqname
        end in
      m <- createNode (self.findNode self) Package fqname None ;;
      update_node m (set_filename (Some pathname)) ;;
      let additions := default [] (packagePathMap host !! fqname) in
      update_node m
        (set_packagepath
           (Some (if bool_decide (pathname ∈ additions) then additions
                  else pathname :: additions))) ;;
      mn <- node m ;;
      d <- self.find_module self "__init__" (packagepath mn) None ;;
      self.load_module self fqname (fst (fst d)) (snd (fst d)) (snd d) ;;
      ret m
  end.

(** The descriptor [find_module] returns once the name is known not to be
    materialized: a builtin when no path is given, what [imp.find_module]
    finds, or a namespace package the host has already loaded. *)
Definition locate (name fullname : string) (search : option (list string))
    : M descriptor :=
  fun g =>
    let probe (dirs : list string) : result descriptor :=
      match imp_find_module host name dirs with
      | Some (fp, buf, stuff) =>
          Ok (fp, Some (location host buf), stuff) g
      | None =>
          match sys_modules host fullname with
          | None => Raise (ImportError ("No module named " +:+ name)) g
          | Some sm =>
              if Str.nonempty (default "" (mod_file sm))
                 || negb (path_true (mod_path sm))
              then Raise (ImportError ("No module named " +:+ name)) g
              else Ok (None, None, ("", "", NAMESPACE)) g
          end
      end in
    match search with
    | None =>
        if bool_decide (name ∈ builtin_module_names host)
        then Ok (None, None, ("", "", C_BUILTIN)) g
        else probe (path g)
    | Some dirs => probe dirs
    end.

Definition find_module (name : string) (search : option (list string))
    (parent : option string) : M descriptor :=
  fullname <- (match parent with
               | Some p => pn <- node p ;; ret (qualify (identifier pn) name)
               | None => ret name
               end) ;;
  nd <- self.findNode self fullname ;;
  match nd with
  | Some _ => raise (ImportError name)
  | None => locate name fullname search
  end.

(** The method a call denotes. *)
Definition dispatch : Self :=
  fun A c =>
    match c in call T return M T with
    | FindNode name => findNode name
    | ImplyNodeReference n other => implyNodeReference n other
    | RunScript pathname caller => run_script pathname caller
    | ImportHook name caller fromlist level =>
        import_hook name caller fromlist level
    | DetermineParent caller level => determine_parent caller level
    | FindHeadPackage parent name => find_head_package parent name
    | LoadTail q tail => load_tail q tail
    | EnsureFromlist m fromlist => ensure_fromlist m fromlist
    | ImportModule partname fqname parent =>
        import_module partname fqname parent
    | LoadModule fqname fp pathname stuff =>
        load_module fqname fp pathname stuff
    | SafeImportHook name caller fromlist level =>
        _safe_import_hook name caller fromlist level
    | ScanCode co m => scan_code co m
    | LoadPackage fqname pathname => load_package fqname pathname
    | FindModule name search parent => find_module name search parent
    end.

End Methods.
End Methods.

(** [self] with the calls nested at most [fuel] deep. *)
Fixpoint bound (host : Host) (fuel : nat) : Self :=
  match fuel with
  | O => fun _ _ => out_of_fuel
  | S f => Methods.dispatch host (bound host f)
  end.

(** The methods of a [ModuleGraph] on the host [host]. *)
Section API.

Variable host : Host.
Variable fuel : nat.

Definition findNode := self.findNode (bound host fuel).
Definition implyNodeReference := self.implyNodeReference (bound host fuel).
Definition run_script := self.run_script (bound host fuel).
Definition import_hook := self.import_hook (bound host fuel).
Definition determine_parent := self.determine_parent (bound host fuel).
Definition find_head_package := self.find_head_package (bound host fuel).
Definition load_tail := self.load_tail (bound host fuel).
Definition ensure_fromlist := self.ensure_fromlist (bound host fuel).
Definition import_module := self.import_module (bound host fuel).
Definition load_module := self.load_module (bound host fuel).
Definition _safe_import_hook := self._safe_import_hook (bound host fuel).
Definition scan_code := self.scan_code (bound host fuel).
Definition load_package := self.load_package (bound host fuel).
Definition find_module := self.find_module (bound host fuel).

End API.

(* ===================================================================== *)
(** ** Notions used in the statements *)
(* ===================================================================== *)

(** [stable c c']: wherever [c] ends (returns or raises), [c'] ends in the
    same way. *)
Definition stable {A} (c c' : M A) : Prop :=
  forall g, c g = OutOfFuel \/ c' g = c g.

(** [le_self s s']: every call that ends under [s] ends in the same way
    under [s']. *)
Definition le_self (s s' : Self) : Prop :=
  forall A (c : call A), stable (s A c) (s' A c).

(** [same_object n n']: [n'] is the node object [n], possibly with other
    values in the attributes the engine assigns after construction
    ([filename], [packagepath], [code]). *)
Definition same_object (n n' : Node) : Prop :=
  node_id n' = node_id n /\ cls n' = cls n /\ graphident n' = graphident n
  /\ identifier n' = identifier n /\ namespace n' = namespace n
  /\ globalnames n' = globalnames n /\ starimports n' = starimports n.

(** The addresses a node holds are below [k]. *)
Definition allocated (k : nat) (n : Node) : Prop :=
  (node_id n < k)%nat /\ (namespace n < k)%nat /\ (globalnames n < k)%nat
  /\ (starimports n < k)%nat.

(** A graph is well formed when every node is stored under its
    [graphident] and the objects it holds have been allocated. *)
Definition wf (g : ModuleGraph) : Prop :=
  forall i n, nodes g !! i = Some n -> graphident n = i /\ allocated (next g) n.

(** [grows g g']: every node of [g] is still there, the same object; no
    edge and no element of a name set was removed. *)
Definition grows (g g' : ModuleGraph) : Prop :=
  (forall i n, nodes g !! i = Some n ->
     exists n', nodes g' !! i = Some n' /\ same_object n n')
  /\ edges g ⊆ edges g'
  /\ (forall l, (l < next g)%nat -> set_at l g ⊆ set_at l g')
  /\ (next g <= next g')%nat.

(** [mono c]: from a well-formed graph, [c] ends in a well-formed graph
    that has grown. *)
Definition mono {A} (c : M A) : Prop :=
  forall g, wf g ->
    match c g with
    | Ok _ g' | Raise _ g' => wf g' /\ grows g g'
    | OutOfFuel => True
    end.

(** [readonly c]: [c] leaves the graph as it is. *)
Definition readonly {A} (c : M A) : Prop :=
  forall g,
    match c g with
    | Ok _ g' | Raise _ g' => g' = g
    | OutOfFuel => True
    end.

(** What a constructor does to the graph: it allocates, and leaves the
    nodes, the edges, the lazy registry and the allocated objects alone. *)
Definition allocates (g g' : ModuleGraph) : Prop :=
  nodes g' = nodes g /\ edges g' = edges g /\ lazynodes g' = lazynodes g
  /\ (next g <= next g')%nat
  /\ (forall l, (l < next g)%nat -> sets g' !! l = sets g !! l)
  /\ (forall l, (l < next g)%nat -> dicts g' !! l = dicts g !! l).

(** Well-formedness can be checked by computation. *)
Definition allocatedb (k : nat) (n : Node) : bool :=
  (node_id n <? k)%nat && (namespace n <? k)%nat && (globalnames n <? k)%nat
  && (starimports n <? k)%nat.

Definition wfb (g : ModuleGraph) : bool :=
  forallb (fun kv => String.eqb (graphident (snd kv)) (fst kv)
                     && allocatedb (next g) (snd kv))
          (map_to_list (nodes g)).

(** The graph after [createReference fromnode (Some t)]. *)
Definition linked (fromnode : option string) (t : string) (g : ModuleGraph)
    : ModuleGraph :=
  with_edges (edges g ∪ {[(fromnode, t, "direct")]}) g.

(** A graph with one module, for the examples. *)
Definition module_a : Node :=
  {| cls := SourceModule; node_id := 0; graphident := "a"; identifier := "a";
     namespace := 1; filename := Some "/app/a.py"; packagepath := None;
     code_handle := None; globalnames := 2; starimports := 3 |}.

Definition graph_a : ModuleGraph :=
  {| nodes := {["a" := module_a]}; edges := ∅; lazynodes := ∅;
     path := ["/app"]; replace_paths := [];
     dicts := {[1%nat := ∅]}; sets := {[2%nat := ∅; 3%nat := ∅]};
     next := 4 |}.

(* ===================================================================== *)
(** ** A host for the examples *)
(* ===================================================================== *)

(** A small application directory on a CPython 2.7 host:
    - [/app/script.py]: [import pkg.sub]
    - [/app/pkg/__init__.py]: empty
    - [/app/pkg/sub.py]: [import pkg.missing]
    - [/app/p/__init__.py]: [A = 1; B = 2]
    - [/app/star.py]: [from p import *]
    - [/app/deep.py]: [from .x import y]
    - [/app/lonely.py]: [import missing]
    - [/app/usebad.py]: [import bad]
    - [/app/bad.pyc]: a cached unit whose first four bytes are zero. *)
Module World.

(** The opcode numbers of CPython 2.7. *)
Definition py27 : Opcodes :=
  {| LOAD_CONST := "d"%byte; IMPORT_NAME := "l"%byte; STORE_NAME := "Z"%byte;
     STORE_GLOBAL := "a"%byte; HAVE_ARGUMENT := "Z"%byte |}.

Definition ins (opcode arg : byte) : list byte := [opcode; arg; x00].
Definition RETURN_VALUE : list byte := ["S"%byte].
Definition IMPORT_STAR : list byte := ["T"%byte].
Definition POP_TOP : list byte := [x01].

(** [import <name>], which binds [<top>]. *)
Definition import_stmt (file name top : string) : code :=
  Code (ins "d" x00 ++ ins "d" x01 ++ ins "l" x00 ++ ins "Z" x01
        ++ ins "d" x01 ++ RETURN_VALUE)
       [name; top] [CInt (-1); CNone] file.

Definition script_py : code := import_stmt "/app/script.py" "pkg.sub" "pkg".

Definition pkg_init_py : code :=
  Code (ins "d" x00 ++ RETURN_VALUE) [] [CNone] "/app/pkg/__init__.py".

Definition sub_py : code := import_stmt "/app/pkg/sub.py" "pkg.missing" "pkg".

Definition usebad_py : code := import_stmt "/app/usebad.py" "bad" "bad".

Definition lonely_py : code := import_stmt "/app/lonely.py" "missing" "missing".

(** [A = 1; B = 2] *)
Definition p_init_py : code :=
  Code (ins "d" x00 ++ ins "Z" x00 ++ ins "d" x01 ++ ins "Z" x01
        ++ ins "d" x02 ++ RETURN_VALUE)
       ["A"; "B"] [CInt 1; CInt 2; CNone] "/app/p/__init__.py".

(** [from p import *] *)
Definition star_py : code :=
  Code (ins "d" x00 ++ ins "d" x01 ++ ins "l" x00 ++ IMPORT_STAR
        ++ ins "d" x02 ++ RETURN_VALUE)
       ["p"] [CInt (-1); CNames ["*"]; CNone] "/app/star.py".

(** [from .x import y] *)
Definition deep_py : code :=
  Code (ins "d" x00 ++ ins "d" x01 ++ ins "l" x00 ++ ins "m" x01
        ++ ins "Z" x01 ++ POP_TOP ++ ins "d" x02 ++ RETURN_VALUE)
       ["x"; "y"] [CInt 1; CNames ["y"]; CNone] "/app/deep.py".

(** [import os] in the older encoding:
    [LOAD_CONST None; IMPORT_NAME os; STORE_NAME os]. *)
Definition old_py : code :=
  Code (ins "d" x00 ++ ins "l" x00 ++ ins "Z" x00 ++ ins "d" x00
        ++ RETURN_VALUE)
       ["os"] [CNone] "/app/old.py".

Definition magic27 : list byte := [x03; xf3; x0d; x0a].

Definition source (co : code) : option file :=
  Some {| head4 := []; unit_code := co |}.

Definition bad_pyc : file :=
  {| head4 := [x00; x00; x00; x00]; unit_code := pkg_init_py |}.

Definition py : string * string * modtype := (".py", "U", PY_SOURCE).
Definition pyc : string * string * modtype := (".pyc", "rb", PY_COMPILED).

(** The modules on disk: directory, name, and what [imp.find_module]
    returns for them. *)
Definition files
    : list (string * string
            * (option file * string * (string * string * modtype))) :=
  [ ("/app", "pkg", (None, "/app/pkg", ("", "", PKG_DIRECTORY)));
    ("/app/pkg", "__init__", (source pkg_init_py, "/app/pkg/__init__.py", py));
    ("/app/pkg", "sub", (source sub_py, "/app/pkg/sub.py", py));
    ("/app", "p", (None, "/app/p", ("", "", PKG_DIRECTORY)));
    ("/app/p", "__init__", (source p_init_py, "/app/p/__init__.py", py));
    ("/app", "star", (source star_py, "/app/star.py", py));
    ("/app", "deep", (source deep_py, "/app/deep.py", py));
    ("/app", "bad", (Some bad_pyc, "/app/bad.pyc", pyc)) ].

Fixpoint find_in (dir name : string)
    (l : list (string * string
               * (option file * string * (string * string * modtype))))
    : option (option file * string * (string * string * modtype)) :=
  match l with
  | [] => None
  | (d, n, r) :: l' =>
      if String.eqb d dir && String.eqb n name then Some r
      else find_in dir name l'
  end.

Fixpoint search (name : string) (dirs : list string)
    : option (option file * string * (string * string * modtype)) :=
  match dirs with
  | [] => None
  | d :: r =>
      match find_in d name files with
      | Some x => Some x
      | None => search name r
      end
  end.

Definition scripts (p : string) : option code :=
  if String.eqb p "/app/script.py" then Some script_py
  else if String.eqb p "/app/usebad.py" then Some usebad_py
  else if String.eqb p "/app/lonely.py" then Some lonely_py
  else None.

Definition host : Host :=
  {| opcodes := py27; version_info := (2%nat, 7%nat); sys_path := ["/app"];
     builtin_module_names := ["sys"]; sys_modules := fun _ => None;
     imp_find_module := search; imp_get_magic := magic27;
     imp_get_suffixes := [py; pyc; (".so", "rb", C_EXTENSION)];
     realpath := fun x => x; normpath := fun x => x;
     join_empty := fun x => x +:+ "/"; basename := fun x => x;
     listdir := fun _ => None; compile_file := scripts;
     packagePathMap := ∅; replacePackageMap := ∅ |}.

(** [ModuleGraph(excludes=..., implies=...)] on this host. *)
Definition graph (excludes : list string) (implies : list (string * lazy))
    : ModuleGraph :=
  ModuleGraph_init (sys_path host) None excludes [] implies.

(** What is in a graph: the class of the node of every identifier, and the
    edges. *)
Definition classes (g : ModuleGraph) : list (string * NodeClass) :=
  map (fun kv => (fst kv, cls (snd kv))) (map_to_list (nodes g)).

Definition edge_list (g : ModuleGraph) : list (option string * string * string) :=
  elements (edges g).

End World.

(** The edges that leave the node [name], in the enumeration of the edges. *)
Definition outgoing (name : string) (g : ModuleGraph)
    : list (option string * string * string) :=
  filter (fun e => fst (fst e) = Some name) (elements (edges g)).

(** What a call leaves behind when it returns: the class of the node of
    every identifier, and the edges. *)
Definition summary {A} (r : result A)
    : option (list (string * NodeClass)
              * list (option string * string * string)) :=
  match r with
  | Ok _ g => Some (World.classes g, World.edge_list g)
  | _ => None
  end.

(** The package nesting depth of a requester: the number of dots of its
    identifier, and one more for a requester that is itself package-like. *)
Definition nesting_depth (n : Node) : Z :=
  (Z.of_nat (Str.count_dot (identifier n))
   + (if path_true (packagepath n) then 1 else 0))%Z.

(** The graph a call leaves behind when it returns. *)
Definition final {A} (r : result A) : option ModuleGraph :=
  match r with
  | Ok _ g => Some g
  | _ => None
  end.

(** The graph after [run_script "/app/script.py"] on the example host. *)
Definition graph_script : ModuleGraph :=
  default (World.graph [] [])
    (final (run_script World.host 14 "/app/script.py" None (World.graph [] []))).

(** A list of events that only bind names. *)
Definition stores_only (evs : list event) : Prop :=
  Forall (fun ev => exists name, ev = Store name) evs.

(** A unit without nested code objects in its constant pool. *)
Definition no_nested_code (co : code) : Prop :=
  Forall (fun c => forall c', c <> CCode c') (co_consts co).

(** The entries of the namespace the node [name] holds. *)
Definition namespace_of (name : string) (g : ModuleGraph)
    : option (list (string * option string)) :=
  match nodes g !! name with
  | Some n => Some (map_to_list (dict_at (namespace n) g))
  | None => None
  end.

(* ===================================================================== *)
(** ** Notions used for the requester of an import *)
(* ===================================================================== *)

(** [enclosing g m mn parent]: [parent] is what [determine_parent] finds
    for the requester [m], whose node is [mn], and an import without level: a
    package is its own parent (it is found under its identifier); the parent
    of another node is the node named by its identifier up to the last dot, if
    the identifier has a dot and the graph has that node; every other
    requester has none.  The name looked up is not one that is lazily
    registered. *)
Definition enclosing (g : ModuleGraph) (m : string) (mn : Node)
    (parent : option string) : Prop :=
  if path_true (packagepath mn) then identifier mn = m /\ parent = Some m
  else if Str.has_dot (identifier mn) then
    match nodes g !! Str.before_last_dot (identifier mn) with
    | Some pn =>
        identifier pn = Str.before_last_dot (identifier mn)
        /\ parent = Some (Str.before_last_dot (identifier mn))
    | None =>
        lazynodes g !! Str.before_last_dot (identifier mn) = None
        /\ parent = None
    end
  else parent = None.

(** The full name under which [import_module] is asked for the component
    [partname] below the node [parent]. *)
Definition full_name (parent : option Node) (partname : string) : string :=
  match parent with
  | Some pn => qualify (identifier pn) partname
  | None => partname
  end.

(** [no_module host g parent partname]: there is no module for the
    component [partname] below [parent].  The graph has no node for its full
    name and none is lazily registered; and where [find_module] looks (in the
    package path of [parent], or, without parent, among the builtins and on
    the search path of the graph) there is nothing, nor has the host loaded a
    module of that name.  A parent without package path has no submodules. *)
Definition no_module (host : Host) (g : ModuleGraph) (parent : option Node)
    (partname : string) : Prop :=
  nodes g !! full_name parent partname = None
  /\ lazynodes g !! full_name parent partname = None
  /\ match parent with
     | Some pn =>
         packagepath pn = None
         \/ (imp_find_module host partname (default [] (packagepath pn)) = None
             /\ sys_modules host (full_name parent partname) = None)
     | None =>
         (partname ∉ builtin_module_names host)
         /\ imp_find_module host partname (path g) = None
         /\ sys_modules host partname = None
     end.

(** [bad_cache host g parent partname fl]: what [find_module] finds for the
    component [partname] below [parent] is the cached unit [fl], whose first
    four bytes are not the magic number of the host; the graph has no node
    for its full name and none is lazily registered. *)
Definition bad_cache (host : Host) (g : ModuleGraph) (parent : option Node)
    (partname : string) (fl : file) : Prop :=
  nodes g !! full_name parent partname = None
  /\ lazynodes g !! full_name parent partname = None
  /\ bytes_eqb (head4 fl) (imp_get_magic host) = false
  /\ exists buf s1 s2,
       match parent with
       | Some pn =>
           exists dirs,
             packagepath pn = Some dirs
             /\ imp_find_module host partname dirs
                = Some (Some fl, buf, (s1, s2, PY_COMPILED))
       | None =>
           (partname ∉ builtin_module_names host)
           /\ imp_find_module host partname (path g)
              = Some (Some fl, buf, (s1, s2, PY_COMPILED))
       end.

(** Why an import fails: there is no module, or the module is the cached
    unit [fl], which [load_module] refuses. *)
Inductive reason : Type :=
| NoModule
| BadMagic (fl : file).

Definition unloadable (host : Host) (g : ModuleGraph) (why : reason)
    (parent : option Node) (partname : string) : Prop :=
  match why with
  | NoModule => no_module host g parent partname
  | BadMagic fl => bad_cache host g parent partname fl
  end.

(** [tail_fails host g why q tail es]: [load_tail], started at the node [q]
    with the rest [tail] of a dotted name, passes through nodes the graph
    already has and comes to a component that cannot be loaded.  [es] are
    the edges, from each node passed to the node it was found in, that
    [import_module] makes on the way. *)
Inductive tail_fails (host : Host) (g : ModuleGraph) (why : reason)
    : string -> string -> list (option string * string * string) -> Prop :=
| tail_fails_here (q tail : string) (qn : Node) :
    Str.nonempty tail = true ->
    nodes g !! q = Some qn ->
    unloadable host g why (Some qn) (fst (Str.cut tail)) ->
    tail_fails host g why q tail []
| tail_fails_later (q tail : string) (qn sub : Node)
    (es : list (option string * string * string)) :
    Str.nonempty tail = true ->
    nodes g !! q = Some qn ->
    nodes g !! qualify (identifier qn) (fst (Str.cut tail)) = Some sub ->
    tail_fails host g why (qualify (identifier qn) (fst (Str.cut tail)))
      (default "" (snd (Str.cut tail))) es ->
    tail_fails host g why q tail
      ((Some (qualify (identifier qn) (fst (Str.cut tail))), q, "direct") :: es).

(** [import_fails host g why parent name es]: the import of [name],
    requested from within [parent], fails for the reason [why] at a
    component that cannot be loaded, the components before it being nodes of
    the graph already.  The first component is looked for in the package
    [parent] and, when there is no such module there, at top level. *)
Inductive import_fails (host : Host) (g : ModuleGraph) (why : reason)
    : option string -> string -> list (option string * string * string)
      -> Prop :=
| fails_at_top (name : string) :
    unloadable host g why None (fst (Str.cut name)) ->
    import_fails host g why None name []
| fails_in_package (p name : string) (pn : Node) (fl : file) :
    nodes g !! p = Some pn ->
    bad_cache host g (Some pn) (fst (Str.cut name)) fl ->
    why = BadMagic fl ->
    import_fails host g why (Some p) name []
| fails_in_package_and_at_top (p name : string) (pn : Node) :
    nodes g !! p = Some pn ->
    no_module host g (Some pn) (fst (Str.cut name)) ->
    unloadable host g why None (fst (Str.cut name)) ->
    import_fails host g why (Some p) name []
| fails_below_top (name : string) (n : Node)
    (es : list (option string * string * string)) :
    nodes g !! fst (Str.cut name) = Some n ->
    tail_fails host g why (fst (Str.cut name))
      (default "" (snd (Str.cut name))) es ->
    import_fails host g why None name es
| fails_below_sibling (p name : string) (pn n : Node)
    (es : list (option string * string * string)) :
    nodes g !! p = Some pn ->
    nodes g !! qualify (identifier pn) (fst (Str.cut name)) = Some n ->
    tail_fails host g why (qualify (identifier pn) (fst (Str.cut name)))
      (default "" (snd (Str.cut name))) es ->
    import_fails host g why (Some p) name
      ((Some (qualify (identifier pn) (fst (Str.cut name))), p, "direct") :: es)
| fails_below_top_from_package (p name : string) (pn n : Node)
    (es : list (option string * string * string)) :
    nodes g !! p = Some pn ->
    no_module host g (Some pn) (fst (Str.cut name)) ->
    nodes g !! fst (Str.cut name) = Some n ->
    tail_fails host g why (fst (Str.cut name))
      (default "" (snd (Str.cut name))) es ->
    import_fails host g why (Some p) name es.

(** [agrees g g0]: the graph [g0] has the nodes, the lazy registry and the
    search path of [g]. *)
Definition agrees (g g0 : ModuleGraph) : Prop :=
  nodes g0 = nodes g /\ lazynodes g0 = lazynodes g /\ path g0 = path g.

(** How deep code objects are nested, counting [co] itself; the scan of
    [co] calls [scan_code] that deep. *)
Fixpoint code_depth (co : code) : nat :=
  match co with
  | Code _ _ consts _ =>
      S (fold_right (fun k acc =>
                       match k with
                       | CCode c' => Nat.max (code_depth c') acc
                       | _ => acc
                       end) 0%nat consts)
  end.

(** How deep code objects are nested in the constant pool of [co]: 0 for a
    unit without functions and classes. *)
Definition nesting (co : code) : nat := Nat.pred (code_depth co).

(** [binds_only host co]: the code object [co], and every code object
    nested in it (the bodies of its functions and classes), holds no import:
    the scanner reads it to its end and yields only events that bind
    names. *)
Fixpoint binds_only (host : Host) (co : code) : Prop :=
  match co with
  | Code c names consts fname =>
      (exists evs,
         Decoder.scanner (opcodes host) (version_info host)
           (Code c names consts fname) = (evs, None)
         /\ stores_only evs)
      /\ fold_right (fun k acc =>
                       match k with
                       | CCode c' => binds_only host c' /\ acc
                       | _ => acc
                       end) True consts
  end.

(** The code objects nested in [co] hold no import. *)
Definition nested_bind_only (host : Host) (co : code) : Prop :=
  fold_right (fun k acc =>
                match k with
                | CCode c' => binds_only host c' /\ acc
                | _ => acc
                end) True (co_consts co).


(** More units for the examples. *)
Module Units.


(** The graph in which [run_script] scans [/app/usebad.py]: the node of the
    script, and the edge to it from the graph. *)
Definition script_usebad : Node :=
  {| cls := Script; node_id := 0; graphident := "/app/usebad.py";
     identifier := "/app/usebad.py"; namespace := 1;
     filename := Some "/app/usebad.py"; packagepath := None;
     code_handle := Some World.usebad_py; globalnames := 2; starimports := 3 |}.

Definition graph_usebad : ModuleGraph :=
  {| nodes := {["/app/usebad.py" := script_usebad]};
     edges := {[(None, "/app/usebad.py", "direct")]}; lazynodes := ∅;
     path := ["/app"]; replace_paths := [];
     dicts := {[1%nat := ∅]}; sets := {[2%nat := ∅; 3%nat := ∅]};
     next := 4 |}.

(** A package with a subpackage and a submodule:
    - [/app/pkg/p/__init__.py]: [A = 1; B = 2]
    - [/app/pkg/m.py]: [from p import *]
    and no module [p] at top level. *)
Definition m_py : code :=
  Code (World.ins "d" x00 ++ World.ins "d" x01 ++ World.ins "l" x00
        ++ World.IMPORT_STAR ++ World.ins "d" x02 ++ World.RETURN_VALUE)
       ["p"] [CInt (-1); CNames ["*"]; CNone] "/app/pkg/m.py".

Definition find (name : string) (dirs : list string)
    : option (option file * string * (string * string * modtype)) :=
  if String.eqb name "p" then
    if bool_decide (dirs = ["/app/pkg"])
    then Some (None, "/app/pkg/p", ("", "", PKG_DIRECTORY))
    else None
  else if String.eqb name "__init__" && bool_decide (dirs = ["/app/pkg/p"])
  then Some (World.source World.p_init_py, "/app/pkg/p/__init__.py", World.py)
  else if String.eqb name "m" && bool_decide (dirs = ["/app/pkg"])
  then Some (World.source m_py, "/app/pkg/m.py", World.py)
  else World.search name dirs.


End Units.



(** [loaded_package fq names g g']: [g'] is [g] with the package [fq]
    loaded; the other nodes are as they were, nothing has been added to the
    lazy registry, and the node of [fq] holds the names that the events
    [names] of its initializer bind. *)
Definition loaded_package (fq : string) (names : list event)
    (g g' : ModuleGraph) : Prop :=
  (forall i, i <> fq -> nodes g' !! i = nodes g !! i)
  /\ lazynodes g' ⊆ lazynodes g
  /\ exists pn, nodes g' !! fq = Some pn
       /\ forall name, Store name ∈ names -> name ∈ set_at (globalnames pn) g'.




(* ===================================================================== *)
(** ** Notions used in the further properties of the code *)
(* ===================================================================== *)

(** The name an event carries, and the constants it carries. *)
Definition event_name (ev : event) : string :=
  match ev with
  | Store n | Import _ n | AbsoluteImport _ n | RelativeImport _ _ n => n
  end.

Definition event_consts (ev : event) : list const :=
  match ev with
  | Store _ => []
  | Import f _ | AbsoluteImport f _ => [f]
  | RelativeImport l f _ => [l; f]
  end.

(** Instructions as the compiler emits them: an opcode below
    [HAVE_ARGUMENT] stands alone, an opcode from [HAVE_ARGUMENT] on is
    followed by the two bytes of its argument. *)
Inductive instr : Type :=
| Op (c : byte)
| OpArg (c lo hi : byte).

(** The bytes of an instruction: the opcode and, if it has one, the
    argument, low byte first. *)
Definition instr_bytes (i : instr) : list byte :=
  match i with
  | Op c => [c]
  | OpArg c lo hi => [c; lo; hi]
  end.

(** The [co_code] of a sequence of instructions. *)
Definition assemble (l : list instr) : list byte := flat_map instr_bytes l.

(** An instruction has an argument exactly when its opcode is
    [HAVE_ARGUMENT] or above. *)
Definition sized (ops : Opcodes) (i : instr) : Prop :=
  match i with
  | Op c => Decoder.byte_geb c (HAVE_ARGUMENT ops) = false
  | OpArg c _ _ => Decoder.byte_geb c (HAVE_ARGUMENT ops) = true
  end.

(** The opcodes the scanners look for take an argument, as they do in
    every CPython. *)
Definition with_argument (ops : Opcodes) : Prop :=
  Decoder.byte_geb (LOAD_CONST ops) (HAVE_ARGUMENT ops) = true
  /\ Decoder.byte_geb (IMPORT_NAME ops) (HAVE_ARGUMENT ops) = true
  /\ Decoder.byte_geb (STORE_NAME ops) (HAVE_ARGUMENT ops) = true
  /\ Decoder.byte_geb (STORE_GLOBAL ops) (HAVE_ARGUMENT ops) = true.

(** What a sequence of instructions stores and imports, read instruction
    by instruction in the encoding of Python 2.5 and later: a store
    instruction binds the name its argument indexes; [LOAD_CONST level;
    LOAD_CONST fromlist; IMPORT_NAME name] is an import. *)
Fixpoint statements_25 (ops : Opcodes) (names : list string)
    (consts : list const) (l : list instr) : Decoder.stream :=
  match l with
  | [] => ([], None)
  | Op _ :: r => statements_25 ops names consts r
  | OpArg c a0 a1 :: r =>
      if Decoder.is_store ops c then
        match names !! Decoder.u16 a0 a1 with
        | None => Decoder.stop IndexError
        | Some nm =>
            Decoder.yield (Store nm) (statements_25 ops names consts r)
        end
      else
        match r with
        | OpArg c3 b0 b1 :: OpArg c6 c0 c1 :: r' =>
            if Decoder.byte_eqb c (LOAD_CONST ops)
               && Decoder.byte_eqb c3 (LOAD_CONST ops)
               && Decoder.byte_eqb c6 (IMPORT_NAME ops)
            then
              match consts !! Decoder.u16 a0 a1 with
              | None => Decoder.stop IndexError
              | Some level =>
                  match consts !! Decoder.u16 b0 b1 with
                  | None => Decoder.stop IndexError
                  | Some fromlist =>
                      match names !! Decoder.u16 c0 c1 with
                      | None => Decoder.stop IndexError
                      | Some nm =>
                          Decoder.yield
                            (Decoder.import_event level fromlist nm)
                            (statements_25 ops names consts r')
                      end
                  end
              end
            else statements_25 ops names consts r
        | _ => statements_25 ops names consts r
        end
  end.

(** The same in the encoding of Python 2.4 and older: [LOAD_CONST fromlist;
    IMPORT_NAME name] is an import; a [LOAD_CONST] that nothing follows makes
    the scanner index past the end of the code. *)
Fixpoint statements_24 (ops : Opcodes) (names : list string)
    (consts : list const) (l : list instr) : Decoder.stream :=
  match l with
  | [] => ([], None)
  | Op _ :: r => statements_24 ops names consts r
  | OpArg c a0 a1 :: r =>
      if Decoder.is_store ops c then
        match names !! Decoder.u16 a0 a1 with
        | None => Decoder.stop IndexError
        | Some nm =>
            Decoder.yield (Store nm) (statements_24 ops names consts r)
        end
      else if Decoder.byte_eqb c (LOAD_CONST ops) then
        match r with
        | [] => Decoder.stop IndexError
        | OpArg c3 b0 b1 :: r' =>
            if Decoder.byte_eqb c3 (IMPORT_NAME ops) then
              match consts !! Decoder.u16 a0 a1 with
              | None => Decoder.stop IndexError
              | Some k =>
                  match names !! Decoder.u16 b0 b1 with
                  | None => Decoder.stop IndexError
                  | Some nm =>
                      Decoder.yield (Import k nm)
                        (statements_24 ops names consts r')
                  end
              end
            else statements_24 ops names consts r
        | Op _ :: _ => statements_24 ops names consts r
        end
      else statements_24 ops names consts r
  end.

(** An event takes its name from the name table and its constants from
    the constant pool. *)
Definition from_tables (names : list string) (consts : list const)
    (ev : event) : Prop :=
  event_name ev ∈ names /\ Forall (fun k => k ∈ consts) (event_consts ev).

(** What [replace_paths_in_code] does to a constant, and so to an event
    that carries constants. *)
Definition rewrite_const (host : Host) (rules : list (string * string))
    (k : const) : const :=
  match k with
  | CCode c' => CCode (Methods.replace_paths_in_code host rules c')
  | _ => k
  end.

Definition rewrite_event (host : Host) (rules : list (string * string))
    (ev : event) : event :=
  match ev with
  | Store n => Store n
  | Import f n => Import (rewrite_const host rules f) n
  | AbsoluteImport f n => AbsoluteImport (rewrite_const host rules f) n
  | RelativeImport l f n =>
      RelativeImport (rewrite_const host rules l) (rewrite_const host rules f) n
  end.

(** [kept g g']: the lazy registry of [g'] holds nothing that the one of
    [g] does not hold, and the search path and the path rewriting rules are
    those of [g]. *)
Definition kept (g g' : ModuleGraph) : Prop :=
  lazynodes g' ⊆ lazynodes g /\ path g' = path g
  /\ replace_paths g' = replace_paths g.

(** [keeps c]: however [c] ends, it ends in a graph related so to the one
    it started from. *)
Definition keeps {A} (c : M A) : Prop :=
  forall g,
    match c g with
    | Ok _ g' | Raise _ g' => kept g g'
    | OutOfFuel => True
    end.

(** No name is registered with a list of implied dependencies. *)
Definition no_deps (g : ModuleGraph) : Prop :=
  forall k l, lazynodes g !! k <> Some (LazyDeps l).

(** [quiet c]: started in a graph without implied dependencies, [c] does
    not end by raising [ImportError]. *)
Definition quiet {A} (c : M A) : Prop :=
  forall g, no_deps g -> forall msg g', c g <> Raise (ImportError msg) g'.

(** The calls that are shown not to raise [ImportError]. *)
Definition guarded {A} (c : call A) : Prop :=
  match c with
  | FindNode _ | SafeImportHook _ _ _ _ | ImplyNodeReference _ (INode _) => True
  | _ => False
  end.

(** [AddPackagePath(packagename, path)]: the module-level function that
    registers one more directory for a package in [packagePathMap]; it is
    called before the graph is built, and gives the host the engine then
    runs on. *)
Definition AddPackagePath (packagename path : string) (host : Host) : Host :=
  {| opcodes := opcodes host; version_info := version_info host;
     sys_path := sys_path host;
     builtin_module_names := builtin_module_names host;
     sys_modules := sys_modules host;
     imp_find_module := imp_find_module host;
     imp_get_magic := imp_get_magic host;
     imp_get_suffixes := imp_get_suffixes host;
     realpath := realpath host; normpath := normpath host;
     join_empty := join_empty host; basename := basename host;
     listdir := listdir host; compile_file := compile_file host;
     packagePathMap :=
       <[packagename := (default [] (packagePathMap host !! packagename)
                         ++ [path])%list]> (packagePathMap host);
     replacePackageMap := replacePackageMap host |}.

(** [ReplacePackage(oldname, newname)]: the module-level function that
    registers in [replacePackageMap] the name a package is to be known by;
    it too is called before the graph is built. *)
Definition ReplacePackage (oldname newname : string) (host : Host) : Host :=
  {| opcodes := opcodes host; version_info := version_info host;
     sys_path := sys_path host;
     builtin_module_names := builtin_module_names host;
     sys_modules := sys_modules host;
     imp_find_module := imp_find_module host;
     imp_get_magic := imp_get_magic host;
     imp_get_suffixes := imp_get_suffixes host;
     realpath := realpath host; normpath := normpath host;
     join_empty := join_empty host; basename := basename host;
     listdir := listdir host; compile_file := compile_file host;
     packagePathMap := packagePathMap host;
     replacePackageMap := <[oldname := newname]> (replacePackageMap host) |}.

(** The name [load_package] gives the node of the package [fqname]
    ([newname = replacePackageMap.get(fqname)], taken when it is not empty). *)
Definition package_name (host : Host) (fqname : string) : string :=
  match replacePackageMap host !! fqname with
  | Some newname => if Str.nonempty newname then newname else fqname
  | None => fqname
  end.

(** The package path [load_package] gives the node [name] for the
    directory [pathname]: the additions of [packagePathMap] when the
    directory is among them, else the directory followed by the additions. *)
Definition package_path (host : Host) (name pathname : string) : list string :=
  let additions := default [] (packagePathMap host !! name) in
  if bool_decide (pathname ∈ additions) then additions
  else pathname :: additions.

(** The exception a call ended with, if it raised one. *)
Definition raised {A} (r : result A) : option exn :=
  match r with
  | Raise e _ => Some e
  | _ => None
  end.

(** More of the example host: a site with an extension module, a namespace
    package, a package whose initializer is a cached unit with a wrong format
    tag, and a directory listing for [/app/pkg]. *)
Module Site.

(** [import missing] as a sequence of instructions. *)
Definition lonely_instrs : list instr :=
  [OpArg "d" x00 x00; OpArg "d" x01 x00; OpArg "l" x00 x00;
   OpArg "Z" x01 x00; OpArg "d" x01 x00; Op "S"].

(** [import os] in the older encoding, as a sequence of instructions. *)
Definition old_instrs : list instr :=
  [OpArg "d" x00 x00; OpArg "l" x00 x00; OpArg "Z" x00 x00;
   OpArg "d" x00 x00; Op "S"].

(** [from . import y] *)
Definition dot_py : code :=
  Code (World.ins "d" x00 ++ World.ins "d" x01 ++ World.ins "l" x00
        ++ World.ins "m" x01 ++ World.ins "Z" x01 ++ World.POP_TOP
        ++ World.ins "d" x02 ++ World.RETURN_VALUE)
       [""; "y"] [CInt 1; CNames ["y"]; CNone] "/app/a.py".

(** [imp.find_module] on the site: the extension module [_speedups], the
    package [badpkg] with its cached initializer, and the files of the
    example host. *)
Definition find (name : string) (dirs : list string)
    : option (option file * string * (string * string * modtype)) :=
  if String.eqb name "_speedups"
  then Some (None, "/app/_speedups.so", (".so", "rb", C_EXTENSION))
  else if String.eqb name "badpkg"
  then Some (None, "/app/badpkg", ("", "", PKG_DIRECTORY))
  else if String.eqb name "__init__" && bool_decide (dirs = ["/app/badpkg"])
  then Some (Some World.bad_pyc, "/app/badpkg/__init__.pyc", World.pyc)
  else World.search name dirs.

(** [sys.modules] on the site: the namespace package [ns]. *)
Definition loaded_modules (name : string) : option sysmodule :=
  if String.eqb name "ns"
  then Some {| mod_file := None; mod_path := Some ["/site/ns"] |}
  else None.

(** [os.listdir] on the site. *)
Definition ls (dir : string) : option (list string) :=
  if String.eqb dir "/app/pkg" then Some ["__init__.py"; "sub.py"; "README"]
  else None.

Definition host : Host :=
  {| opcodes := World.py27; version_info := (2%nat, 7%nat);
     sys_path := ["/app"];
     builtin_module_names := ["sys"]; sys_modules := loaded_modules;
     imp_find_module := find; imp_get_magic := World.magic27;
     imp_get_suffixes := [World.py; World.pyc; (".so", "rb", C_EXTENSION)];
     realpath := fun x => x; normpath := fun x => x;
     join_empty := fun x => x +:+ "/"; basename := fun x => x;
     listdir := ls; compile_file := World.scripts;
     packagePathMap := ∅; replacePackageMap := ∅ |}.

(** The graph [graph_a] after its module has imported the package [pkg],
    and the node of the package. *)
Definition graph_a_pkg : ModuleGraph :=
  default graph_a
    (final (import_hook World.host 12 "pkg" (Some "a") None (-1) graph_a)).

Definition package_pkg : Node :=
  default module_a (nodes graph_a_pkg !! "pkg").

End Site.

(* ===================================================================== *)
(** *** The command line: [main] *)

(** The settings [main] computes from the options [getopt] returns. *)
Record settings : Type := {
  debug : nat;
  domods : bool;
  dodot : bool;
  addpath : list string;
  excludes : list string
}.

(** [debug = 1; domods = 0; dodot = False; addpath = []; excludes = []] *)
Definition defaults : settings :=
  {| debug := 1; domods := false; dodot := false; addpath := [];
     excludes := [] |}.

(** The body of [for o, a in opts]; [split] is [a.split(os.pathsep)]. *)
Definition option_step (split : string -> list string) (st : settings)
    (oa : string * string) : settings :=
  let o := fst oa in
  let a := snd oa in
  let st :=
    if String.eqb o "-d"
    then {| debug := S (debug st); domods := domods st; dodot := dodot st;
            addpath := addpath st; excludes := excludes st |}
    else st in
  let st :=
    if String.eqb o "-m"
    then {| debug := debug st; domods := true; dodot := dodot st;
            addpath := addpath st; excludes := excludes st |}
    else st in
  let st :=
    if String.eqb o "-p"
    then {| debug := debug st; domods := domods st; dodot := dodot st;
            addpath := (addpath st ++ split a)%list;
            excludes := excludes st |}
    else st in
  let st :=
    if String.eqb o "-q"
    then {| debug := 0; domods := domods st; dodot := dodot st;
            addpath := addpath st; excludes := excludes st |}
    else st in
  let st :=
    if String.eqb o "-x"
    then {| debug := debug st; domods := domods st; dodot := dodot st;
            addpath := addpath st; excludes := (excludes st ++ [a])%list |}
    else st in
  if String.eqb o "-g"
  then {| debug := debug st; domods := domods st; dodot := true;
          addpath := addpath st; excludes := excludes st |}
  else st.

Definition process_options (split : string -> list string)
    (opts : list (string * string)) : settings :=
  foldl (option_step split) defaults opts.

(** [script = __file__] when there are no arguments, else [args[0]]. *)
Definition main_script (this_file : string) (args : list string) : string :=
  match args with
  | [] => this_file
  | s :: _ => s
  end.

(** [path = sys.path[:]; path[0] = os.path.dirname(script);
    path = addpath + path]; the assignment raises [IndexError] when
    [sys.path] is empty. *)
Definition main_path (host : Host) (dirname : string -> string)
    (st : settings) (script : string) : option (list string) :=
  match sys_path host with
  | [] => None
  | _ :: rest => Some (addpath st ++ dirname script :: rest)%list
  end.

(** [mf = ModuleGraph(path, excludes=excludes, debug=debug)] *)
Definition main_graph (host : Host) (search : list string) (st : settings)
    : ModuleGraph :=
  ModuleGraph_init (sys_path host) (Some search) (excludes st) [] [].

(** The body of [for arg in args[1:]], [domods] being the flag it may set. *)
Definition main_arg (host : Host) (fuel : nat) (mods : bool) (arg : string)
    : M bool :=
  if String.eqb arg "-m" then ret true
  else if mods then
    (if Str.endswith ".*" arg
     then import_hook host fuel (Str.strip_suffix ".*" arg) None (Some ["*"])
            (-1)
     else import_hook host fuel arg None None (-1)) ;;
    ret mods
  else
    run_script host fuel arg None ;; ret mods.

(** [main], from the options and arguments that [getopt] returns to the
    graph it hands back; what it prints, and the report it writes at the end,
    are left out.  The result is [inl] when [main] fails before it has made
    the graph. *)
Definition main (host : Host) (dirname : string -> string)
    (split : string -> list string) (this_file : string) (fuel : nat)
    (opts : list (string * string)) (args : list string)
    : exn + result string :=
  let st := process_options split opts in
  let script := main_script this_file args in
  match main_path host dirname st script with
  | None => inl IndexError
  | Some search =>
      inr ((foldM (main_arg host fuel) (domods st) (tail args) ;;
            run_script host fuel script None)
             (main_graph host search st))
  end.

(** ** The scanners read the whole unit *)
(* ===================================================================== *)

(** The bound on the iterations of [while code] is never reached before the
    code is used up: any bound from the length of the code on gives the same
    stream. *)
Lemma scan_opcodes_loop_bound ops names consts (n n' : nat) (code : list byte) :
  (length code <= n)%nat -> (length code <= n')%nat ->
  Decoder.scan_opcodes_loop ops n names consts code
  = Decoder.scan_opcodes_loop ops n' names consts code.
Proof.
  revert n' code. induction n as [| n IH]; intros n' code Hn Hn'.
  - destruct code; [| simpl in Hn; lia]. by destruct n'.
  - destruct n' as [| n']; [destruct code; [done | simpl in Hn'; lia] |].
    destruct code as [| c rest]; [done |].
    assert (forall k, (1 <= k)%nat ->
              Decoder.scan_opcodes_loop ops n names consts (skipn k (c :: rest))
              = Decoder.scan_opcodes_loop ops n' names consts
                  (skipn k (c :: rest))) as Hrec.
    { intros k Hk. apply IH; rewrite length_skipn; simpl in *; lia. }
    cbn [Decoder.scan_opcodes_loop].
    repeat case_match; try done; unfold Decoder.yield; rewrite Hrec; (done || lia).
Qed.

Lemma scan_opcodes_25_loop_bound ops names consts (n n' : nat)
    (code : list byte) :
  (length code <= n)%nat -> (length code <= n')%nat ->
  Decoder.scan_opcodes_25_loop ops n names consts code
  = Decoder.scan_opcodes_25_loop ops n' names consts code.
Proof.
  revert n' code. induction n as [| n IH]; intros n' code Hn Hn'.
  - destruct code; [| simpl in Hn; lia]. by destruct n'.
  - destruct n' as [| n']; [destruct code; [done | simpl in Hn'; lia] |].
    destruct code as [| c rest]; [done |].
    assert (forall k, (1 <= k)%nat ->
              Decoder.scan_opcodes_25_loop ops n names consts
                (skipn k (c :: rest))
              = Decoder.scan_opcodes_25_loop ops n' names consts
                  (skipn k (c :: rest))) as Hrec.
    { intros k Hk. apply IH; rewrite length_skipn; simpl in *; lia. }
    cbn [Decoder.scan_opcodes_25_loop].
    repeat case_match; try done; unfold Decoder.yield; rewrite Hrec; (done || lia).
Qed.

(* ===================================================================== *)
(** ** More fuel does not change a result *)
(* ===================================================================== *)

Lemma stable_refl {A} (c : M A) : stable c c.
Proof. intros g. by right. Qed.

Lemma stable_trans {A} (c1 c2 c3 : M A) :
  stable c1 c2 -> stable c2 c3 -> stable c1 c3.
Proof.
  intros H12 H23 g.
  destruct (H12 g) as [H | H]; [by left |].
  destruct (H23 g) as [H' | H']; [left; congruence | right; congruence].
Qed.

Lemma stable_bind {A B} (c c' : M A) (k k' : A -> M B) :
  stable c c' -> (forall a, stable (k a) (k' a)) ->
  stable (bind c k) (bind c' k').
Proof.
  intros Hc Hk g. unfold bind.
  destruct (Hc g) as [H | H].
  - left. by rewrite H.
  - rewrite H. destruct (c g) as [a g' | e g' |]; [apply Hk | by right | by left].
Qed.

Lemma stable_try {A} (c c' : M A) :
  stable c c' -> stable (try_ImportError c) (try_ImportError c').
Proof.
  intros Hc g. unfold try_ImportError.
  destruct (Hc g) as [H | H]; rewrite H; [by left | by right].
Qed.

Lemma stable_forM {A} (l : list A) (b b' : A -> M unit) :
  (forall x, stable (b x) (b' x)) -> stable (forM_ l b) (forM_ l b').
Proof.
  intros Hb. induction l as [| x l IH]; simpl.
  - apply stable_refl.
  - apply stable_bind; [apply Hb | intros _; apply IH].
Qed.

Lemma stable_foldM {A B} (l : list A) (b b' : B -> A -> M B) (acc : B) :
  (forall a x, stable (b a x) (b' a x)) ->
  stable (foldM b acc l) (foldM b' acc l).
Proof.
  intros Hb. revert acc. induction l as [| x l IH]; intros acc; simpl.
  - apply stable_refl.
  - apply stable_bind; [apply Hb | intros a; apply IH].
Qed.

Lemma stable_createNode (f f' : string -> M (option string)) c name arg :
  (forall n, stable (f n) (f' n)) ->
  stable (createNode f c name arg) (createNode f' c name arg).
Proof.
  intros Hf. unfold createNode.
  apply stable_bind; [apply Hf | intros a; apply stable_refl].
Qed.

Ltac stable_step H :=
  match goal with
  | |- stable ?c ?c => apply stable_refl
  | |- stable (bind _ _) (bind _ _) => apply stable_bind; [| intros ?]
  | |- stable (try_ImportError _) (try_ImportError _) => apply stable_try
  | |- stable (forM_ _ _) (forM_ _ _) => apply stable_forM; intros ?
  | |- stable (foldM _ _ _) (foldM _ _ _) => apply stable_foldM; intros ? ?
  | |- stable (createNode _ _ _ _) (createNode _ _ _ _) =>
      apply stable_createNode; intros ?
  | |- stable (?s _ ?c) (?s' _ ?c) => apply H
  | |- stable (match ?x with _ => _ end) (match ?x with _ => _ end) =>
      destruct x
  end.

Lemma dispatch_stable host (s s' : Self) :
  le_self s s' -> le_self (Methods.dispatch host s) (Methods.dispatch host s').
Proof.
  intros H A c. destruct c; simpl.
  - unfold Methods.findNode, self.findNode, self._safe_import_hook,
      self.implyNodeReference.
    repeat stable_step H.
  - unfold Methods.implyNodeReference, self.import_hook.
    repeat stable_step H.
  - unfold Methods.run_script, self.findNode, self.scan_code.
    repeat stable_step H.
  - unfold Methods.import_hook, self.determine_parent, self.find_head_package,
      self.load_tail, self.ensure_fromlist.
    repeat stable_step H.
  - unfold Methods.determine_parent, self.findNode.
    repeat stable_step H.
  - unfold Methods.find_head_package, self.import_module.
    repeat stable_step H.
  - unfold Methods.load_tail, self.import_module, self.load_tail.
    repeat stable_step H.
  - unfold Methods.ensure_fromlist, self.import_module.
    repeat stable_step H.
  - unfold Methods.import_module, self.findNode, self.find_module,
      self.load_module.
    repeat stable_step H.
  - unfold Methods.load_module, self.load_package, self.findNode,
      self.scan_code.
    repeat stable_step H.
  - unfold Methods._safe_import_hook, self.import_hook, self.findNode.
    repeat stable_step H.
  - unfold Methods.scan_code, Methods.scan_event, Methods.scan_import,
      self.scan_code, self._safe_import_hook, self.findNode,
      self.determine_parent.
    repeat stable_step H.
  - unfold Methods.load_package, self.findNode, self.find_module,
      self.load_module.
    repeat stable_step H.
  - unfold Methods.find_module, self.findNode.
    repeat stable_step H.
Qed.

Lemma bound_step host (f : nat) : le_self (bound host f) (bound host (S f)).
Proof.
  induction f as [| f IH].
  - intros A c g. by left.
  - change (bound host (S (S f))) with (Methods.dispatch host (bound host (S f))).
    change (bound host (S f)) with (Methods.dispatch host (bound host f)) at 1.
    by apply dispatch_stable.
Qed.

Lemma bound_le host (f f' : nat) :
  (f <= f')%nat -> le_self (bound host f) (bound host f').
Proof.
  induction 1 as [| f' _ IH].
  - intros A c. apply stable_refl.
  - intros A c. eapply stable_trans; [apply IH | apply bound_step].
Qed.

(** A call that ends with some fuel ends in the same way with more. *)
Lemma more_fuel host (f f' : nat) {A} (c : call A) g r :
  (f <= f')%nat -> bound host f A c g = r -> r <> OutOfFuel ->
  bound host f' A c g = r.
Proof.
  intros Hle Hr Hne.
  destruct (bound_le host f f' Hle A c g) as [H | H]; congruence.
Qed.

(* ===================================================================== *)
(** ** The graph only grows *)
(* ===================================================================== *)

Lemma same_object_refl n : same_object n n.
Proof. by repeat split. Qed.

Lemma same_object_trans n1 n2 n3 :
  same_object n1 n2 -> same_object n2 n3 -> same_object n1 n3.
Proof.
  unfold same_object. intros (?&?&?&?&?&?&?) (?&?&?&?&?&?&?).
  repeat split; congruence.
Qed.

Lemma grows_refl g : grows g g.
Proof.
  repeat split; try done.
  intros i n H. exists n. split; [done | apply same_object_refl].
Qed.

Lemma grows_trans g1 g2 g3 : grows g1 g2 -> grows g2 g3 -> grows g1 g3.
Proof.
  intros (Hn & He & Hs & Hx) (Hn' & He' & Hs' & Hx').
  repeat split.
  - intros i n H. destruct (Hn i n H) as (n2 & H2 & Hso).
    destruct (Hn' i n2 H2) as (n3 & H3 & Hso').
    exists n3. split; [done | by eapply same_object_trans].
  - set_solver.
  - intros l Hl. specialize (Hs l Hl).
    assert (l < next g2)%nat as Hl' by lia.
    specialize (Hs' l Hl'). set_solver.
  - lia.
Qed.

Lemma readonly_mono {A} (c : M A) : readonly c -> mono c.
Proof.
  intros H g Hwf. specialize (H g).
  destruct (c g); subst; auto using grows_refl.
Qed.

Lemma mono_bind {A B} (c : M A) (k : A -> M B) :
  mono c -> (forall a, mono (k a)) -> mono (bind c k).
Proof.
  intros Hc Hk g Hwf. unfold bind. specialize (Hc g Hwf).
  destruct (c g) as [a g' | e g' |]; [| done | done].
  destruct Hc as [Hwf' Hg]. specialize (Hk a g' Hwf').
  destruct (k a g') as [b g'' | e g'' |]; [| | done];
    (split; [tauto | eapply grows_trans; [exact Hg | tauto]]).
Qed.

Lemma mono_try {A} (c : M A) : mono c -> mono (try_ImportError c).
Proof.
  intros Hc g Hwf. unfold try_ImportError. specialize (Hc g Hwf).
  destruct (c g) as [a g' | e g' |]; [done | | done].
  by destruct e.
Qed.

Lemma mono_forM {A} (l : list A) (b : A -> M unit) :
  (forall x, mono (b x)) -> mono (forM_ l b).
Proof.
  intros Hb. induction l as [| x l IH]; simpl.
  - by apply readonly_mono.
  - apply mono_bind; [apply Hb | intros _; apply IH].
Qed.

Lemma mono_foldM {A B} (l : list A) (b : B -> A -> M B) (acc : B) :
  (forall a x, mono (b a x)) -> mono (foldM b acc l).
Proof.
  intros Hb. revert acc. induction l as [| x l IH]; intros acc; simpl.
  - by apply readonly_mono.
  - apply mono_bind; [apply Hb | intros a; apply IH].
Qed.

Lemma readonly_ret {A} (a : A) : readonly (ret a).
Proof. by intros g. Qed.

Lemma readonly_raise {A} (e : exn) : readonly (@raise A e).
Proof. by intros g. Qed.

Lemma readonly_node r : readonly (node r).
Proof. intros g. unfold node. by destruct (nodes g !! r). Qed.

Lemma readonly_assert b : readonly (assert b).
Proof. intros g. by destruct b. Qed.

Lemma readonly_pop s : readonly (pop s).
Proof. intros g. unfold pop. by destruct (elements s). Qed.

Lemma readonly_dict_get l k : readonly (dict_get l k).
Proof. by intros g. Qed.

Lemma readonly_base_findNode name : readonly (ObjectGraph.findNode name).
Proof. intros g. unfold ObjectGraph.findNode. by destruct (nodes g !! name). Qed.

Lemma readonly_replaced host co : readonly (Methods.replaced host co).
Proof. intros g. unfold Methods.replaced. by destruct (replace_paths g). Qed.

Lemma readonly_compile host p : readonly (Methods.compile host p).
Proof.
  intros g. unfold Methods.compile. by destruct (compile_file host p).
Qed.

Lemma readonly_as_fromlist k : readonly (Methods.as_fromlist k).
Proof. intros g. by destruct k. Qed.

Lemma readonly_as_level k : readonly (Methods.as_level k).
Proof. intros g. by destruct k. Qed.

Lemma readonly_unit_of host fq fp pn typ :
  readonly (Methods.unit_of host fq fp pn typ).
Proof.
  intros g. unfold Methods.unit_of.
  destruct typ, fp as [fl |]; simpl; try done.
  - by destruct (bytes_eqb _ _).
  - destruct (sys_modules host fq) as [sm |]; [| done].
    by destruct (mod_path sm).
  - destruct (sys_modules host fq) as [sm |]; [| done].
    by destruct (mod_path sm).
Qed.

Lemma readonly_locate host name fullname search :
  readonly (Methods.locate host name fullname search).
Proof.
  intros g. unfold Methods.locate.
  assert (forall dirs,
    match
      match imp_find_module host name dirs with
      | Some (fp, buf, stuff) =>
          Ok (fp, Some (location host buf), stuff) g
      | None =>
          match sys_modules host fullname with
          | None => Raise (ImportError ("No module named " +:+ name)) g
          | Some sm =>
              if Str.nonempty (default "" (mod_file sm))
                 || negb (path_true (mod_path sm))
              then Raise (ImportError ("No module named " +:+ name)) g
              else Ok (None, None, ("", "", NAMESPACE)) g
          end
      end
    with
    | Ok _ g' | Raise _ g' => g' = g
    | OutOfFuel => True
    end) as Hprobe.
  { intros dirs. destruct (imp_find_module host name dirs) as [[[fp buf] st] |].
    - done.
    - destruct (sys_modules host fullname) as [sm |]; [| done].
      by destruct (_ || _). }
  destruct search as [dirs |]; [apply Hprobe |].
  destruct (bool_decide _); [done | apply Hprobe].
Qed.

Lemma readonly_find_all_submodules host m :
  readonly (Methods.find_all_submodules host m).
Proof.
  intros g. unfold Methods.find_all_submodules, bind, node.
  destruct (nodes g !! m) as [n |]; [| done].
  by destruct (path_true _).
Qed.

Lemma wf_same g g' :
  nodes g' = nodes g -> (next g <= next g')%nat -> wf g -> wf g'.
Proof.
  intros Hn Hx Hwf i n Hi. rewrite Hn in Hi.
  destruct (Hwf i n Hi) as [Hk Ha].
  split; [done |]. unfold allocated in *. lia.
Qed.

Lemma grows_same g g' :
  nodes g' = nodes g -> (next g <= next g')%nat -> edges g ⊆ edges g' ->
  (forall l, set_at l g ⊆ set_at l g') -> grows g g'.
Proof.
  intros Hn Hx He Hs.
  split; [| split; [done | split; [| done]]].
  - intros i n Hi. exists n. rewrite Hn. split; [done | apply same_object_refl].
  - intros l _. apply Hs.
Qed.

(** A step that leaves the nodes alone and removes nothing. *)
Lemma mono_step {A} (a : ModuleGraph -> A) (F : ModuleGraph -> ModuleGraph) :
  (forall g, nodes (F g) = nodes g /\ (next g <= next (F g))%nat
             /\ edges g ⊆ edges (F g)
             /\ forall l, set_at l g ⊆ set_at l (F g)) ->
  mono (fun g => Ok (a g) (F g)).
Proof.
  intros H g Hwf. destruct (H g) as (Hn & Hx & He & Hs). split.
  - by eapply wf_same.
  - by apply grows_same.
Qed.

Lemma mono_fresh : mono fresh.
Proof.
  apply (mono_step next (fun g => with_next (S (next g)) g)).
  intros g; simpl. repeat split; try done. lia.
Qed.

Lemma set_at_insert_ne l l' (x : gset string) g :
  l <> l' -> set_at l' (with_sets (<[l := x]> (sets g)) g) = set_at l' g.
Proof. intros H. unfold set_at; simpl. by rewrite lookup_insert_ne. Qed.

Lemma set_at_insert_eq l (x : gset string) g :
  set_at l (with_sets (<[l := x]> (sets g)) g) = x.
Proof. unfold set_at; simpl. by rewrite lookup_insert_eq. Qed.

Lemma mono_new_dict : mono new_dict.
Proof.
  unfold new_dict. apply mono_bind; [apply mono_fresh | intros l].
  apply (mono_step (fun _ => l) (fun g => with_dicts (<[l := ∅]> (dicts g)) g)).
  intros g; simpl. by repeat split.
Qed.

Lemma mono_new_set : mono new_set.
Proof.
  intros g Hwf. unfold new_set, bind, fresh. split.
  - intros i n Hi. simpl in *. destruct (Hwf i n Hi) as [Hk Ha].
    split; [done |]. unfold allocated in *. lia.
  - split; [| split; [done | split; [| simpl; lia]]].
    + intros i n Hi. exists n. split; [done | apply same_object_refl].
    + intros l Hl. unfold set_at; simpl.
      rewrite lookup_insert_ne; [done | lia].
Qed.

Lemma mono_dict_set l k v : mono (dict_set l k v).
Proof.
  apply (mono_step (fun _ => tt)
           (fun g => with_dicts (<[l := <[k := v]> (dict_at l g)]> (dicts g)) g)).
  intros g; simpl. by repeat split.
Qed.

Lemma mono_set_add l x : mono (set_add l x).
Proof.
  apply (mono_step (fun _ => tt)
           (fun g => with_sets (<[l := set_at l g ∪ {[x]}]> (sets g)) g)).
  intros g; simpl. repeat split; try done.
  intros l'. destruct (decide (l = l')) as [-> | Hne].
  - rewrite set_at_insert_eq. set_solver.
  - by rewrite set_at_insert_ne.
Qed.

Lemma mono_set_update l l' : mono (set_update l l').
Proof.
  apply (mono_step (fun _ => tt)
           (fun g => with_sets (<[l := set_at l g ∪ set_at l' g]> (sets g)) g)).
  intros g; simpl. repeat split; try done.
  intros k. destruct (decide (l = k)) as [-> | Hne].
  - rewrite set_at_insert_eq. set_solver.
  - by rewrite set_at_insert_ne.
Qed.

Lemma mono_createReference a b : mono (createReference a b).
Proof.
  unfold createReference, ObjectGraph.createReference.
  destruct b as [t |]; [| by apply readonly_mono].
  apply (mono_step (fun _ => tt)
           (fun g => with_edges (edges g ∪ {[(a, t, "direct")]}) g)).
  intros g; simpl. repeat split; try done. set_solver.
Qed.

Lemma mono_lazy_pop name : mono (Methods.lazy_pop name).
Proof.
  intros g Hwf. unfold Methods.lazy_pop.
  destruct (lazynodes g !! name).
  - split; [by eapply wf_same | by apply grows_same].
  - split; [done | apply grows_refl].
Qed.

(** Assigning [filename], [packagepath] or [code] keeps the object. *)
Lemma mono_update_node r (f : Node -> Node) :
  (forall n, same_object n (f n)) -> mono (update_node r f).
Proof.
  intros Hf g Hwf. unfold update_node. split.
  - intros i n Hi. simpl in Hi.
    destruct (decide (r = i)) as [-> | Hne].
    + rewrite lookup_alter_eq in Hi.
      destruct (nodes g !! i) as [n0 |] eqn:E; [| done].
      simpl in Hi. injection Hi as <-.
      destruct (Hwf i n0 E) as [Hk Ha].
      destruct (Hf n0) as (H1 & H2 & H3 & H4 & H5 & H6 & H7).
      split; [congruence |]. unfold allocated in *. simpl. lia.
    + rewrite lookup_alter_ne in Hi by done. apply (Hwf i n Hi).
  - repeat split; simpl; try done.
    intros i n Hi. destruct (decide (r = i)) as [-> | Hne].
    + exists (f n). rewrite lookup_alter_eq, Hi. split; [done | apply Hf].
    + exists n. rewrite lookup_alter_ne by done.
      split; [done | apply same_object_refl].
Qed.

Lemma same_object_set_filename x n : same_object n (set_filename x n).
Proof. by repeat split. Qed.

Lemma same_object_set_packagepath x n : same_object n (set_packagepath x n).
Proof. by repeat split. Qed.

Lemma same_object_set_code x n : same_object n (set_code x n).
Proof. by repeat split. Qed.

Lemma allocates_grows g g' : wf g -> allocates g g' -> wf g' /\ grows g g'.
Proof.
  intros Hwf (Hn & He & _ & Hx & Hs & _). split.
  - by eapply wf_same.
  - split; [| split; [by rewrite He | split; [| done]]].
    + intros i n Hi. exists n. rewrite Hn. split; [done | apply same_object_refl].
    + intros l Hl. unfold set_at. by rewrite (Hs l Hl).
Qed.

Lemma construct_spec c name arg g :
  wf g ->
  match construct c name arg g with
  | Ok n g' =>
      allocates g g' /\ graphident n = name /\ cls n = c
      /\ allocated (next g') n
  | Raise _ g' => allocates g g'
  | OutOfFuel => False
  end.
Proof.
  intros Hwf.
  unfold construct, Node_init, new_dict, new_set, fresh, bind, ret, raise.
  simpl.
  set (g' := with_sets _ _).
  assert (allocates g g') as Hal.
  { subst g'. unfold allocates; simpl. repeat split; try done; try lia.
    - intros l Hl. by rewrite !lookup_insert_ne by lia.
    - intros l Hl. by rewrite !lookup_insert_ne by lia. }
  assert (next g' = S (S (S (S (next g))))) as Hnx by done.
  destruct c; simpl;
    try (split; [exact Hal | repeat split; simpl; rewrite ?Hnx; lia]).
  destruct arg as [o |]; simpl; [| exact Hal].
  unfold node.
  assert (nodes g' = nodes g) as Hn by done.
  rewrite Hn.
  destruct (nodes g !! o) as [t |] eqn:E; [| exact Hal].
  destruct (Hwf o t E) as [_ (T1 & T2 & T3 & T4)].
  split; [exact Hal |]. repeat split; simpl; rewrite ?Hnx; lia.
Qed.

Lemma mono_createNode (find : string -> M (option string)) c name arg :
  (forall n, mono (find n)) -> mono (createNode find c name arg).
Proof.
  intros Hf g Hwf. unfold createNode, bind.
  specialize (Hf name g Hwf).
  destruct (find name g) as [[r |] g1 | e g1 |]; try done.
  destruct Hf as [Hwf1 Hg1].
  pose proof (construct_spec c name arg g1 Hwf1) as Hc.
  destruct (construct c name arg g1) as [n g2 | e g2 |]; [| | done].
  - destruct Hc as (Hal & Hid & Hcl & Han).
    destruct (allocates_grows g1 g2 Hwf1 Hal) as [Hwf2 Hg2].
    unfold ObjectGraph.addNode, ret. rewrite Hid.
    destruct (nodes g2 !! name) as [n0 |] eqn:E.
    + split; [done | by eapply grows_trans].
    + split.
      * intros i n' Hi. simpl in Hi.
        destruct (decide (name = i)) as [<- | Hne].
        -- rewrite lookup_insert_eq in Hi. injection Hi as <-. by split.
        -- rewrite lookup_insert_ne in Hi by done. simpl. apply (Hwf2 i n' Hi).
      * eapply grows_trans; [exact Hg1 |]. eapply grows_trans; [exact Hg2 |].
        split; [| split; [done | split; [done | done]]].
        intros i n' Hi. exists n'. simpl.
        rewrite lookup_insert_ne by congruence.
        split; [done | apply same_object_refl].
  - destruct (allocates_grows g1 g2 Hwf1 Hc) as [Hwf2 Hg2].
    split; [done | by eapply grows_trans].
Qed.

(** The branch of [implyNodeReference] for a node. *)
Lemma mono_imply_node n o :
  mono (on <- node o ;;
        match cls on with
        | AliasNode => ObjectGraph.addNode on ;; raise (AttributeError "connectTo")
        | _ => createReference (Some n) (Some o)
        end).
Proof.
  intros g Hwf. unfold bind at 1. unfold node.
  destruct (nodes g !! o) as [on |] eqn:E; [| split; [done | apply grows_refl]].
  pose proof (mono_createReference (Some n) (Some o) g Hwf) as Hr.
  destruct (cls on); try exact Hr.
  unfold bind, ObjectGraph.addNode, raise.
  destruct (Hwf o on E) as [-> _]. rewrite E.
  split; [done | apply grows_refl].
Qed.

Ltac mono_step H :=
  match goal with
  | |- mono (bind (node _) (fun _ => match cls _ with _ => _ end)) =>
      apply mono_imply_node
  | |- mono (bind _ _) => apply mono_bind; [| intros ?]
  | |- mono (ret _) => apply readonly_mono, readonly_ret
  | |- mono (raise _) => apply readonly_mono, readonly_raise
  | |- mono (node _) => apply readonly_mono, readonly_node
  | |- mono (assert _) => apply readonly_mono, readonly_assert
  | |- mono (pop _) => apply readonly_mono, readonly_pop
  | |- mono (dict_get _ _) => apply readonly_mono, readonly_dict_get
  | |- mono (ObjectGraph.findNode _) => apply readonly_mono, readonly_base_findNode
  | |- mono (Methods.replaced _ _) => apply readonly_mono, readonly_replaced
  | |- mono (Methods.compile _ _) => apply readonly_mono, readonly_compile
  | |- mono (Methods.as_fromlist _) => apply readonly_mono, readonly_as_fromlist
  | |- mono (Methods.as_level _) => apply readonly_mono, readonly_as_level
  | |- mono (Methods.unit_of _ _ _ _ _) => apply readonly_mono, readonly_unit_of
  | |- mono (Methods.locate _ _ _ _) => apply readonly_mono, readonly_locate
  | |- mono (Methods.find_all_submodules _ _) =>
      apply readonly_mono, readonly_find_all_submodules
  | |- mono (Methods.lazy_pop _) => apply mono_lazy_pop
  | |- mono (dict_set _ _ _) => apply mono_dict_set
  | |- mono (set_add _ _) => apply mono_set_add
  | |- mono (set_update _ _) => apply mono_set_update
  | |- mono (createReference _ _) => apply mono_createReference
  | |- mono (update_node _ (set_filename _)) =>
      apply mono_update_node, same_object_set_filename
  | |- mono (update_node _ (set_packagepath _)) =>
      apply mono_update_node, same_object_set_packagepath
  | |- mono (update_node _ (set_code _)) =>
      apply mono_update_node, same_object_set_code
  | |- mono (try_ImportError _) => apply mono_try
  | |- mono (forM_ _ _) => apply mono_forM; intros ?
  | |- mono (foldM _ _ _) => apply mono_foldM; intros ? ?
  | |- mono (createNode _ _ _ _) => apply mono_createNode; intros ?
  | |- mono (?s _ ?c) => apply H
  | |- mono (match ?x with _ => _ end) => destruct x
  end.

Lemma dispatch_mono host (s : Self) :
  (forall A (c : call A), mono (s A c)) ->
  forall A (c : call A), mono (Methods.dispatch host s A c).
Proof.
  intros H A c. destruct c; simpl.
  - unfold Methods.findNode, self.findNode, self._safe_import_hook,
      self.implyNodeReference.
    repeat mono_step H.
  - unfold Methods.implyNodeReference, self.import_hook.
    repeat mono_step H.
  - unfold Methods.run_script, self.findNode, self.scan_code.
    repeat mono_step H.
  - unfold Methods.import_hook, self.determine_parent, self.find_head_package,
      self.load_tail, self.ensure_fromlist.
    repeat mono_step H.
  - unfold Methods.determine_parent, self.findNode.
    repeat mono_step H.
  - unfold Methods.find_head_package, self.import_module.
    repeat mono_step H.
  - unfold Methods.load_tail, self.import_module, self.load_tail.
    repeat mono_step H.
  - unfold Methods.ensure_fromlist, self.import_module.
    repeat mono_step H.
  - unfold Methods.import_module, self.findNode, self.find_module,
      self.load_module.
    repeat mono_step H.
  - unfold Methods.load_module, self.load_package, self.findNode,
      self.scan_code.
    repeat mono_step H.
  - unfold Methods._safe_import_hook, self.import_hook, self.findNode.
    repeat mono_step H.
  - unfold Methods.scan_code, Methods.scan_event, Methods.scan_import,
      self.scan_code, self._safe_import_hook, self.findNode,
      self.determine_parent.
    repeat mono_step H.
  - unfold Methods.load_package, self.findNode, self.find_module,
      self.load_module.
    repeat mono_step H.
  - unfold Methods.find_module, self.findNode.
    repeat mono_step H.
Qed.

(** Every method keeps the graph well formed and only lets it grow. *)
Lemma bound_mono host (f : nat) {A} (c : call A) : mono (bound host f A c).
Proof.
  revert A c. induction f as [| f IH]; intros A c.
  - by intros g Hwf.
  - by apply dispatch_mono.
Qed.

Lemma wf_init sp p ex rp im : wf (ModuleGraph_init sp p ex rp im).
Proof. intros i n Hi. simpl in Hi. by rewrite lookup_empty in Hi. Qed.

Lemma wfb_sound g : wfb g = true -> wf g.
Proof.
  unfold wfb. rewrite forallb_forall. intros H i n Hi.
  assert (In (i, n) (map_to_list (nodes g))) as Hin.
  { apply list_elem_of_In. by apply elem_of_map_to_list. }
  specialize (H _ Hin). simpl in H.
  apply andb_prop in H as [H1 H2]. apply String.eqb_eq in H1.
  unfold allocatedb in H2.
  apply andb_prop in H2 as [H2 H5]. apply andb_prop in H2 as [H2 H4].
  apply andb_prop in H2 as [H2 H3].
  apply Nat.ltb_lt in H2, H3, H4, H5.
  split; [done | by repeat split].
Qed.

(* ===================================================================== *)
(** ** Resolving what is already there *)
(* ===================================================================== *)

Section Existing.

Variable host : Host.

Lemma findNode_existing (f : nat) g name n :
  nodes g !! name = Some n -> findNode host (S f) name g = Ok (Some name) g.
Proof.
  intros H.
  change (findNode host (S f) name)
    with (Methods.findNode (bound host f) name).
  unfold Methods.findNode, bind, ObjectGraph.findNode. by rewrite H.
Qed.

Lemma findNode_absent (f : nat) g name :
  nodes g !! name = None -> lazynodes g !! name = None ->
  findNode host (S f) name g = Ok None g.
Proof.
  intros H1 H2.
  change (findNode host (S f) name)
    with (Methods.findNode (bound host f) name).
  unfold Methods.findNode, bind, ObjectGraph.findNode, Methods.lazy_pop.
  by rewrite H1, H2.
Qed.

Lemma import_module_existing (f : nat) g partname name parent n :
  nodes g !! name = Some n ->
  import_module host (S (S f)) partname name parent g
  = Ok (Some name)
       (match parent with
        | Some p => linked (Some name) p g
        | None => g
        end).
Proof.
  intros H.
  change (import_module host (S (S f)) partname name parent)
    with (Methods.import_module (bound host (S f)) partname name parent).
  unfold Methods.import_module, bind.
  change (self.findNode (bound host (S f)) name) with (findNode host (S f) name).
  rewrite (findNode_existing f g name n H).
  by destruct parent.
Qed.

Lemma createNode_existing (f : nat) g c name arg n :
  nodes g !! name = Some n ->
  createNode (findNode host (S f)) c name arg g = Ok name g.
Proof.
  intros H. unfold createNode, bind. by rewrite (findNode_existing f g name n H).
Qed.

Lemma linked_twice a t g : linked a t (linked a t g) = linked a t g.
Proof.
  unfold linked, with_edges; simpl. f_equal.
  by rewrite <- (assoc_L (∪)), (idemp_L (∪)).
Qed.

Lemma findNode_plain (f : nat) g name :
  lazynodes g !! name = None ->
  findNode host (S f) name g
  = Ok (match nodes g !! name with Some _ => Some name | None => None end) g.
Proof.
  intros H. destruct (nodes g !! name) as [n |] eqn:E.
  - by eapply findNode_existing.
  - by apply findNode_absent.
Qed.

Lemma bind_Ok_inv {A B} (c : M A) (k : A -> M B) g b g' :
  bind c k g = Ok b g' -> exists a g0, c g = Ok a g0 /\ k a g0 = Ok b g'.
Proof.
  unfold bind. destruct (c g) as [a g0 | e g0 |]; [| done | done].
  intros H. by exists a, g0.
Qed.

Lemma readonly_Ok_inv {A} (c : M A) g a g' :
  readonly c -> c g = Ok a g' -> g' = g.
Proof. intros H E. specialize (H g). by rewrite E in H. Qed.

(** Creating the node of an identifier that has none and is not lazily
    registered. *)
Lemma createNode_fresh (f : nat) c name g :
  c <> AliasNode -> wf g ->
  nodes g !! name = None -> lazynodes g !! name = None ->
  exists n g',
    createNode (findNode host (S f)) c name None g = Ok name g'
    /\ nodes g' = <[name := n]> (nodes g)
    /\ cls n = c /\ graphident n = name /\ identifier n = name
    /\ code_handle n = None /\ packagepath n = None
    /\ edges g' = edges g /\ lazynodes g' = lazynodes g
    /\ wf g' /\ grows g g'
    /\ path g' = path g /\ replace_paths g' = replace_paths g.
Proof.
  intros Hc Hwf Hn Hl.
  pose proof (mono_createNode (findNode host (S f)) c name None
                (fun n => bound_mono host (S f) (FindNode n)) g Hwf) as Hm.
  unfold createNode, bind in *. rewrite (findNode_absent f g name Hn Hl) in *.
  pose proof (construct_spec c name None g Hwf) as Hs.
  assert (exists n g2, construct c name None g = Ok n g2
            /\ identifier n = name /\ code_handle n = None
            /\ packagepath n = None
            /\ path g2 = path g /\ replace_paths g2 = replace_paths g)
    as (n & g2 & E & Hi & Hco & Hpp & Hpath & Hrp).
  { unfold construct, bind, Node_init, new_dict, new_set, fresh, ret. simpl.
    destruct c; try done; eexists _, _; (split; [reflexivity | done]). }
  rewrite E in *. destruct Hs as ((N1 & N2 & N3 & _) & Hid & Hcl & _).
  unfold ObjectGraph.addNode, ret in *. rewrite Hid, N1, Hn in *.
  exists n, (with_nodes (<[name := n]> (nodes g2)) g2).
  rewrite N1. simpl. destruct Hm as [Hw Hg].
  repeat match goal with |- _ /\ _ => split end; done.
Qed.

Lemma bind_Ok {A B} (c : M A) (k : A -> M B) g a g1 :
  c g = Ok a g1 -> bind c k g = k a g1.
Proof. intros E. unfold bind. by rewrite E. Qed.

Lemma bind_Raise {A B} (c : M A) (k : A -> M B) g e g1 :
  c g = Raise e g1 -> bind c k g = Raise e g1.
Proof. intros E. unfold bind. by rewrite E. Qed.

Lemma bind_bind {A B C} (c : M A) (k1 : A -> M B) (k2 : B -> M C) g :
  bind (bind c k1) k2 g = bind c (fun a => bind (k1 a) k2) g.
Proof. unfold bind. by destruct (c g). Qed.

Lemma try_Ok {A} (c : M A) g a g1 :
  c g = Ok a g1 -> try_ImportError c g = Ok (inl a) g1.
Proof. intros E. unfold try_ImportError. by rewrite E. Qed.

Lemma try_Raise {A} (c : M A) g msg g1 :
  c g = Raise (ImportError msg) g1 -> try_ImportError c g = Ok (inr msg) g1.
Proof. intros E. unfold try_ImportError. by rewrite E. Qed.

End Existing.

(** One step of a run: the first computation of a sequence returns. *)
Ltac step tac := erewrite bind_Ok; [| tac]; cbv beta iota zeta.

(** One step of a run, the sequence re-associated first. *)
Ltac step' tac := rewrite ?bind_bind; step tac.

Lemma cut_no_dot (s : string) : Str.has_dot s = false -> Str.cut s = (s, None).
Proof.
  unfold Str.has_dot. induction s as [| a r IH]; [done |].
  cbn [Str.count_dot Str.cut]. destruct (Str.is_dot a).
  - done.
  - intros H. by rewrite (IH H).
Qed.

Lemma load_module_bad_magic (host : Host) (f : nat) (g : ModuleGraph)
    (fqname : string) (fl : file) (pathname : option string)
    (suffix mode : string) :
  bytes_eqb (head4 fl) (imp_get_magic host) = false ->
  load_module host (S f) fqname (Some fl) pathname (suffix, mode, PY_COMPILED) g
  = Raise (ImportError ("Bad magic number in " +:+ default "None" pathname)) g.
Proof.
  intros H.
  change (load_module host (S f) fqname (Some fl) pathname
            (suffix, mode, PY_COMPILED))
    with (Methods.load_module host (bound host f) fqname (Some fl) pathname
            (suffix, mode, PY_COMPILED)).
  unfold Methods.load_module. cbn [snd]. apply bind_Raise.
  unfold Methods.unit_of. by rewrite H.
Qed.

(** Imports requested by a top-level module. *)
Section TopLevel.

Variable host : Host.
Variable g : ModuleGraph.
Variables (m : string) (mn : Node).
Hypothesis m_node : nodes g !! m = Some mn.
Hypothesis m_module : path_true (packagepath mn) = false.
Hypothesis m_top : Str.has_dot (identifier mn) = false.

Lemma determine_parent_top (k : nat) :
  determine_parent host (S k) (Some m) (-1) g = Ok None g.
Proof.
  change (determine_parent host (S k) (Some m) (-1))
    with (Methods.determine_parent (bound host k) (Some m) (-1)).
  unfold Methods.determine_parent. cbn [Z.eqb].
  step ltac:(unfold node; by rewrite m_node).
  cbn [Z.leb Z.compare]. by rewrite m_module, m_top.
Qed.

End TopLevel.

(** The wrapper of [import_hook] when the import fails: the [ImportError]
    is caught, and the wrapper returns the [MissingModule] node it makes for
    the name, linked from the caller. *)
Lemma safe_import_missing (host : Host) (f : nat) (g g1 : ModuleGraph)
    (name : string) (caller : option string) (level : Z) (msg : string) :
  wf g1 ->
  import_hook host (S f) name caller None level g = Raise (ImportError msg) g1 ->
  nodes g1 !! name = None ->
  lazynodes g1 !! name = None ->
  exists n g',
    _safe_import_hook host (S (S f)) name caller None level g = Ok {[name]} g'
    /\ nodes g' = <[name := n]> (nodes g1)
    /\ cls n = MissingModule
    /\ edges g' = edges g1 ∪ {[(caller, name, "direct")]}.
Proof.
  intros Hwf1 Himp Hn1 Hl1.
  destruct (createNode_fresh host f MissingModule name g1) as
    (n & g2 & E & Hnodes & Hcl & _ & _ & _ & _ & He2 & _ & _ & _);
    [done | done | done | done |].
  exists n, (linked caller name g2). split.
  - change (_safe_import_hook host (S (S f)) name caller None level)
      with (Methods._safe_import_hook (bound host (S f)) name caller None level).
    unfold Methods._safe_import_hook.
    step ltac:(by apply try_Raise, Himp).
    rewrite bind_bind. step ltac:(exact E).
    rewrite bind_bind. step ltac:(reflexivity).
    step ltac:(reflexivity). done.
  - simpl. by rewrite He2.
Qed.

(* ===================================================================== *)
(** ** Memoization *)
(* ===================================================================== *)



(* ===================================================================== *)
(** ** Running a script twice *)
(* ===================================================================== *)

(** C10.  When [run_script] has returned for a path (one that is not the
    name of a lazily registered module), a second call for the same real
    path returns the same node and leaves the whole graph as it is; the
    file is not compiled again (the second call may even run on a host where
    the file can no longer be read) and nothing is scanned. *)
Theorem run_script_idempotent (host host' : Host) (f f' : nat)
    (pathname : string) (caller caller' : option string)
    (g g1 : ModuleGraph) (r : string) :
  wf g ->
  lazynodes g !! realpath host pathname = None ->
  realpath host' pathname = realpath host pathname ->
  run_script host f pathname caller g = Ok r g1 ->
  r = realpath host pathname
  /\ (exists n, nodes g1 !! r = Some n)
  /\ run_script host' (S (S f')) pathname caller' g1 = Ok r g1.
Proof.
  intros Hwf Hlazy Hreal Hrun.
  assert (forall n, nodes g1 !! realpath host pathname = Some n ->
            run_script host' (S (S f')) pathname caller' g1
            = Ok (realpath host pathname) g1) as Hagain.
  { intros n Hn.
    change (run_script host' (S (S f')) pathname caller')
      with (Methods.run_script host' (bound host' (S f')) pathname caller').
    unfold Methods.run_script, bind. rewrite Hreal.
    change (self.findNode (bound host' (S f')) (realpath host pathname))
      with (findNode host' (S f') (realpath host pathname)).
    by rewrite (findNode_existing host' f' g1 _ n Hn). }
  destruct f as [| [| k]]; [done | done |].
  change (run_script host (S (S k)) pathname caller)
    with (Methods.run_script host (bound host (S k)) pathname caller) in Hrun.
  unfold Methods.run_script in Hrun.
  set (p := realpath host pathname) in *.
  apply bind_Ok_inv in Hrun as (m & g0 & Hfind & Hrun).
  change (self.findNode (bound host (S k)) p) with (findNode host (S k) p)
    in Hfind, Hrun.
  rewrite (findNode_plain host k g p Hlazy) in Hfind.
  injection Hfind as <- <-.
  destruct (nodes g !! p) as [n |] eqn:En.
  - injection Hrun as <- <-. split; [done |]. split; [by exists n |].
    by apply (Hagain n).
  - apply bind_Ok_inv in Hrun as (co & ga & Hco & Hrun).
    apply (readonly_Ok_inv _ _ _ _ (readonly_compile host p)) in Hco as ->.
    apply bind_Ok_inv in Hrun as (co' & gb & Hco' & Hrun).
    apply (readonly_Ok_inv _ _ _ _ (readonly_replaced host co)) in Hco' as ->.
    apply bind_Ok_inv in Hrun as (m & g3 & Hcreate & Hrun).
    destruct (createNode_fresh host k Script p g) as
      (n & g3' & E & Hnodes & _ & _ & _ & _ & _ & _ & _ & Hwf3 & _);
      [done | done | done | done |].
    change (self.findNode (bound host (S k))) with (findNode host (S k))
      in Hcreate.
    rewrite E in Hcreate. injection Hcreate as <- <-.
    assert (mono (update_node p (set_code (Some co')) ;;
                  createReference caller (Some p) ;;
                  self.scan_code (bound host (S k)) co' p ;;
                  ret p)) as Hmono.
    { pose proof (fun A (c : call A) => bound_mono host (S k) c) as IH.
      unfold self.scan_code. repeat mono_step IH. }
    specialize (Hmono g3' Hwf3). rewrite Hrun in Hmono.
    destruct Hmono as [_ (Hgrow & _)].
    destruct (Hgrow p n) as (n' & En' & _).
    { rewrite Hnodes. apply lookup_insert_eq. }
    apply bind_Ok_inv in Hrun as (? & g4 & _ & Hrun).
    apply bind_Ok_inv in Hrun as (? & g5 & _ & Hrun).
    apply bind_Ok_inv in Hrun as (? & g6 & _ & Hrun).
    injection Hrun as <- <-.
    split; [done |]. split; [by exists n' |]. by apply (Hagain n').
Qed.

Lemma run_script_idempotent_witness :
  run_script World.host 2 "/app/script.py" (Some "pkg") graph_script
  = Ok "/app/script.py" graph_script.
Proof.
  refine (proj2 (proj2 (run_script_idempotent World.host World.host 14 0
            "/app/script.py" None (Some "pkg") (World.graph [] []) graph_script
            "/app/script.py" _ _ _ _))).
  - apply wf_init.
  - reflexivity.
  - reflexivity.
  - vm_compute. reflexivity.
Defined.

(* ===================================================================== *)
(** ** Excluded names *)
(* ===================================================================== *)

Lemma excludes_registered (excludes : list string) (init : gmap string lazy)
    (name : string) :
  foldl (fun acc m => <[m := LazyNone]> acc) init excludes !! name
  = if bool_decide (name ∈ excludes) then Some LazyNone else init !! name.
Proof.
  revert init. induction excludes as [| x r IH]; intros init; cbn [foldl].
  - case_bool_decide as H; [by apply elem_of_nil in H | done].
  - rewrite IH. case_bool_decide as H1; case_bool_decide as H2; try done.
    + exfalso. apply H2. apply elem_of_cons. by right.
    + apply elem_of_cons in H2 as [-> | H2]; [| done].
      apply lookup_insert_eq.
    + rewrite lookup_insert_ne; [done |].
      intros <-. apply H2, elem_of_cons. by left.
Qed.

Lemma findNode_excluded (host : Host) (f : nat) g name :
  wf g -> nodes g !! name = None -> lazynodes g !! name = Some LazyNone ->
  exists n g1,
    findNode host (S (S f)) name g = Ok (Some name) g1
    /\ nodes g1 = <[name := n]> (nodes g)
    /\ cls n = ExcludedModule /\ code_handle n = None
    /\ edges g1 = edges g
    /\ lazynodes g1 = delete name (lazynodes g).
Proof.
  intros Hwf Hn Hl.
  change (findNode host (S (S f)) name)
    with (Methods.findNode (bound host (S f)) name).
  unfold Methods.findNode, bind, ObjectGraph.findNode, Methods.lazy_pop.
  rewrite Hn, Hl.
  change (self.findNode (bound host (S f))) with (findNode host (S f)).
  set (g' := with_lazynodes (delete name (lazynodes g)) g).
  destruct (createNode_fresh host f ExcludedModule name g') as
    (n & g1 & E & Hnodes & Hcl & _ & _ & Hco & _ & He & Hlz & _);
    [done | by eapply wf_same | done | apply lookup_delete_eq |].
  rewrite E. exists n, g1. by repeat match goal with |- _ /\ _ => split end.
Qed.

(** C2, as the code has it.  A name given in [excludes] is registered as
    excluded even when [implies] registers it too (as an alias or with
    implied dependencies).  Resolving a name so registered makes an
    [ExcludedModule] node without code, consumes the registration and adds
    no edge; [import_module] then adds, as for every module it resolves
    under a parent, the edge from that node to the parent, and no other. *)
Theorem exclusion_precedence (host : Host) (f : nat) (sys_path : list string)
    (path : option (list string)) (excludes : list string)
    (replace_paths : list (string * string)) (implies : list (string * lazy))
    (name : string) :
  name ∈ excludes ->
  lazynodes (ModuleGraph_init sys_path path excludes replace_paths implies)
    !! name = Some LazyNone
  /\ forall g, wf g -> nodes g !! name = None ->
       lazynodes g !! name = Some LazyNone ->
       exists n g1,
         findNode host (S (S f)) name g = Ok (Some name) g1
         /\ nodes g1 = <[name := n]> (nodes g)
         /\ cls n = ExcludedModule /\ code_handle n = None
         /\ edges g1 = edges g
         /\ lazynodes g1 !! name = None
         /\ forall partname parent,
              import_module host (S (S (S f))) partname name parent g
              = Ok (Some name)
                   (match parent with
                    | Some p => linked (Some name) p g1
                    | None => g1
                    end).
Proof.
  intros Hin. split.
  - simpl. rewrite excludes_registered. by rewrite bool_decide_eq_true_2.
  - intros g Hwf Hn Hl.
    destruct (findNode_excluded host f g name Hwf Hn Hl) as
      (n & g1 & E & Hnodes & Hcl & Hco & He & Hlz).
    exists n, g1. repeat match goal with |- _ /\ _ => split end; try done.
    + rewrite Hlz. apply lookup_delete_eq.
    + intros partname parent.
      change (import_module host (S (S (S f))) partname name parent)
        with (Methods.import_module (bound host (S (S f))) partname name parent).
      unfold Methods.import_module, bind.
      change (self.findNode (bound host (S (S f))) name)
        with (findNode host (S (S f)) name).
      rewrite E. by destruct parent.
Qed.

Lemma exclusion_precedence_witness :
  lazynodes (World.graph ["pkg.sub"] [("pkg.sub", LazyAlias "p")]) !! "pkg.sub"
  = Some LazyNone.
Proof.
  refine (proj1 (exclusion_precedence World.host 0 ["/app"] None ["pkg.sub"] []
                   [("pkg.sub", LazyAlias "p")] "pkg.sub" _)).
  apply elem_of_cons. by left.
Defined.

(** C2 as stated fails: with [pkg.sub] excluded, [import pkg.sub] yields the
    [ExcludedModule] node of [pkg.sub], and that node has an outgoing
    [direct] edge, to its package. *)
Lemma exclusion_counterexample :
  summary (import_hook World.host 12 "pkg.sub" None None (-1)
             (World.graph ["pkg.sub"] []))
  = Some ([("pkg.sub", ExcludedModule); ("pkg", Package)],
          [(Some "pkg.sub", "pkg", "direct"); (None, "pkg.sub", "direct")])
  /\ outgoing "pkg.sub"
       <$> final (import_hook World.host 12 "pkg.sub" None None (-1)
                    (World.graph ["pkg.sub"] []))
     = Some [(Some "pkg.sub", "pkg", "direct")].
Proof. split; vm_compute; reflexivity. Qed.

(* ===================================================================== *)
(** ** Relative imports that ascend too far *)
(* ===================================================================== *)

Lemma determine_parent_too_deep (host : Host) (f : nat) g c cn level :
  nodes g !! c = Some cn -> (nesting_depth cn < level)%Z ->
  determine_parent host (S f) (Some c) level g
  = Raise (ImportError "relative importpath too deep") g.
Proof.
  intros Hc Hd. unfold nesting_depth in Hd.
  change (determine_parent host (S f) (Some c) level)
    with (Methods.determine_parent (bound host f) (Some c) level).
  unfold Methods.determine_parent.
  assert (0 <= Z.of_nat (Str.count_dot (identifier cn)))%Z as Hpos by lia.
  assert ((level =? 0)%Z = false) as -> by (destruct (path_true _); lia).
  unfold bind, node. rewrite Hc.
  assert ((1 <=? level)%Z = true) as -> by (destruct (path_true _); lia).
  destruct (path_true (packagepath cn)).
  - assert ((level - 1 =? 0)%Z = false) as -> by lia.
    by assert ((Z.of_nat (Str.count_dot (identifier cn)) <? level - 1)%Z = true)
      as -> by lia.
  - assert ((level =? 0)%Z = false) as -> by lia.
    by assert ((Z.of_nat (Str.count_dot (identifier cn)) <? level)%Z = true)
      as -> by lia.
Qed.

(** C3, as the code has it.  A relative import whose level exceeds the
    package nesting depth of the requester makes [determine_parent], and
    with it [import_hook], raise [ImportError] with the message "relative
    importpath too deep", the graph untouched.  It is the exception class of
    every failed import, so the [except ImportError] of the scan wrapper
    receives it as it receives the others: [_safe_import_hook] returns, with
    a [MissingModule] node for the target. *)
Theorem relative_too_deep (host : Host) (f : nat) (g : ModuleGraph)
    (c : string) (cn : Node) (level : Z) (name : string)
    (fromlist : option (list string)) :
  nodes g !! c = Some cn ->
  (nesting_depth cn < level)%Z ->
  determine_parent host (S f) (Some c) level g
  = Raise (ImportError "relative importpath too deep") g
  /\ import_hook host (S (S f)) name (Some c) fromlist level g
     = Raise (ImportError "relative importpath too deep") g
  /\ try_ImportError (import_hook host (S (S f)) name (Some c) fromlist level) g
     = Ok (inr "relative importpath too deep") g
  /\ (wf g -> nodes g !! name = None -> lazynodes g !! name = None ->
      exists n g',
        _safe_import_hook host (S (S (S f))) name (Some c) None level g
        = Ok {[name]} g'
        /\ nodes g' = <[name := n]> (nodes g)
        /\ cls n = MissingModule
        /\ edges g' = edges g ∪ {[(Some c, name, "direct")]}).
Proof.
  intros Hc Hd.
  pose proof (determine_parent_too_deep host f g c cn level Hc Hd) as E.
  assert (import_hook host (S (S f)) name (Some c) fromlist level g
          = Raise (ImportError "relative importpath too deep") g) as E'.
  { change (import_hook host (S (S f)) name (Some c) fromlist level)
      with (Methods.import_hook (bound host (S f)) name (Some c) fromlist level).
    unfold Methods.import_hook, bind.
    change (self.determine_parent (bound host (S f)) (Some c) level)
      with (determine_parent host (S f) (Some c) level).
    by rewrite E. }
  split; [done |]. split; [done |]. split.
  - unfold try_ImportError. by rewrite E'.
  - intros Hwf Hn Hl.
    apply (safe_import_missing host (S f) g g name (Some c) level
             "relative importpath too deep"); try done.
    change (import_hook host (S (S f)) name (Some c) None level)
      with (Methods.import_hook (bound host (S f)) name (Some c) None level).
    unfold Methods.import_hook. apply bind_Raise. exact E.
Qed.

Lemma relative_too_deep_witness :
  determine_parent World.host 1 (Some "a") 1 graph_a
  = Raise (ImportError "relative importpath too deep") graph_a.
Proof.
  refine (proj1 (relative_too_deep World.host 0 graph_a "a" module_a 1 "x" None
                   _ _)).
  - vm_compute. reflexivity.
  - vm_compute. reflexivity.
Defined.

(** C3 as stated fails: [deep.py] holds [from .x import y], one level more
    than the nesting of the top-level module [deep]; importing [deep]
    returns, and the scan has recorded [x] as a [MissingModule]. *)
Lemma relative_too_deep_counterexample :
  summary (import_hook World.host 12 "deep" None None (-1) (World.graph [] []))
  = Some ([("deep", SourceModule); ("x.y", MissingModule); ("x", MissingModule)],
          [(Some "deep", "x", "direct"); (None, "deep", "direct");
           (Some "x.y", "x", "direct")]).
Proof. vm_compute. reflexivity. Qed.

(* ===================================================================== *)
(** ** Scanning *)
(* ===================================================================== *)

Lemma scan_event_store (self : Self) (m name : string) g mn :
  nodes g !! m = Some mn ->
  Methods.scan_event self m (Store name) g
  = Ok tt (with_sets (<[globalnames mn :=
                          set_at (globalnames mn) g ∪ {[name]}]> (sets g)) g).
Proof.
  intros Hm. unfold Methods.scan_event, bind, node. by rewrite Hm.
Qed.

Lemma forM_stores (self : Self) (m : string) (evs : list event) g mn :
  nodes g !! m = Some mn -> stores_only evs ->
  exists g',
    forM_ evs (Methods.scan_event self m) g = Ok tt g'
    /\ nodes g' = nodes g /\ edges g' = edges g
    /\ (forall l, set_at l g ⊆ set_at l g')
    /\ (forall name, Store name ∈ evs -> name ∈ set_at (globalnames mn) g').
Proof.
  intros Hm Hs. revert g Hm.
  induction Hs as [| ev evs [name ->] _ IH]; intros g Hm.
  - exists g. repeat split; try done. intros name H. by apply elem_of_nil in H.
  - cbn [forM_]. unfold bind at 1.
    rewrite (scan_event_store self m name g mn Hm).
    set (g1 := with_sets _ g).
    destruct (IH g1 Hm) as (g' & E & Hn & He & Hsub & Hin).
    exists g'. rewrite E.
    repeat match goal with |- _ /\ _ => split end; try done.
    + intros l. etrans; [| apply Hsub].
      subst g1. destruct (decide (globalnames mn = l)) as [<- | Hne].
      * rewrite set_at_insert_eq. apply union_subseteq_l.
      * by rewrite set_at_insert_ne.
    + intros name' [Heq | H]%elem_of_cons; [| by apply Hin].
      injection Heq as ->. apply Hsub. subst g1.
      rewrite set_at_insert_eq. apply elem_of_union_r. by apply elem_of_singleton.
Qed.

Lemma forM_no_nested (self : Self) (m : string) (co : code) g :
  no_nested_code co ->
  forM_ (co_consts co)
        (fun c => match c with
                  | CCode c' => self.scan_code self c' m
                  | _ => ret tt
                  end) g = Ok tt g.
Proof.
  unfold no_nested_code. generalize (co_consts co). intros l H. revert g.
  induction H as [| c l Hc _ IH]; intros g; [done |].
  cbn [forM_]. unfold bind. destruct c; try apply IH.
  by destruct (Hc co0).
Qed.

Lemma determine_parent_enclosing (host : Host) (k : nat) g m mn parent :
  nodes g !! m = Some mn ->
  enclosing g m mn parent ->
  determine_parent host (S (S k)) (Some m) (-1) g = Ok parent g.
Proof.
  intros Hm Henc.
  change (determine_parent host (S (S k)) (Some m) (-1))
    with (Methods.determine_parent (bound host (S k)) (Some m) (-1)).
  unfold Methods.determine_parent. cbn [Z.eqb].
  step ltac:(unfold node; by rewrite Hm).
  cbn [Z.leb Z.compare]. unfold enclosing in Henc.
  destruct (path_true (packagepath mn)).
  - destruct Henc as [Hid ->]. rewrite Hid.
    step ltac:(by apply (findNode_existing host k g m mn)).
    rewrite bool_decide_eq_true_2 by done. cbn [assert].
    step ltac:(reflexivity). done.
  - destruct (Str.has_dot (identifier mn)); [| by subst parent].
    destruct (nodes g !! Str.before_last_dot (identifier mn)) as [pn |] eqn:E.
    + destruct Henc as [Hp ->].
      step ltac:(by apply (findNode_existing host k g _ pn)).
      step ltac:(unfold node; by rewrite E).
      rewrite Hp, String.eqb_refl. cbn [assert].
      step ltac:(reflexivity). done.
    + destruct Henc as [Hl ->].
      step ltac:(by apply (findNode_absent host k)). done.
Qed.


Lemma agrees_linked g g0 a t : agrees g g0 -> agrees g (linked a t g0).
Proof. done. Qed.

Section Unloadable.

Variable host : Host.
Variables g g0 : ModuleGraph.
Hypothesis same : agrees g g0.

Lemma import_module_nothing_top (k : nat) (partname : string) :
  no_module host g None partname ->
  import_module host (S (S (S k))) partname partname None g0 = Ok None g0.
Proof.
  destruct same as (Hn & Hl & Hp).
  intros (Hnew & Hlazy & Hb & Hf & Hs). cbn [full_name] in *.
  change (import_module host (S (S (S k))) partname partname None)
    with (Methods.import_module (bound host (S (S k))) partname partname None).
  unfold Methods.import_module.
  step ltac:(apply (findNode_absent host (S k));
             [by rewrite Hn | by rewrite Hl]).
  step ltac:(reflexivity). cbn [mjoin].
  assert (find_module host (S (S k)) partname None None g0
          = Raise (ImportError ("No module named " +:+ partname)) g0) as Ef.
  { change (find_module host (S (S k)) partname None None)
      with (Methods.find_module host (bound host (S k)) partname None None).
    unfold Methods.find_module.
    step ltac:(reflexivity).
    step ltac:(apply (findNode_absent host k);
               [by rewrite Hn | by rewrite Hl]).
    unfold Methods.locate.
    rewrite (bool_decide_eq_false_2 _ Hb). by rewrite Hp, Hf, Hs. }
  step ltac:(by apply try_Raise, Ef). done.
Qed.

Lemma import_module_nothing_in (k : nat) (p partname : string) (pn : Node) :
  nodes g !! p = Some pn ->
  no_module host g (Some pn) partname ->
  import_module host (S (S (S k))) partname (qualify (identifier pn) partname)
    (Some p) g0
  = Ok None g0.
Proof.
  destruct same as (Hn & Hl & Hp).
  intros Hpn (Hnew & Hlazy & Hfind). cbn [full_name] in *.
  set (fq := qualify (identifier pn) partname) in *.
  change (import_module host (S (S (S k))) partname fq (Some p))
    with (Methods.import_module (bound host (S (S k))) partname fq (Some p)).
  unfold Methods.import_module.
  step ltac:(apply (findNode_absent host (S k));
             [by rewrite Hn | by rewrite Hl]).
  step' ltac:(unfold node; by rewrite Hn, Hpn).
  step' ltac:(reflexivity).
  destruct (packagepath pn) as [dirs |] eqn:Hd; [| done].
  destruct Hfind as [? | [Hf Hs]]; [done |]. cbn [default from_option id] in Hf.
  cbn [mjoin option_join].
  assert (find_module host (S (S k)) partname (Some dirs) (Some p) g0
          = Raise (ImportError ("No module named " +:+ partname)) g0) as Ef.
  { change (find_module host (S (S k)) partname (Some dirs) (Some p))
      with (Methods.find_module host (bound host (S k)) partname (Some dirs)
              (Some p)).
    unfold Methods.find_module.
    step' ltac:(unfold node; by rewrite Hn, Hpn).
    step' ltac:(reflexivity). fold fq.
    step ltac:(apply (findNode_absent host k);
               [by rewrite Hn | by rewrite Hl]).
    unfold Methods.locate. by rewrite Hf, Hs. }
  step ltac:(by apply try_Raise, Ef). done.
Qed.

Lemma import_module_bad_top (k : nat) (partname : string) (fl : file) :
  bad_cache host g None partname fl ->
  exists msg,
    import_module host (S (S (S k))) partname partname None g0
    = Raise (ImportError msg) g0.
Proof.
  destruct same as (Hn & Hl & Hp).
  intros (Hnew & Hlazy & Htag & buf & s1 & s2 & Hb & Hf).
  cbn [full_name] in *.
  exists ("Bad magic number in " +:+ location host buf).
  change (import_module host (S (S (S k))) partname partname None)
    with (Methods.import_module (bound host (S (S k))) partname partname None).
  unfold Methods.import_module.
  step ltac:(apply (findNode_absent host (S k));
             [by rewrite Hn | by rewrite Hl]).
  step ltac:(reflexivity). cbn [mjoin].
  assert (find_module host (S (S k)) partname None None g0
          = Ok (Some fl, Some (location host buf), (s1, s2, PY_COMPILED)) g0)
    as Ef.
  { change (find_module host (S (S k)) partname None None)
      with (Methods.find_module host (bound host (S k)) partname None None).
    unfold Methods.find_module.
    step ltac:(reflexivity).
    step ltac:(apply (findNode_absent host k);
               [by rewrite Hn | by rewrite Hl]).
    unfold Methods.locate.
    rewrite (bool_decide_eq_false_2 _ Hb). by rewrite Hp, Hf. }
  step ltac:(by apply try_Ok, Ef). cbn [fst snd].
  apply bind_Raise.
  by apply (load_module_bad_magic host (S k) g0 partname fl
              (Some (location host buf)) s1 s2).
Qed.

Lemma import_module_bad_in (k : nat) (p partname : string) (pn : Node)
    (fl : file) :
  nodes g !! p = Some pn ->
  bad_cache host g (Some pn) partname fl ->
  exists msg,
    import_module host (S (S (S k))) partname
      (qualify (identifier pn) partname) (Some p) g0
    = Raise (ImportError msg) g0.
Proof.
  destruct same as (Hn & Hl & Hp).
  intros Hpn (Hnew & Hlazy & Htag & buf & s1 & s2 & dirs & Hd & Hf).
  cbn [full_name] in *.
  set (fq := qualify (identifier pn) partname) in *.
  exists ("Bad magic number in " +:+ location host buf).
  change (import_module host (S (S (S k))) partname fq (Some p))
    with (Methods.import_module (bound host (S (S k))) partname fq (Some p)).
  unfold Methods.import_module.
  step ltac:(apply (findNode_absent host (S k));
             [by rewrite Hn | by rewrite Hl]).
  step' ltac:(unfold node; by rewrite Hn, Hpn).
  step' ltac:(reflexivity).
  rewrite Hd. cbn [mjoin option_join].
  assert (find_module host (S (S k)) partname (Some dirs) (Some p) g0
          = Ok (Some fl, Some (location host buf), (s1, s2, PY_COMPILED)) g0)
    as Ef.
  { change (find_module host (S (S k)) partname (Some dirs) (Some p))
      with (Methods.find_module host (bound host (S k)) partname (Some dirs)
              (Some p)).
    unfold Methods.find_module.
    step' ltac:(unfold node; by rewrite Hn, Hpn).
    step' ltac:(reflexivity). fold fq.
    step ltac:(apply (findNode_absent host k);
               [by rewrite Hn | by rewrite Hl]).
    unfold Methods.locate. by rewrite Hf. }
  step ltac:(by apply try_Ok, Ef). cbn [fst snd].
  apply bind_Raise.
  by apply (load_module_bad_magic host (S k) g0 fq fl
              (Some (location host buf)) s1 s2).
Qed.

End Unloadable.

Lemma with_edges_nil g0 : with_edges (edges g0 ∪ list_to_set []) g0 = g0.
Proof.
  cbn [list_to_set foldr]. rewrite (right_id_L ∅ (∪)). by destruct g0.
Qed.

Lemma with_edges_cons g0 a t es :
  with_edges (edges (linked a t g0) ∪ list_to_set es) (linked a t g0)
  = with_edges (edges g0 ∪ list_to_set ((a, t, "direct") :: es)) g0.
Proof.
  unfold linked, with_edges. simpl. f_equal. by rewrite (assoc_L (∪)).
Qed.

Lemma import_module_unloadable (host : Host) g g0 why (k : nat)
    (p partname : string) (pn : Node) :
  agrees g g0 ->
  nodes g !! p = Some pn ->
  unloadable host g why (Some pn) partname ->
  import_module host (S (S (S k))) partname (qualify (identifier pn) partname)
    (Some p) g0 = Ok None g0
  \/ exists msg,
       import_module host (S (S (S k))) partname
         (qualify (identifier pn) partname) (Some p) g0
       = Raise (ImportError msg) g0.
Proof.
  intros Hsame Hp Hu. destruct why.
  - left. by apply (import_module_nothing_in host g g0 Hsame k p partname pn).
  - right. by apply (import_module_bad_in host g g0 Hsame k p partname pn fl).
Qed.

Lemma import_module_unloadable_top (host : Host) g g0 why (k : nat)
    (partname : string) :
  agrees g g0 ->
  unloadable host g why None partname ->
  import_module host (S (S (S k))) partname partname None g0 = Ok None g0
  \/ exists msg,
       import_module host (S (S (S k))) partname partname None g0
       = Raise (ImportError msg) g0.
Proof.
  intros Hsame Hu. destruct why.
  - left. by apply (import_module_nothing_top host g g0 Hsame k partname).
  - right. by apply (import_module_bad_top host g g0 Hsame k partname fl).
Qed.

(** [load_tail] along nodes the graph has, up to a component that cannot
    be loaded: it raises [ImportError], and has made the edges of the nodes
    it passed. *)
Lemma load_tail_fails (host : Host) g why q tail es :
  tail_fails host g why q tail es ->
  forall g0 k,
    agrees g g0 ->
    exists msg,
      load_tail host (S (S (S (S (length es + k))))) q tail g0
      = Raise (ImportError msg) (with_edges (edges g0 ∪ list_to_set es) g0).
Proof.
  induction 1 as [q tail qn Hne Hq Hu | q tail qn sub es Hne Hq Hsub _ IH];
    intros g0 k Hsame.
  - rewrite with_edges_nil. cbn [length Nat.add].
    change (load_tail host (S (S (S (S k)))) q tail)
      with (Methods.load_tail (bound host (S (S (S k)))) q tail).
    unfold Methods.load_tail. rewrite Hne.
    destruct (import_module_unloadable host g g0 why k q _ qn Hsame Hq Hu)
      as [E | [msg E]].
    + eexists.
      step ltac:(unfold node; destruct Hsame as [-> _]; by rewrite Hq).
      step ltac:(exact E). reflexivity.
    + exists msg.
      step ltac:(unfold node; destruct Hsame as [-> _]; by rewrite Hq).
      apply bind_Raise. exact E.
  - set (fq := qualify (identifier qn) (fst (Str.cut tail))) in *.
    destruct (IH (linked (Some fq) q g0) k (agrees_linked g g0 _ _ Hsame))
      as [msg E].
    exists msg. rewrite with_edges_cons in E.
    cbn [length Nat.add].
    change (load_tail host (S (S (S (S (S (length es + k)))))) q tail)
      with (Methods.load_tail (bound host (S (S (S (S (length es + k)))))) q
              tail).
    unfold Methods.load_tail. rewrite Hne.
    step ltac:(unfold node; destruct Hsame as [-> _]; by rewrite Hq).
    fold fq.
    step ltac:(apply (import_module_existing host _ g0 _ fq (Some q) sub);
               destruct Hsame as [-> _]; exact Hsub).
    exact E.
Qed.

(** [import_hook] for an import that fails: it raises [ImportError], and
    has made the edges of the nodes it passed. *)
Lemma import_hook_fails (host : Host) g why parent name es m mn :
  import_fails host g why parent name es ->
  nodes g !! m = Some mn ->
  enclosing g m mn parent ->
  forall g0 k fromlist,
    agrees g g0 ->
    exists msg,
      import_hook host (S (S (S (S (S (length es + k)))))) name (Some m)
        fromlist (-1) g0
      = Raise (ImportError msg) (with_edges (edges g0 ∪ list_to_set es) g0).
Proof.
  intros Hfails Hm Henc g0 k fromlist Hsame.
  assert (forall f, determine_parent host (S (S f)) (Some m) (-1) g0
                    = Ok parent g0) as Edp.
  { intros f. apply (determine_parent_enclosing host _ g0 m mn parent);
      destruct Hsame as (Hn & Hl & _); [by rewrite Hn |].
    unfold enclosing in *. by rewrite Hn, Hl. }
  change (import_hook host (S (S (S (S (S (length es + k)))))) name (Some m)
            fromlist (-1))
    with (Methods.import_hook (bound host (S (S (S (S (length es + k))))))
            name (Some m) fromlist (-1)).
  unfold Methods.import_hook.
  destruct Hfails as [name Hu | p name pn fl Hp Hb -> | p name pn Hp Hno Hu
                     | name n es Hn Ht | p name pn n es Hp Hn Ht
                     | p name pn n es Hp Hno Hn Ht];
    set (head := fst (Str.cut name)) in *;
    set (tail := default "" (snd (Str.cut name))) in *.
  - (* nothing at top level *)
    cbn [length Nat.add]. rewrite with_edges_nil.
    destruct (import_module_unloadable_top host g g0 why k _
                Hsame Hu) as [E | [msg E]].
    + eexists. step ltac:(apply Edp). apply bind_Raise.
      change (self.find_head_package _ None name)
        with (Methods.find_head_package
                (bound host (S (S (S k))))
                None name).
      unfold Methods.find_head_package.
      step ltac:(reflexivity).
      step ltac:(exact E). reflexivity.
    + exists msg. step ltac:(apply Edp). apply bind_Raise.
      change (self.find_head_package _ None name)
        with (Methods.find_head_package
                (bound host (S (S (S k))))
                None name).
      unfold Methods.find_head_package.
      step ltac:(reflexivity).
      apply bind_Raise. exact E.
  - (* a bad cache in the package *)
    cbn [length Nat.add]. rewrite with_edges_nil.
    destruct (import_module_bad_in host g g0 Hsame k p _ pn fl Hp Hb)
      as [msg E].
    exists msg. step ltac:(apply Edp). apply bind_Raise.
    change (self.find_head_package _ (Some p) name)
      with (Methods.find_head_package
              (bound host (S (S (S k))))
              (Some p) name).
    unfold Methods.find_head_package.
    step' ltac:(unfold node; destruct Hsame as [-> _]; by rewrite Hp).
    step' ltac:(reflexivity).
    apply bind_Raise. exact E.
  - (* nothing in the package, nothing at top level *)
    cbn [length Nat.add]. rewrite with_edges_nil.
    pose proof (import_module_nothing_in host g g0 Hsame k p _ pn
                  Hp Hno) as En.
    destruct (import_module_unloadable_top host g g0 why k _
                Hsame Hu) as [E | [msg E]].
    + eexists. step ltac:(apply Edp). apply bind_Raise.
      change (self.find_head_package _ (Some p) name)
        with (Methods.find_head_package
                (bound host (S (S (S k))))
                (Some p) name).
      unfold Methods.find_head_package.
      step' ltac:(unfold node; destruct Hsame as [-> _]; by rewrite Hp).
      step' ltac:(reflexivity).
      step ltac:(exact En).
      step ltac:(exact E). reflexivity.
    + exists msg. step ltac:(apply Edp). apply bind_Raise.
      change (self.find_head_package _ (Some p) name)
        with (Methods.find_head_package
                (bound host (S (S (S k))))
                (Some p) name).
      unfold Methods.find_head_package.
      step' ltac:(unfold node; destruct Hsame as [-> _]; by rewrite Hp).
      step' ltac:(reflexivity).
      step ltac:(exact En).
      apply bind_Raise. exact E.
  - (* the first component is a node at top level *)
    destruct (load_tail_fails host g why _ _ es Ht g0 k Hsame) as [msg E].
    exists msg. step ltac:(apply Edp).
    assert (find_head_package host (S (S (S (S (length es + k))))) None name g0
            = Ok (head, tail) g0) as Eh.
    { change (find_head_package host (S (S (S (S (length es + k))))) None name)
        with (Methods.find_head_package (bound host (S (S (S (length es + k)))))
                None name).
      unfold Methods.find_head_package.
      step ltac:(reflexivity).
      step ltac:(apply (import_module_existing host _ g0 _ head None n);
                 destruct Hsame as [-> _]; exact Hn).
      done. }
    step ltac:(exact Eh). cbn [fst snd].
    apply bind_Raise. exact E.
  - (* the first component is a node in the package *)
    set (fq := qualify (identifier pn) head) in *.
    destruct (load_tail_fails host g why _ _ es Ht (linked (Some fq) p g0)
                (S k) (agrees_linked g g0 _ _ Hsame)) as [msg E].
    rewrite with_edges_cons in E. rewrite Nat.add_succ_r in E.
    exists msg. step ltac:(apply Edp).
    cbn [length Nat.add].
    assert (find_head_package host (S (S (S (S (S (length es + k)))))) (Some p)
              name g0
            = Ok (fq, tail) (linked (Some fq) p g0)) as Eh.
    { change (find_head_package host (S (S (S (S (S (length es + k))))))
                (Some p) name)
        with (Methods.find_head_package
                (bound host (S (S (S (S (length es + k)))))) (Some p) name).
      unfold Methods.find_head_package.
      step' ltac:(unfold node; destruct Hsame as [-> _]; by rewrite Hp).
      step' ltac:(reflexivity). fold head. fold fq.
      step ltac:(apply (import_module_existing host _ g0 _ fq (Some p) n);
                 destruct Hsame as [-> _]; exact Hn).
      done. }
    step ltac:(exact Eh). cbn [fst snd].
    apply bind_Raise. exact E.
  - (* nothing in the package, the first component a node at top level *)
    destruct (load_tail_fails host g why _ _ es Ht g0 k Hsame) as [msg E].
    pose proof (import_module_nothing_in host g g0 Hsame (length es + k) p _ pn
                  Hp Hno) as En.
    exists msg. step ltac:(apply Edp).
    assert (find_head_package host (S (S (S (S (length es + k))))) (Some p) name
              g0
            = Ok (head, tail) g0) as Eh.
    { change (find_head_package host (S (S (S (S (length es + k))))) (Some p)
                name)
        with (Methods.find_head_package (bound host (S (S (S (length es + k)))))
                (Some p) name).
      unfold Methods.find_head_package.
      step' ltac:(unfold node; destruct Hsame as [-> _]; by rewrite Hp).
      step' ltac:(reflexivity).
      step ltac:(exact En).
      step ltac:(apply (import_module_existing host _ g0 _ head None n);
                 destruct Hsame as [-> _]; exact Hn).
      done. }
    step ltac:(exact Eh). cbn [fst snd].
    apply bind_Raise. exact E.
Qed.

Lemma forM_app {A} (l1 l2 : list A) (body : A -> M unit) g :
  forM_ (l1 ++ l2) body g = (forM_ l1 body ;; forM_ l2 body) g.
Proof.
  revert g. induction l1 as [| x l1 IH]; intros g; [done |].
  cbn [app forM_]. rewrite bind_bind. unfold bind at 1 2.
  destruct (body x g) as [[] g1 | e g1 |]; [apply IH | done | done].
Qed.

(** Events that only bind names change the name sets alone. *)
Lemma forM_stores_sets (self : Self) (m : string) (evs : list event) g mn :
  nodes g !! m = Some mn -> stores_only evs ->
  exists S,
    forM_ evs (Methods.scan_event self m) g = Ok tt (with_sets S g)
    /\ (forall l, set_at l g ⊆ set_at l (with_sets S g))
    /\ (forall name, Store name ∈ evs ->
          name ∈ set_at (globalnames mn) (with_sets S g)).
Proof.
  intros Hm Hs. revert g Hm.
  induction Hs as [| ev evs [name ->] _ IH]; intros g Hm.
  - exists (sets g). split; [by destruct g |]. split; [done |].
    intros name H. by apply elem_of_nil in H.
  - cbn [forM_]. unfold bind at 1.
    rewrite (scan_event_store self m name g mn Hm).
    set (g1 := with_sets _ g).
    destruct (IH g1 Hm) as (S & E & Hsub & Hin).
    exists S. rewrite E. split; [done |].
    change (with_sets S g1) with (with_sets S g) in *.
    split.
    + intros l. etrans; [| apply Hsub].
      subst g1. destruct (decide (globalnames mn = l)) as [<- | Hne].
      * rewrite set_at_insert_eq. apply union_subseteq_l.
      * by rewrite set_at_insert_ne.
    + intros name' [Heq | H]%elem_of_cons; [| by apply Hin].
      injection Heq as ->. apply Hsub. subst g1.
      rewrite set_at_insert_eq. apply elem_of_union_r. by apply elem_of_singleton.
Qed.

(** A unit without nested code objects is one whose nested code objects
    hold no import, and nothing is nested in it. *)
Lemma no_nested_code_bind_only (host : Host) (co : code) :
  no_nested_code co -> nested_bind_only host co /\ nesting co = 0%nat.
Proof.
  unfold no_nested_code, nested_bind_only, nesting.
  destruct co as [c n consts f]. cbn [co_consts code_depth Nat.pred].
  induction 1 as [| k l Hk _ [IH1 IH2]]; [done |].
  cbn [fold_right]. destruct k; try done. by destruct (Hk co).
Qed.

(** The scan of a code object without imports changes the name sets
    alone, and takes nothing out of them. *)
Lemma scan_binds_only (host : Host) (m : string) (mn : Node) (n : nat) :
  forall co g,
    (code_depth co <= n)%nat ->
    binds_only host co ->
    nodes g !! m = Some mn ->
    exists T,
      scan_code host n co m g = Ok tt (with_sets T g)
      /\ forall l, set_at l g ⊆ set_at l (with_sets T g).
Proof.
  induction n as [| n IH]; intros co g Hd Hb Hm.
  - destruct co. cbn [code_depth] in Hd. lia.
  - destruct co as [c names consts fname].
    cbn [code_depth] in Hd. cbn [binds_only] in Hb.
    destruct Hb as [(evs & Hev & Hst) Hnested].
    destruct (forM_stores_sets (bound host n) m evs g mn Hm Hst)
      as (S0 & E0 & Hsub0 & _).
    assert (forall l,
              (fold_right (fun k acc => match k with
                                        | CCode c' => Nat.max (code_depth c') acc
                                        | _ => acc
                                        end) 0%nat l <= n)%nat ->
              fold_right (fun k acc => match k with
                                       | CCode c' => binds_only host c' /\ acc
                                       | _ => acc
                                       end) True l ->
              forall g1, nodes g1 !! m = Some mn ->
              exists T,
                forM_ l
                  (fun k => match k with
                            | CCode c' => self.scan_code (bound host n) c' m
                            | _ => ret tt
                            end) g1
                = Ok tt (with_sets T g1)
                /\ forall a, set_at a g1 ⊆ set_at a (with_sets T g1)) as Hloop.
    { clear -IH. induction l as [| k l IHc]; intros Hd Hnested g1 Hm1.
      - exists (sets g1). split; [by destruct g1 | done].
      - cbn [fold_right forM_] in *.
        destruct k as [| z | l' | c' |].
        + destruct (IHc Hd Hnested g1 Hm1) as (T & E & Hs). exists T.
          split; [| done]. step ltac:(reflexivity). exact E.
        + destruct (IHc Hd Hnested g1 Hm1) as (T & E & Hs). exists T.
          split; [| done]. step ltac:(reflexivity). exact E.
        + destruct (IHc Hd Hnested g1 Hm1) as (T & E & Hs). exists T.
          split; [| done]. step ltac:(reflexivity). exact E.
        + destruct Hnested as [Hb' Hrest].
          destruct (IH c' g1) as (T1 & E1 & Hs1); [lia | done | done |].
          destruct (IHc (Nat.le_trans _ _ _ (Nat.le_max_r _ _) Hd) Hrest
                      (with_sets T1 g1) Hm1) as (T & E & Hs).
          exists T. split.
          * step ltac:(exact E1). exact E.
          * intros a. etrans; [apply Hs1 | apply Hs].
        + destruct (IHc Hd Hnested g1 Hm1) as (T & E & Hs). exists T.
          split; [| done]. step ltac:(reflexivity). exact E. }
    apply le_S_n in Hd.
    destruct (Hloop consts Hd Hnested (with_sets S0 g) Hm) as (T & E & Hs).
    exists T. split.
    + change (scan_code host (S n) (Code c names consts fname) m)
        with (Methods.scan_code host (bound host n) (Code c names consts fname)
                m).
      unfold Methods.scan_code. rewrite Hev. cbn [fst snd co_consts].
      step ltac:(exact E0).
      step ltac:(reflexivity). exact E.
    + intros a. etrans; [apply Hsub0 | apply Hs].
Qed.

(** The code objects nested in a unit, when they hold no import. *)
Lemma scan_nested (host : Host) (m : string) (mn : Node) (n : nat) co g :
  (code_depth co <= S n)%nat ->
  nested_bind_only host co ->
  nodes g !! m = Some mn ->
  exists T,
    forM_ (co_consts co)
      (fun k => match k with
                | CCode c' => self.scan_code (bound host n) c' m
                | _ => ret tt
                end) g
    = Ok tt (with_sets T g)
    /\ forall l, set_at l g ⊆ set_at l (with_sets T g).
Proof.
  destruct co as [c names consts fname]. unfold nested_bind_only.
  cbn [code_depth co_consts]. intros Hd Hnested Hm. apply le_S_n in Hd.
  revert Hd Hnested g Hm.
  induction consts as [| k consts IHc]; intros Hd Hnested g Hm.
  - exists (sets g). split; [by destruct g | done].
  - cbn [fold_right forM_] in *.
    destruct k as [| z | l | c' |].
    + destruct (IHc Hd Hnested g Hm) as (T & E & Hs). exists T.
      split; [| done]. step ltac:(reflexivity). exact E.
    + destruct (IHc Hd Hnested g Hm) as (T & E & Hs). exists T.
      split; [| done]. step ltac:(reflexivity). exact E.
    + destruct (IHc Hd Hnested g Hm) as (T & E & Hs). exists T.
      split; [| done]. step ltac:(reflexivity). exact E.
    + destruct Hnested as [Hb' Hrest].
      destruct (scan_binds_only host m mn n c' g) as (T1 & E1 & Hs1);
        [lia | done | done |].
      destruct (IHc (Nat.le_trans _ _ _ (Nat.le_max_r _ _) Hd) Hrest
                  (with_sets T1 g) Hm) as (T & E & Hs).
      exists T. split.
      * step ltac:(exact E1). exact E.
      * intros a. etrans; [apply Hs1 | apply Hs].
    + destruct (IHc Hd Hnested g Hm) as (T & E & Hs). exists T.
      split; [| done]. step ltac:(reflexivity). exact E.
Qed.

(** The scan of a unit whose code holds [import name] among statements that
    bind names, its functions and classes holding no import, when
    [import_hook] raises [ImportError] for the name, whatever the reason,
    having made the edges [es]: the scan returns; it has added one node, the [MissingModule] node of [name], and
    the [direct] edge from the unit to it. *)
Lemma scan_caught (host : Host) (f fuel : nat) (g : ModuleGraph)
    (co : code) (m name : string) (mn : Node) (pre post : list event)
    (es : list (option string * string * string)) :
  wf g ->
  nodes g !! m = Some mn ->
  Decoder.scanner (opcodes host) (version_info host) co
  = ((pre ++ Import CNone name :: post)%list, None) ->
  stores_only pre ->
  stores_only post ->
  nested_bind_only host co ->
  (code_depth co <= S (S (S f)))%nat ->
  (forall g0, agrees g g0 ->
     exists msg,
       import_hook host (S f) name (Some m) None (-1) g0
       = Raise (ImportError msg) (with_edges (edges g0 ∪ list_to_set es) g0)) ->
  nodes g !! name = None ->
  lazynodes g !! name = None ->
  (S (S (S f)) <= fuel)%nat ->
  exists n g',
    scan_code host fuel co m g = Ok tt g'
    /\ nodes g' = <[name := n]> (nodes g)
    /\ cls n = MissingModule
    /\ edges g' = edges g ∪ list_to_set es ∪ {[(Some m, name, "direct")]}.
Proof.
  intros Hwf Hm Hscan Hpre Hpost Hnn Hdepth Himp Hn Hl Hfuel.
  destruct (forM_stores_sets (bound host (S (S f))) m pre g mn Hm Hpre)
    as (S0 & Epre & _ & _).
  set (g0 := with_sets S0 g) in *.
  destruct (Himp g0) as [msg Eimp]; [done |].
  set (g1 := with_edges (edges g0 ∪ list_to_set es) g0) in *.
  destruct (createNode_fresh host f MissingModule name g1) as
    (n & g2 & E & Hnodes & Hcl & _ & _ & _ & _ & He2 & _ & _ & _);
    [done | done | done | done |].
  assert (m <> name) as Hne by congruence.
  assert (nodes (linked (Some m) name g2) !! m = Some mn) as Hm2.
  { simpl. rewrite Hnodes. by rewrite lookup_insert_ne. }
  destruct (forM_stores_sets (bound host (S (S f))) m post _ mn Hm2 Hpost)
    as (S1 & Epost & _ & _).
  assert (nodes (with_sets S1 (linked (Some m) name g2)) !! m = Some mn)
    as Hm3 by done.
  destruct (scan_nested host m mn (S (S f)) co _ Hdepth Hnn Hm3)
    as (S2 & Enest & _).
  exists n, (with_sets S2 (with_sets S1 (linked (Some m) name g2))).
  assert (scan_code host (S (S (S f))) co m g
          = Ok tt (with_sets S2 (with_sets S1 (linked (Some m) name g2))))
    as Hrun.
  { change (scan_code host (S (S (S f))) co m)
      with (Methods.scan_code host (bound host (S (S f))) co m).
    unfold Methods.scan_code. rewrite Hscan. cbn [fst snd].
    assert (Methods.scan_event (bound host (S (S f))) m (Import CNone name) g0
            = Ok tt (linked (Some m) name g2)) as Eev.
    { unfold Methods.scan_event, Methods.scan_import.
      step ltac:(reflexivity). cbn [option_map].
      change (self._safe_import_hook (bound host (S (S f))) name (Some m) None
                (-1))
        with (Methods._safe_import_hook (bound host (S f)) name (Some m) None
                (-1)).
      unfold Methods._safe_import_hook. rewrite !bind_bind.
      step ltac:(apply try_Raise, Eimp). rewrite !bind_bind.
      step ltac:(exact E). rewrite !bind_bind.
      step ltac:(reflexivity).
      step ltac:(reflexivity). cbn [default foldM from_option id].
      step ltac:(reflexivity). done. }
    assert (forM_ (pre ++ Import CNone name :: post)
              (Methods.scan_event (bound host (S (S f))) m) g
            = Ok tt (with_sets S1 (linked (Some m) name g2))) as Eall.
    { rewrite forM_app. step ltac:(exact Epre). cbn [forM_].
      step ltac:(exact Eev). exact Epost. }
    step ltac:(exact Eall).
    step ltac:(reflexivity).
    exact Enest. }
  split.
  - by apply (more_fuel host (S (S (S f))) fuel (ScanCode co m) g _ Hfuel Hrun).
  - simpl. rewrite Hnodes, He2. by repeat split.
Qed.




(* ===================================================================== *)
(** ** The end-to-end example *)
(* ===================================================================== *)

Lemma run_script_example :
  run_script World.host 14 "/app/script.py" None (World.graph [] [])
  = Ok "/app/script.py" graph_script.
Proof. vm_compute. reflexivity. Qed.

(** C5, as the code has it.  [script.py] imports [pkg.sub]; [pkg] is a
    package with an empty initializer; [pkg.sub] imports the absent
    [pkg.missing].  [run_script] returns, and the graph holds the nodes
    [script], [pkg], [pkg.sub] and [pkg.missing], the last a [MissingModule]
    and the only one, and the edges [script -> pkg.sub], [pkg.sub -> pkg]
    and [pkg.sub -> pkg.missing], with the edge from the graph itself to the
    script that [run_script] makes for a call without caller.  [import_hook]
    links the requester to the module the dotted name ends at, so there is
    no edge [script -> pkg]. *)
Theorem end_to_end (fuel : nat) :
  (14 <= fuel)%nat ->
  exists g,
    run_script World.host fuel "/app/script.py" None (World.graph [] [])
    = Ok "/app/script.py" g
    /\ World.classes g
       = [("/app/script.py", Script); ("pkg.sub", SourceModule);
          ("pkg.missing", MissingModule); ("pkg", Package)]
    /\ World.edge_list g
       = [(None, "/app/script.py", "direct");
          (Some "pkg.sub", "pkg", "direct");
          (Some "pkg.sub", "pkg.missing", "direct");
          (Some "/app/script.py", "pkg.sub", "direct")].
Proof.
  intros Hfuel. exists graph_script. split.
  - apply (more_fuel World.host 14 fuel
             (RunScript "/app/script.py" None) _ _ Hfuel run_script_example).
    discriminate.
  - split; vm_compute; reflexivity.
Qed.

Lemma end_to_end_witness :
  exists g,
    run_script World.host 14 "/app/script.py" None (World.graph [] [])
    = Ok "/app/script.py" g
    /\ World.classes g
       = [("/app/script.py", Script); ("pkg.sub", SourceModule);
          ("pkg.missing", MissingModule); ("pkg", Package)]
    /\ World.edge_list g
       = [(None, "/app/script.py", "direct");
          (Some "pkg.sub", "pkg", "direct");
          (Some "pkg.sub", "pkg.missing", "direct");
          (Some "/app/script.py", "pkg.sub", "direct")].
Proof. apply (end_to_end 14). lia. Defined.

(** C5 as stated fails: the run of the example leaves no edge from the
    script to [pkg]. *)
Lemma end_to_end_counterexample :
  run_script World.host 14 "/app/script.py" None (World.graph [] [])
  = Ok "/app/script.py" graph_script
  /\ (Some "/app/script.py", "pkg", "direct") ∉ edges graph_script.
Proof.
  split; [apply run_script_example |].
  rewrite <- elem_of_elements.
  change (elements (edges graph_script)) with (World.edge_list graph_script).
  assert (World.edge_list graph_script
          = [(None, "/app/script.py", "direct");
             (Some "pkg.sub", "pkg", "direct");
             (Some "pkg.sub", "pkg.missing", "direct");
             (Some "/app/script.py", "pkg.sub", "direct")]) as ->
    by (vm_compute; reflexivity).
  intros H.
  repeat (apply elem_of_cons in H as [H | H]; [discriminate H |]).
  by apply elem_of_nil in H.
Qed.

(* ===================================================================== *)
(** ** Cached units with a wrong format tag *)
(* ===================================================================== *)

(** C6, as the code has it.  [load_module] refuses a cached unit whose
    first four bytes are not the magic number of the host: it raises
    [ImportError] ("Bad magic number in ...") before it creates a node, and
    leaves the graph as it was.  It is the exception class of every failed
    import: when a unit of any kind is scanned whose code holds [import
    name] among statements that bind names, its functions and classes holding
    no import, and the import comes to this cached unit (for the first
    component of [name], in the package of the unit or at top level, or for a
    later component, those before it being nodes of the graph), the scan
    returns; its wrapper has made exactly one node, the [MissingModule] node
    of [name], and the [direct] edge from the unit to it. *)
Theorem bad_magic (host : Host) (f : nat) (g : ModuleGraph) (fqname : string)
    (fl : file) (pathname : option string) (suffix mode : string) :
  bytes_eqb (head4 fl) (imp_get_magic host) = false ->
  load_module host (S f) fqname (Some fl) pathname (suffix, mode, PY_COMPILED) g
  = Raise (ImportError ("Bad magic number in " +:+ default "None" pathname)) g
  /\ forall (fuel : nat) (co : code) (m name : string) (mn : Node)
        (parent : option string) (pre post : list event)
        (es : list (option string * string * string)),
      wf g ->
      nodes g !! m = Some mn ->
      enclosing g m mn parent ->
      Decoder.scanner (opcodes host) (version_info host) co
      = ((pre ++ Import CNone name :: post)%list, None) ->
      stores_only pre ->
      stores_only post ->
      nested_bind_only host co ->
      import_fails host g (BadMagic fl) parent name es ->
      nodes g !! name = None ->
      lazynodes g !! name = None ->
      (7 + length es + nesting co <= fuel)%nat ->
      exists n g',
        scan_code host fuel co m g = Ok tt g'
        /\ nodes g' = <[name := n]> (nodes g)
        /\ cls n = MissingModule
        /\ edges g' = edges g ∪ list_to_set es ∪ {[(Some m, name, "direct")]}.
Proof.
  intros H. split.
  - by apply load_module_bad_magic.
  - intros fuel co m name mn parent pre post es Hwf Hm Henc Hco Hpre Hpost
      Hflat Hfails Hn Hl Hfuel.
    apply (scan_caught host (4 + length es + nesting co) fuel g co m name mn
             pre post es); try done; try (unfold nesting in *; lia).
    intros g0 Hsame.
    destruct (import_hook_fails host g (BadMagic fl) parent name es m mn Hfails
                Hm Henc g0 (nesting co) None Hsame) as [msg E].
    by exists msg.
Qed.

Lemma bad_magic_witness :
  load_module World.host 1 "bad" (Some World.bad_pyc) (Some "/app/bad.pyc")
    World.pyc (World.graph [] [])
  = Raise (ImportError "Bad magic number in /app/bad.pyc") (World.graph [] [])
  /\ exists n g',
       scan_code World.host 7 World.usebad_py "/app/usebad.py"
         Units.graph_usebad = Ok tt g'
       /\ nodes g' = <[ "bad" := n ]> (nodes Units.graph_usebad)
       /\ cls n = MissingModule
       /\ edges g'
          = edges Units.graph_usebad ∪ list_to_set []
            ∪ {[(Some "/app/usebad.py", "bad", "direct")]}.
Proof.
  split.
  - refine (proj1 (bad_magic World.host 0 (World.graph [] []) "bad"
                     World.bad_pyc (Some "/app/bad.pyc") ".pyc" "rb" _)).
    vm_compute. reflexivity.
  - refine (proj2 (bad_magic World.host 0 Units.graph_usebad "bad"
                     World.bad_pyc (Some "/app/bad.pyc") ".pyc" "rb" _)
              7%nat World.usebad_py "/app/usebad.py" "bad" Units.script_usebad
              None [] [Store "bad"] [] _ _ _ _ _ _ _ _ _ _ _).
    + vm_compute. reflexivity.
    + apply wfb_sound. vm_compute. reflexivity.
    + vm_compute. reflexivity.
    + vm_compute. split; reflexivity.
    + vm_compute. reflexivity.
    + constructor.
    + repeat constructor. by exists "bad".
    + exact I.
    + apply fails_at_top.
      split; [vm_compute; reflexivity |]. split; [vm_compute; reflexivity |].
      split; [vm_compute; reflexivity |].
      exists "/app/bad.pyc", ".pyc", "rb". split; [| vm_compute; reflexivity].
      intros H. apply elem_of_cons in H as [H | H]; [discriminate H |].
      by apply elem_of_nil in H.
    + vm_compute. reflexivity.
    + vm_compute. reflexivity.
    + vm_compute. lia.
Defined.

(** C6 as stated fails: [usebad.py] imports [bad], whose cached unit has a
    wrong format tag; the scan of the script returns, and the graph has a
    node for the identifier [bad], a [MissingModule]. *)
Lemma bad_magic_counterexample :
  summary (run_script World.host 8 "/app/usebad.py" None (World.graph [] []))
  = Some ([("/app/usebad.py", Script); ("bad", MissingModule)],
          [(None, "/app/usebad.py", "direct");
           (Some "/app/usebad.py", "bad", "direct")]).
Proof. vm_compute. reflexivity. Qed.

(* ===================================================================== *)
(** ** The two instruction encodings *)
(* ===================================================================== *)

(** An import in the older encoding, [LOAD_CONST fromlist; IMPORT_NAME
    name], is passed over by the scanner of the newer encoding, which goes on
    with the code after it. *)
Lemma scan_opcodes_25_old_import ops names consts (a0 a1 b0 b1 : byte)
    (rest : list byte) fname fname' :
  Decoder.is_store ops (LOAD_CONST ops) = false ->
  Decoder.is_store ops (IMPORT_NAME ops) = false ->
  Decoder.byte_eqb (IMPORT_NAME ops) (LOAD_CONST ops) = false ->
  Decoder.byte_geb (LOAD_CONST ops) (HAVE_ARGUMENT ops) = true ->
  Decoder.byte_geb (IMPORT_NAME ops) (HAVE_ARGUMENT ops) = true ->
  Decoder.scan_opcodes_25 ops
    (Code (LOAD_CONST ops :: a0 :: a1 :: IMPORT_NAME ops :: b0 :: b1 :: rest)
          names consts fname)
  = Decoder.scan_opcodes_25 ops (Code rest names consts fname').
Proof.
  intros H1 H2 H3 H4 H5. unfold Decoder.scan_opcodes_25.
  cbn [co_code co_names co_consts length].
  set (n := S (S (S (S (length rest))))).
  cbn [Decoder.scan_opcodes_25_loop]. rewrite H1.
  assert (Decoder.load_load_and_import ops
            (LOAD_CONST ops :: a0 :: a1 :: IMPORT_NAME ops :: b0 :: b1 :: rest)
          = false) as ->.
  { unfold Decoder.load_load_and_import. cbn [lookup list_lookup].
    destruct (rest !! 0%nat); [| done]. by rewrite H3, andb_false_r. }
  rewrite H4. cbn [skipn]. rewrite H2.
  assert (Decoder.load_load_and_import ops (IMPORT_NAME ops :: b0 :: b1 :: rest)
          = false) as ->.
  { unfold Decoder.load_load_and_import. cbn [lookup list_lookup].
    repeat case_match; try done. by rewrite H3. }
  rewrite H5. cbn [skipn].
  apply scan_opcodes_25_loop_bound; subst n; lia.
Qed.

(** The scanner of the older encoding yields it. *)
Lemma scan_opcodes_old_import ops names consts (a0 a1 b0 b1 : byte)
    (rest : list byte) fname fname' k nm :
  Decoder.is_store ops (LOAD_CONST ops) = false ->
  consts !! Decoder.u16 a0 a1 = Some k ->
  names !! Decoder.u16 b0 b1 = Some nm ->
  Decoder.scan_opcodes ops
    (Code (LOAD_CONST ops :: a0 :: a1 :: IMPORT_NAME ops :: b0 :: b1 :: rest)
          names consts fname)
  = Decoder.yield (Import k nm)
      (Decoder.scan_opcodes ops (Code rest names consts fname')).
Proof.
  intros H1 Hk Hn. unfold Decoder.scan_opcodes.
  cbn [co_code co_names co_consts length].
  set (n := S (S (S (S (S (length rest)))))).
  cbn [Decoder.scan_opcodes_loop]. rewrite H1.
  assert (Decoder.byte_eqb (LOAD_CONST ops) (LOAD_CONST ops) = true) as ->.
  { unfold Decoder.byte_eqb. by apply Byte.byte_dec_lb. }
  cbn [lookup list_lookup].
  assert (Decoder.byte_eqb (IMPORT_NAME ops) (IMPORT_NAME ops) = true) as ->.
  { unfold Decoder.byte_eqb. by apply Byte.byte_dec_lb. }
  rewrite Hk, Hn. cbn [skipn]. f_equal.
  apply scan_opcodes_loop_bound; subst n; lia.
Qed.

(** C7, as the code has it.  [scan_code] selects the scanner by the version
    of the host ([sys.version_info >= (2, 5)]): on a host, one and the same
    scanner decodes every unit, [scan_opcodes_25] from version 2.5 on and
    [scan_opcodes] before.  The unit has no part in the choice: an import in
    the older encoding ([LOAD_CONST fromlist; IMPORT_NAME name], with opcode
    numbers as every CPython has them: neither is a store, they differ, both
    take an argument) is yielded on a host before 2.5 and passed over on a
    host from 2.5 on, whatever follows it in the unit. *)
Theorem scanner_by_version (ops : Opcodes) (v : nat * nat)
    (names : list string) (consts : list const) (fname : string)
    (a0 a1 b0 b1 : byte) (rest : list byte) (k : const) (nm : string) :
  Decoder.is_store ops (LOAD_CONST ops) = false ->
  Decoder.is_store ops (IMPORT_NAME ops) = false ->
  Decoder.byte_eqb (IMPORT_NAME ops) (LOAD_CONST ops) = false ->
  Decoder.byte_geb (LOAD_CONST ops) (HAVE_ARGUMENT ops) = true ->
  Decoder.byte_geb (IMPORT_NAME ops) (HAVE_ARGUMENT ops) = true ->
  consts !! Decoder.u16 a0 a1 = Some k ->
  names !! Decoder.u16 b0 b1 = Some nm ->
  let old :=
    Code (LOAD_CONST ops :: a0 :: a1 :: IMPORT_NAME ops :: b0 :: b1 :: rest)
         names consts fname in
  let after := Code rest names consts fname in
  (Decoder.version_ge_25 v = true
   /\ (forall co, Decoder.scanner ops v co = Decoder.scan_opcodes_25 ops co)
   /\ Decoder.scanner ops v old = Decoder.scanner ops v after)
  \/ (Decoder.version_ge_25 v = false
      /\ (forall co, Decoder.scanner ops v co = Decoder.scan_opcodes ops co)
      /\ Decoder.scanner ops v old
         = Decoder.yield (Import k nm) (Decoder.scanner ops v after)).
Proof.
  intros H1 H2 H3 H4 H5 Hk Hn old after. unfold Decoder.scanner.
  destruct (Decoder.version_ge_25 v); [left | right].
  - split; [done |]. split; [done |].
    by apply scan_opcodes_25_old_import.
  - split; [done |]. split; [done |].
    by apply scan_opcodes_old_import.
Qed.

Lemma scanner_by_version_witness :
  Decoder.scanner World.py27 (2%nat, 7%nat) World.old_py
  = Decoder.scanner World.py27 (2%nat, 7%nat)
      (Code (World.ins "Z" x00 ++ World.ins "d" x00 ++ World.RETURN_VALUE)
            ["os"] [CNone] "/app/old.py").
Proof.
  pose proof (scanner_by_version World.py27 (2%nat, 7%nat) ["os"] [CNone]
                "/app/old.py" x00 x00 x00 x00
                (World.ins "Z" x00 ++ World.ins "d" x00 ++ World.RETURN_VALUE)
                CNone "os" eq_refl eq_refl eq_refl eq_refl eq_refl eq_refl
                eq_refl) as H.
  cbv zeta in H. destruct H as [(_ & _ & E) | (E & _)].
  - exact E.
  - discriminate E.
Defined.

(** C7 as stated fails: on the 2.7 host, the import of a unit in the older
    encoding is not decoded (the scanner of the older encoding decodes it),
    while the import of a unit in the newer encoding is. *)
Lemma scanner_counterexample :
  Decoder.scanner World.py27 (2%nat, 7%nat) World.old_py = ([Store "os"], None)
  /\ Decoder.scan_opcodes World.py27 World.old_py
     = ([Import CNone "os"; Store "os"], None)
  /\ Decoder.scanner World.py27 (2%nat, 7%nat) World.lonely_py
     = ([Import CNone "missing"; Store "missing"], None).
Proof. repeat split; vm_compute; reflexivity. Qed.

(* ===================================================================== *)
(** ** Alias nodes *)
(* ===================================================================== *)

(** C8, as the code has it.  [AliasNode(name, node)] is a node of its own
    (its own identity, its own [graphident]) that takes over the
    [identifier], the [packagepath], the [namespace] and the [globalnames]
    of the target as they are when the alias is made.  The namespace and the
    set of global names are the target's own objects, not copies: a name
    bound in the target later, or a submodule entered in its namespace
    later, is seen through the alias. *)
Theorem alias_shares (g : ModuleGraph) (name o : string) (t : Node) :
  wf g ->
  nodes g !! o = Some t ->
  exists a g',
    construct AliasNode name (Some o) g = Ok a g'
    /\ cls a = AliasNode /\ graphident a = name
    /\ node_id a <> node_id t
    /\ identifier a = identifier t
    /\ packagepath a = packagepath t
    /\ namespace a = namespace t
    /\ globalnames a = globalnames t
    /\ (forall g2 x g3, set_add (globalnames t) x g2 = Ok tt g3 ->
          x ∈ set_at (globalnames a) g3)
    /\ (forall g2 k v g3, dict_set (namespace t) k v g2 = Ok tt g3 ->
          dict_at (namespace a) g3 !! k = Some v).
Proof.
  intros Hwf Ho.
  destruct (Hwf o t Ho) as [_ (Hid & _)].
  unfold construct, Node_init, new_dict, new_set, fresh, bind, ret, node.
  simpl. rewrite Ho.
  eexists _, _. split; [reflexivity |]. simpl.
  repeat match goal with |- _ /\ _ => split end; try done.
  - lia.
  - intros g2 x g3 E. unfold set_add in E. injection E as <-.
    rewrite set_at_insert_eq. apply elem_of_union_r. by apply elem_of_singleton.
  - intros g2 k v g3 E. unfold dict_set in E. injection E as <-.
    unfold dict_at at 1. simpl. rewrite lookup_insert_eq. simpl.
    apply lookup_insert_eq.
Qed.

Lemma alias_shares_witness :
  exists a g',
    construct AliasNode "b" (Some "a") graph_a = Ok a g'
    /\ cls a = AliasNode /\ graphident a = "b"
    /\ node_id a <> node_id module_a
    /\ identifier a = identifier module_a
    /\ packagepath a = packagepath module_a
    /\ namespace a = namespace module_a
    /\ globalnames a = globalnames module_a
    /\ (forall g2 x g3, set_add (globalnames module_a) x g2 = Ok tt g3 ->
          x ∈ set_at (globalnames a) g3)
    /\ (forall g2 k v g3, dict_set (namespace module_a) k v g2 = Ok tt g3 ->
          dict_at (namespace a) g3 !! k = Some v).
Proof.
  refine (alias_shares graph_a "b" "a" module_a _ _).
  - apply wfb_sound. vm_compute. reflexivity.
  - vm_compute. reflexivity.
Defined.

(** C8 as stated fails: [A] is registered as an alias of the package
    [pkg].  When [A] has been resolved, the namespace seen through the alias
    is empty; when [pkg.sub] is imported afterwards, the submodule the
    target gains is in the namespace seen through the alias. *)
Lemma alias_counterexample :
  namespace_of "A"
    <$> final (import_hook World.host 12 "A" None None (-1)
                 (World.graph [] [("A", LazyAlias "pkg")]))
  = Some (Some [])
  /\ namespace_of "A"
       <$> final ((import_hook World.host 12 "A" None None (-1) ;;
                   import_hook World.host 12 "pkg.sub" None None (-1))
                    (World.graph [] [("A", LazyAlias "pkg")]))
     = Some (Some [("sub", Some "pkg.sub")]).
Proof. split; vm_compute; reflexivity. Qed.

(* ===================================================================== *)
(** ** Wildcard imports *)
(* ===================================================================== *)




Section PackageFound.

Variable host : Host.
Variables (p fq dir initpath s1 s2 s3 s4 : string) (fl : file).
Variable names : list event.

Hypothesis p_plain : Str.has_dot p = false.
Hypothesis fq_not_init : fq <> "__init__".
Hypothesis fq_not_replaced : replacePackageMap host !! fq = None.
Hypothesis fq_no_additions : packagePathMap host !! fq = None.
Hypothesis init_found :
  imp_find_module host "__init__" [location host dir]
  = Some (Some fl, initpath, (s3, s4, PY_SOURCE)).
Hypothesis init_events :
  Decoder.scanner (opcodes host) (version_info host) (unit_code fl)
  = (names, None).
Hypothesis init_stores : stores_only names.
Hypothesis init_nested : nested_bind_only host (unit_code fl).

Variable g : ModuleGraph.
Hypothesis g_wf : wf g.
Hypothesis fq_new : nodes g !! fq = None.
Hypothesis fq_not_lazy : lazynodes g !! fq = None.
Hypothesis init_new : nodes g !! "__init__" = None.
Hypothesis init_not_lazy : lazynodes g !! "__init__" = None.
Hypothesis no_rewrite : replace_paths g = [].





End PackageFound.



Lemma loaded_package_linked fq names g g' a t :
  loaded_package fq names g g' -> loaded_package fq names g (linked a t g').
Proof. done. Qed.







(* ===================================================================== *)
(** ** The events of the scanners *)
(* ===================================================================== *)

Lemma from_tables_import_event names consts level fromlist nm :
  level ∈ consts -> fromlist ∈ consts -> nm ∈ names ->
  from_tables names consts (Decoder.import_event level fromlist nm).
Proof.
  intros Hl Hf Hn. unfold Decoder.import_event, from_tables.
  repeat case_match; simpl; repeat constructor; done.
Qed.

Lemma scan_opcodes_loop_tables ops names consts n code :
  Forall (from_tables names consts)
    (fst (Decoder.scan_opcodes_loop ops n names consts code)).
Proof.
  revert code. induction n as [| n IH]; intros code; [by constructor |].
  cbn [Decoder.scan_opcodes_loop].
  repeat case_match; simpl; try by constructor.
  all: try apply IH.
  - constructor; [| apply IH]. split; simpl; [| constructor].
    by eapply list_elem_of_lookup_2.
  - constructor; [| apply IH]. split; simpl.
    + by eapply list_elem_of_lookup_2.
    + repeat constructor. by eapply list_elem_of_lookup_2.
Qed.

Lemma scan_opcodes_25_loop_tables ops names consts n code :
  Forall (from_tables names consts)
    (fst (Decoder.scan_opcodes_25_loop ops n names consts code)).
Proof.
  revert code. induction n as [| n IH]; intros code; [by constructor |].
  cbn [Decoder.scan_opcodes_25_loop].
  repeat case_match; simpl; try by constructor.
  all: try apply IH.
  - constructor; [| apply IH]. split; simpl; [| constructor].
    by eapply list_elem_of_lookup_2.
  - constructor; [| apply IH].
    apply from_tables_import_event; by eapply list_elem_of_lookup_2.
Qed.

(** Whatever the bytes of a unit are, the scanner [scan_code] selects
    yields only names of the unit's name table and constants of its
    constant pool. *)
Theorem scanner_reads_tables (ops : Opcodes) (v : nat * nat) (co : code) :
  Forall (fun ev =>
            event_name ev ∈ co_names co
            /\ Forall (fun k => k ∈ co_consts co) (event_consts ev))
         (fst (Decoder.scanner ops v co)).
Proof.
  unfold Decoder.scanner.
  destruct (Decoder.version_ge_25 v).
  - apply scan_opcodes_25_loop_tables.
  - apply scan_opcodes_loop_tables.
Qed.

Lemma byte_eqb_eq (a b : byte) : Decoder.byte_eqb a b = true -> a = b.
Proof. apply Byte.byte_dec_bl. Qed.

Lemma byte_eqb_below ops (c o : byte) :
  Decoder.byte_geb c (HAVE_ARGUMENT ops) = false ->
  Decoder.byte_geb o (HAVE_ARGUMENT ops) = true ->
  Decoder.byte_eqb c o = false.
Proof.
  intros Hc Ho. destruct (Decoder.byte_eqb c o) eqn:E; [| done].
  apply byte_eqb_eq in E. congruence.
Qed.

Lemma is_store_below ops (c : byte) :
  with_argument ops ->
  Decoder.byte_geb c (HAVE_ARGUMENT ops) = false ->
  Decoder.is_store ops c = false.
Proof.
  intros (_ & _ & H1 & H2) Hc. unfold Decoder.is_store.
  by rewrite (byte_eqb_below ops c _ Hc H1), (byte_eqb_below ops c _ Hc H2).
Qed.

Lemma assemble_length (l : list instr) : (length l <= length (assemble l))%nat.
Proof.
  induction l as [| [c | c lo hi] r IH]; simpl; lia.
Qed.

Lemma scan_opcodes_25_loop_assembled ops names consts (k : nat) :
  with_argument ops ->
  forall (l : list instr) (n : nat),
    (length l <= k)%nat -> Forall (sized ops) l ->
    (length (assemble l) <= n)%nat ->
    Decoder.scan_opcodes_25_loop ops n names consts (assemble l)
    = statements_25 ops names consts l.
Proof.
  intros Hops. pose proof Hops as (HLC & HIN & _ & _).
  induction k as [| k IH]; intros l n Hk Hs Hn.
  - destruct l; [| simpl in Hk; lia]. by destruct n.
  - destruct l as [| i r]; [by destruct n |].
    apply Forall_cons in Hs as [Hi Hr].
    destruct n as [| n]; [destruct i; simpl in Hn; lia |].
    destruct i as [c | c a0 a1]; simpl in Hi.
    + change (assemble (Op c :: r)) with (c :: assemble r).
      cbn [Decoder.scan_opcodes_25_loop statements_25].
      rewrite (is_store_below ops c Hops Hi).
      assert (Decoder.load_load_and_import ops (c :: assemble r) = false) as ->.
      { unfold Decoder.load_load_and_import. cbn [lookup list_lookup].
        repeat case_match; try done.
        by rewrite (byte_eqb_below ops c _ Hi HLC). }
      rewrite Hi. cbn [skipn]; rewrite ?drop_0.
      apply IH; [simpl in Hk; lia | done | simpl in Hn; lia].
    + change (assemble (OpArg c a0 a1 :: r)) with (c :: a0 :: a1 :: assemble r).
      cbn [Decoder.scan_opcodes_25_loop statements_25 Decoder.arg_at1].
      assert (Decoder.scan_opcodes_25_loop ops n names consts (assemble r)
              = statements_25 ops names consts r) as Hrest.
      { apply IH; [simpl in Hk; lia | done | simpl in Hn; lia]. }
      destruct (Decoder.is_store ops c) eqn:Est.
      { cbn [skipn]; rewrite ?drop_0. by rewrite Hrest. }
      destruct r as [| [c3 | c3 b0 b1] r2].
      * cbn [assemble flat_map app]. unfold Decoder.load_load_and_import.
        cbn [lookup list_lookup]. rewrite Hi. cbn [skipn]; rewrite ?drop_0. by destruct n.
      * apply Forall_cons in Hr as [H3 Hr2]. simpl in H3.
        assert (Decoder.load_load_and_import ops
                  (c :: a0 :: a1 :: assemble (Op c3 :: r2)) = false) as ->.
        { unfold Decoder.load_load_and_import.
          change (assemble (Op c3 :: r2)) with (c3 :: assemble r2).
          cbn [lookup list_lookup]. repeat case_match; try done.
          by rewrite (byte_eqb_below ops c3 _ H3 HLC), andb_false_r. }
        rewrite Hi. cbn [skipn]; rewrite ?drop_0. exact Hrest.
      * apply Forall_cons in Hr as [H3 Hr2]. simpl in H3.
        destruct r2 as [| [c6 | c6 c0 c1] r3].
        -- assert (Decoder.load_load_and_import ops
                     (c :: a0 :: a1 :: assemble [OpArg c3 b0 b1]) = false) as ->
             by done.
           rewrite Hi. cbn [skipn]; rewrite ?drop_0. exact Hrest.
        -- apply Forall_cons in Hr2 as [H6 Hr3]. simpl in H6.
           assert (Decoder.load_load_and_import ops
                     (c :: a0 :: a1 :: assemble (OpArg c3 b0 b1 :: Op c6 :: r3))
                   = false) as ->.
           { unfold Decoder.load_load_and_import.
             change (assemble (OpArg c3 b0 b1 :: Op c6 :: r3))
               with (c3 :: b0 :: b1 :: c6 :: assemble r3).
             cbn [lookup list_lookup].
             by rewrite (byte_eqb_below ops c6 _ H6 HIN), andb_false_r. }
           rewrite Hi. cbn [skipn]; rewrite ?drop_0. exact Hrest.
        -- apply Forall_cons in Hr2 as [H6 Hr3].
           change (assemble (OpArg c3 b0 b1 :: OpArg c6 c0 c1 :: r3))
             with (c3 :: b0 :: b1 :: c6 :: c0 :: c1 :: assemble r3) in *.
           assert (Decoder.load_load_and_import ops
                     (c :: a0 :: a1 :: c3 :: b0 :: b1 :: c6 :: c0 :: c1
                        :: assemble r3)
                   = Decoder.byte_eqb c (LOAD_CONST ops)
                     && Decoder.byte_eqb c3 (LOAD_CONST ops)
                     && Decoder.byte_eqb c6 (IMPORT_NAME ops)) as -> by done.
           destruct (Decoder.byte_eqb c (LOAD_CONST ops)
                     && Decoder.byte_eqb c3 (LOAD_CONST ops)
                     && Decoder.byte_eqb c6 (IMPORT_NAME ops)).
           ++ cbn [skipn]; rewrite ?drop_0.
              rewrite (IH r3 n); [done | simpl in Hk; lia | done |
                                  simpl in Hn; lia].
           ++ rewrite Hi. cbn [skipn]; rewrite ?drop_0. exact Hrest.
Qed.

(** A unit whose code is a sequence of instructions in the encoding of
    Python 2.5 and later: [scan_opcodes_25] yields exactly the stores and
    the imports of the sequence, instruction by instruction (an argument byte
    is never taken for an opcode), and [struct.error] does not occur. *)
Theorem scan_opcodes_25_assembled (ops : Opcodes) (names : list string)
    (consts : list const) (fname : string) (l : list instr) :
  with_argument ops ->
  Forall (sized ops) l ->
  Decoder.scan_opcodes_25 ops (Code (assemble l) names consts fname)
  = statements_25 ops names consts l.
Proof.
  intros Hops Hl. unfold Decoder.scan_opcodes_25.
  cbn [co_code co_names co_consts].
  by apply (scan_opcodes_25_loop_assembled ops names consts (length l)).
Qed.

Lemma scan_opcodes_loop_assembled ops names consts (k : nat) :
  with_argument ops ->
  forall (l : list instr) (n : nat),
    (length l <= k)%nat -> Forall (sized ops) l ->
    (length (assemble l) <= n)%nat ->
    Decoder.scan_opcodes_loop ops n names consts (assemble l)
    = statements_24 ops names consts l.
Proof.
  intros Hops. pose proof Hops as (HLC & HIN & _ & _).
  induction k as [| k IH]; intros l n Hk Hs Hn.
  - destruct l; [| simpl in Hk; lia]. by destruct n.
  - destruct l as [| i r]; [by destruct n |].
    apply Forall_cons in Hs as [Hi Hr].
    destruct n as [| n]; [destruct i; simpl in Hn; lia |].
    destruct i as [c | c a0 a1]; simpl in Hi.
    + change (assemble (Op c :: r)) with (c :: assemble r).
      cbn [Decoder.scan_opcodes_loop statements_24].
      rewrite (is_store_below ops c Hops Hi).
      rewrite (byte_eqb_below ops c _ Hi HLC).
      rewrite Hi. cbn [skipn]; rewrite ?drop_0.
      apply IH; [simpl in Hk; lia | done | simpl in Hn; lia].
    + change (assemble (OpArg c a0 a1 :: r)) with (c :: a0 :: a1 :: assemble r).
      cbn [Decoder.scan_opcodes_loop statements_24 Decoder.arg_at1].
      assert (Decoder.scan_opcodes_loop ops n names consts (assemble r)
              = statements_24 ops names consts r) as Hrest.
      { apply IH; [simpl in Hk; lia | done | simpl in Hn; lia]. }
      destruct (Decoder.is_store ops c) eqn:Est.
      { cbn [skipn]; rewrite ?drop_0. by rewrite Hrest. }
      destruct (Decoder.byte_eqb c (LOAD_CONST ops)) eqn:Elc;
        [| rewrite Hi; cbn [skipn]; rewrite ?drop_0; exact Hrest].
      destruct r as [| [c3 | c3 b0 b1] r2].
      * done.
      * apply Forall_cons in Hr as [H3 Hr2]. simpl in H3.
        change (assemble (Op c3 :: r2)) with (c3 :: assemble r2) in *.
        cbn [lookup list_lookup].
        rewrite (byte_eqb_below ops c3 _ H3 HIN).
        rewrite Hi. cbn [skipn]; rewrite ?drop_0. exact Hrest.
      * apply Forall_cons in Hr as [H3 Hr2].
        change (assemble (OpArg c3 b0 b1 :: r2))
          with (c3 :: b0 :: b1 :: assemble r2) in *.
        cbn [lookup list_lookup].
        destruct (Decoder.byte_eqb c3 (IMPORT_NAME ops)).
        -- cbn [skipn]; rewrite ?drop_0.
           rewrite (IH r2 n); [done | simpl in Hk; lia | done |
                               simpl in Hn; lia].
        -- rewrite Hi. cbn [skipn]; rewrite ?drop_0. exact Hrest.
Qed.

(** The same for [scan_opcodes] and the encoding of Python 2.4 and older.
    Here a [LOAD_CONST] as the last instruction of the code ends the scan with
    [IndexError], the scanner reading [code[3]] past the end. *)
Theorem scan_opcodes_assembled (ops : Opcodes) (names : list string)
    (consts : list const) (fname : string) (l : list instr) :
  with_argument ops ->
  Forall (sized ops) l ->
  Decoder.scan_opcodes ops (Code (assemble l) names consts fname)
  = statements_24 ops names consts l.
Proof.
  intros Hops Hl. unfold Decoder.scan_opcodes.
  cbn [co_code co_names co_consts].
  by apply (scan_opcodes_loop_assembled ops names consts (length l)).
Qed.

(* ===================================================================== *)
(** ** Rewriting the recorded file names *)
(* ===================================================================== *)

Section Rewritten.

Variable host : Host.
Variable rules : list (string * string).

Lemma replace_paths_in_code_eq (co : code) :
  Methods.replace_paths_in_code host rules co
  = Code (co_code co) (co_names co) (map (rewrite_const host rules) (co_consts co))
         (Methods.rewrite_filename host rules (normpath host (co_filename co))).
Proof. by destruct co. Qed.

Lemma import_event_rewritten level fromlist nm :
  Decoder.import_event ((rewrite_const host rules) level) ((rewrite_const host rules) fromlist) nm
  = (rewrite_event host rules) (Decoder.import_event level fromlist nm).
Proof.
  destruct level as [| z | | |]; try done.
  destruct z as [| p | p]; try done. by destruct p.
Qed.

Lemma scan_opcodes_loop_rewritten ops names consts n code :
  Decoder.scan_opcodes_loop ops n names (map (rewrite_const host rules) consts) code
  = (map (rewrite_event host rules) (fst (Decoder.scan_opcodes_loop ops n names consts code)),
     snd (Decoder.scan_opcodes_loop ops n names consts code)).
Proof.
  revert code. induction n as [| n IH]; intros code; [done |].
  cbn [Decoder.scan_opcodes_loop].
  destruct code as [| c rest]; [done |].
  destruct (Decoder.is_store ops c).
  { destruct (Decoder.arg_at1 (c :: rest)); [| done].
    destruct (names !! n0); [| done]. unfold Decoder.yield. by rewrite IH. }
  destruct (Decoder.byte_eqb c (LOAD_CONST ops)).
  - destruct ((c :: rest) !! 3%nat) as [c3 |]; [| done].
    destruct (Decoder.byte_eqb c3 (IMPORT_NAME ops)).
    + destruct rest as [| a0 [| a1 [| x [| b0 [| b1 rest]]]]]; try done.
      rewrite list_lookup_fmap.
      destruct (consts !! Decoder.u16 a0 a1) as [k |]; [| done].
      cbn [fmap option_fmap option_map].
      destruct (names !! Decoder.u16 b0 b1); [| done].
      unfold Decoder.yield. by rewrite IH.
    + destruct (Decoder.byte_geb c (HAVE_ARGUMENT ops)); apply IH.
  - destruct (Decoder.byte_geb c (HAVE_ARGUMENT ops)); apply IH.
Qed.

Lemma scan_opcodes_25_loop_rewritten ops names consts n code :
  Decoder.scan_opcodes_25_loop ops n names (map (rewrite_const host rules) consts) code
  = (map (rewrite_event host rules) (fst (Decoder.scan_opcodes_25_loop ops n names consts code)),
     snd (Decoder.scan_opcodes_25_loop ops n names consts code)).
Proof.
  revert code. induction n as [| n IH]; intros code; [done |].
  cbn [Decoder.scan_opcodes_25_loop].
  destruct code as [| c rest]; [done |].
  destruct (Decoder.is_store ops c).
  { destruct (Decoder.arg_at1 (c :: rest)); [| done].
    destruct (names !! n0); [| done]. unfold Decoder.yield. by rewrite IH. }
  destruct (Decoder.load_load_and_import ops (c :: rest)).
  - destruct rest as [| a0 [| a1 [| x [| b0 [| b1 [| y [| c0 [| c1 rest]]]]]]]];
      try done.
    rewrite !list_lookup_fmap.
    destruct (consts !! Decoder.u16 a0 a1) as [level |]; [| done].
    cbn [fmap option_fmap option_map].
    destruct (consts !! Decoder.u16 b0 b1) as [fromlist |]; [| done].
    cbn [fmap option_fmap option_map].
    destruct (names !! Decoder.u16 c0 c1); [| done].
    unfold Decoder.yield. rewrite IH. cbn [fst snd map].
    by rewrite import_event_rewritten.
  - destruct (Decoder.byte_geb c (HAVE_ARGUMENT ops)); apply IH.
Qed.

(** The scanner yields for the rewritten unit what it yields for the
    unit, nested code objects among the constants rewritten. *)
Lemma scanner_rewritten co :
  Decoder.scanner (opcodes host) (version_info host)
    (Methods.replace_paths_in_code host rules co)
  = (map (rewrite_event host rules) (fst (Decoder.scanner (opcodes host) (version_info host) co)),
     snd (Decoder.scanner (opcodes host) (version_info host) co)).
Proof.
  rewrite replace_paths_in_code_eq. unfold Decoder.scanner.
  destruct (Decoder.version_ge_25 (version_info host)).
  - apply scan_opcodes_25_loop_rewritten.
  - apply scan_opcodes_loop_rewritten.
Qed.

Lemma as_fromlist_rewritten k :
  Methods.as_fromlist ((rewrite_const host rules) k) = Methods.as_fromlist k.
Proof. by destruct k. Qed.

Lemma as_level_rewritten k : Methods.as_level ((rewrite_const host rules) k) = Methods.as_level k.
Proof. by destruct k. Qed.

Lemma scan_event_rewritten (self : Self) m ev :
  Methods.scan_event self m ((rewrite_event host rules) ev) = Methods.scan_event self m ev.
Proof.
  destruct ev as [n | f n | f n | l f n]; cbn [rewrite_event];
    unfold Methods.scan_event, Methods.scan_import;
    by rewrite ?as_fromlist_rewritten, ?as_level_rewritten.
Qed.

Lemma forM_events_rewritten (self : Self) m evs :
  forM_ (map (rewrite_event host rules) evs) (Methods.scan_event self m)
  = forM_ evs (Methods.scan_event self m).
Proof.
  induction evs as [| ev r IH]; [done |].
  cbn [map forM_]. by rewrite scan_event_rewritten, IH.
Qed.

Lemma forM_nested_rewritten (self : Self) m consts g :
  (forall c' g, self.scan_code self (Methods.replace_paths_in_code host rules c')
                  m g
                = self.scan_code self c' m g) ->
  forM_ (map (rewrite_const host rules) consts)
        (fun c => match c with
                  | CCode c' => self.scan_code self c' m
                  | _ => ret tt
                  end) g
  = forM_ consts
          (fun c => match c with
                    | CCode c' => self.scan_code self c' m
                    | _ => ret tt
                    end) g.
Proof.
  intros IH. revert g. induction consts as [| k r IHr]; intros g; [done |].
  cbn [map forM_]. unfold bind.
  destruct k; cbn [rewrite_const ret]; try apply IHr.
  rewrite IH. destruct (self.scan_code self co m g); [apply IHr | done | done].
Qed.

End Rewritten.

(** Rewriting the file names recorded in a code object does not change what
    its scan does: with the same fuel, [scan_code] ends for the rewritten
    unit exactly as for the unit itself, with the same graph. *)
Theorem scan_code_after_replace_paths (host : Host) (fuel : nat)
    (rules : list (string * string)) (co : code) (m : string)
    (g : ModuleGraph) :
  scan_code host fuel (Methods.replace_paths_in_code host rules co) m g
  = scan_code host fuel co m g.
Proof.
  revert co g. induction fuel as [| f IH]; intros co g; [done |].
  change (Methods.scan_code host (bound host f)
            (Methods.replace_paths_in_code host rules co) m g
          = Methods.scan_code host (bound host f) co m g).
  unfold Methods.scan_code. rewrite scanner_rewritten. cbn [fst snd].
  rewrite forM_events_rewritten.
  unfold bind.
  destruct (forM_ _ (Methods.scan_event (bound host f) m) g)
    as [[] g1 | e g1 |]; try done.
  destruct (match snd (Decoder.scanner (opcodes host) (version_info host) co)
            with Some e => raise e | None => ret tt end g1)
    as [[] g2 | e g2 |]; try done.
  rewrite replace_paths_in_code_eq. cbn [co_consts].
  apply forM_nested_rewritten. intros c' g'. apply IH.
Qed.

Lemma startswith_app (p s : string) : Str.startswith p (p +:+ s) = true.
Proof.
  induction p as [| a p IH]; [done |]. simpl. by rewrite Ascii.eqb_refl, IH.
Qed.

Lemma drop_app (p s : string) : Str.drop (String.length p) (p +:+ s) = s.
Proof. induction p as [| a p IH]; [by destruct s | done]. Qed.

Lemma startswith_drop (p s : string) :
  Str.startswith p s = true -> p +:+ Str.drop (String.length p) s = s.
Proof.
  revert s. induction p as [| a p IH]; intros s H; [by destruct s |].
  destruct s as [| b s]; [done |]. simpl in H.
  apply andb_prop in H as [H1 H2]. apply Ascii.eqb_eq in H1 as ->.
  change (String b (p +:+ Str.drop (String.length p) s) = String b s).
  f_equal. by apply IH.
Qed.

Lemma rewrite_filename_back (host : Host) (f r original : string) :
  Str.startswith (join_empty host f) original = true ->
  Methods.rewrite_filename host [(r, f)]
    (Methods.rewrite_filename host [(f, r)] original)
  = original.
Proof.
  intros H. cbn [Methods.rewrite_filename]. rewrite H.
  rewrite startswith_app, drop_app. by apply startswith_drop.
Qed.

(** A code object whose file lies under the directory [f], rewritten by the
    rule [(f, r)] and then by the rule [(r, f)], has its file name again (the
    names being in the normal form of [os.path.normpath]); its instructions
    and its names were never touched. *)
Theorem replace_paths_in_code_back (host : Host) (f r : string) (co : code) :
  let moved :=
    join_empty host r
    +:+ Str.drop (String.length (join_empty host f)) (co_filename co) in
  normpath host (co_filename co) = co_filename co ->
  normpath host moved = moved ->
  Str.startswith (join_empty host f) (co_filename co) = true ->
  let there := Methods.replace_paths_in_code host [(f, r)] co in
  let back := Methods.replace_paths_in_code host [(r, f)] there in
  co_filename there = moved
  /\ co_filename back = co_filename co
  /\ co_code back = co_code co /\ co_names back = co_names co.
Proof.
  intros moved Hn Hm Hs there back. subst there back.
  destruct co as [c names consts fname]. cbn [co_filename] in *.
  cbn [Methods.replace_paths_in_code co_filename co_code co_names].
  rewrite Hn.
  assert (Methods.rewrite_filename host [(f, r)] fname = moved) as Ht
    by (cbn [Methods.rewrite_filename]; by rewrite Hs).
  rewrite Ht, Hm. split; [done |]. split; [| done].
  rewrite <- Ht. by apply rewrite_filename_back.
Qed.

(** A file name under none of the directories of the rules keeps its
    name; under the directory of a rule, and of no rule before it, it gets
    the replacement directory of that rule, the rest of the name kept. *)
Theorem rewrite_filename_first (host : Host) (before after : list (string * string))
    (f r original : string) :
  Forall (fun rule => Str.startswith (join_empty host (fst rule)) original
                      = false) before ->
  Methods.rewrite_filename host before original = original
  /\ (Str.startswith (join_empty host f) original = true ->
      Methods.rewrite_filename host (before ++ (f, r) :: after) original
      = join_empty host r
        +:+ Str.drop (String.length (join_empty host f)) original).
Proof.
  induction 1 as [| [f0 r0] rest H0 _ IH]; cbn [Methods.rewrite_filename app].
  - split; [done |]. by intros ->.
  - simpl in H0. rewrite H0. exact IH.
Qed.

(* ===================================================================== *)
(** ** What no method changes *)
(* ===================================================================== *)

Lemma kept_refl g : kept g g.
Proof. by repeat split. Qed.

Lemma kept_trans g1 g2 g3 : kept g1 g2 -> kept g2 g3 -> kept g1 g3.
Proof.
  intros (H1 & H2 & H3) (H1' & H2' & H3').
  repeat split; [by etrans | congruence | congruence].
Qed.

Lemma readonly_keeps {A} (c : M A) : readonly c -> keeps c.
Proof.
  intros H g. specialize (H g).
  destruct (c g); subst; auto using kept_refl.
Qed.

Lemma keeps_bind {A B} (c : M A) (k : A -> M B) :
  keeps c -> (forall a, keeps (k a)) -> keeps (bind c k).
Proof.
  intros Hc Hk g. unfold bind. specialize (Hc g).
  destruct (c g) as [a g' | e g' |]; [| done | done].
  specialize (Hk a g').
  destruct (k a g') as [b g'' | e g'' |]; [| | done]; by eapply kept_trans.
Qed.

Lemma keeps_try {A} (c : M A) : keeps c -> keeps (try_ImportError c).
Proof.
  intros Hc g. unfold try_ImportError. specialize (Hc g).
  destruct (c g) as [a g' | e g' |]; [done | | done].
  by destruct e.
Qed.

Lemma keeps_forM {A} (l : list A) (b : A -> M unit) :
  (forall x, keeps (b x)) -> keeps (forM_ l b).
Proof.
  intros Hb. induction l as [| x l IH]; simpl.
  - by apply readonly_keeps.
  - apply keeps_bind; [apply Hb | intros _; apply IH].
Qed.

Lemma keeps_foldM {A B} (l : list A) (b : B -> A -> M B) (acc : B) :
  (forall a x, keeps (b a x)) -> keeps (foldM b acc l).
Proof.
  intros Hb. revert acc. induction l as [| x l IH]; intros acc; simpl.
  - by apply readonly_keeps.
  - apply keeps_bind; [apply Hb | intros a; apply IH].
Qed.

(** A step on the nodes, the edges or the heap. *)
Lemma keeps_step {A} (a : ModuleGraph -> A) (F : ModuleGraph -> ModuleGraph) :
  (forall g, lazynodes (F g) = lazynodes g /\ path (F g) = path g
             /\ replace_paths (F g) = replace_paths g) ->
  keeps (fun g => Ok (a g) (F g)).
Proof.
  intros H g. destruct (H g) as (H1 & H2 & H3).
  repeat split; [by rewrite H1 | done | done].
Qed.

Lemma keeps_fresh : keeps fresh.
Proof. by apply (keeps_step next (fun g => with_next (S (next g)) g)). Qed.

Lemma keeps_new_dict : keeps new_dict.
Proof.
  unfold new_dict. apply keeps_bind; [apply keeps_fresh | intros l].
  by apply (keeps_step (fun _ => l)
              (fun g => with_dicts (<[l := ∅]> (dicts g)) g)).
Qed.

Lemma keeps_new_set : keeps new_set.
Proof.
  unfold new_set. apply keeps_bind; [apply keeps_fresh | intros l].
  by apply (keeps_step (fun _ => l)
              (fun g => with_sets (<[l := ∅]> (sets g)) g)).
Qed.

Lemma keeps_dict_set l k v : keeps (dict_set l k v).
Proof.
  by apply (keeps_step (fun _ => tt)
           (fun g => with_dicts (<[l := <[k := v]> (dict_at l g)]> (dicts g)) g)).
Qed.

Lemma keeps_set_add l x : keeps (set_add l x).
Proof.
  by apply (keeps_step (fun _ => tt)
           (fun g => with_sets (<[l := set_at l g ∪ {[x]}]> (sets g)) g)).
Qed.

Lemma keeps_set_update l l' : keeps (set_update l l').
Proof.
  by apply (keeps_step (fun _ => tt)
           (fun g => with_sets (<[l := set_at l g ∪ set_at l' g]> (sets g)) g)).
Qed.

Lemma keeps_createReference a b : keeps (createReference a b).
Proof.
  unfold createReference, ObjectGraph.createReference.
  destruct b as [t |]; [| by apply readonly_keeps].
  by apply (keeps_step (fun _ => tt)
              (fun g => with_edges (edges g ∪ {[(a, t, "direct")]}) g)).
Qed.

Lemma keeps_update_node r (f : Node -> Node) : keeps (update_node r f).
Proof.
  by apply (keeps_step (fun _ => tt)
              (fun g => with_nodes (alter f r (nodes g)) g)).
Qed.

Lemma keeps_addNode n : keeps (ObjectGraph.addNode n).
Proof.
  intros g. unfold ObjectGraph.addNode.
  destruct (nodes g !! graphident n); by repeat split.
Qed.

(** The one place where the lazy registry changes: an entry is taken out. *)
Lemma keeps_lazy_pop name : keeps (Methods.lazy_pop name).
Proof.
  intros g. unfold Methods.lazy_pop.
  destruct (lazynodes g !! name); [| apply kept_refl].
  repeat split. simpl. apply delete_subseteq.
Qed.

Lemma keeps_construct c name arg : keeps (construct c name arg).
Proof.
  unfold construct. apply keeps_bind.
  - unfold Node_init.
    apply keeps_bind; [apply keeps_fresh | intros i].
    apply keeps_bind; [apply keeps_new_dict | intros ns].
    apply keeps_bind; [apply keeps_new_set | intros gn].
    apply keeps_bind; [apply keeps_new_set | intros si].
    by apply readonly_keeps, readonly_ret.
  - intros n. destruct c; try (by apply readonly_keeps, readonly_ret).
    destruct arg; [| by apply readonly_keeps, readonly_raise].
    apply keeps_bind; [by apply readonly_keeps, readonly_node | intros t].
    by apply readonly_keeps, readonly_ret.
Qed.

Lemma keeps_createNode (find : string -> M (option string)) c name arg :
  (forall n, keeps (find n)) -> keeps (createNode find c name arg).
Proof.
  intros Hf. unfold createNode.
  apply keeps_bind; [apply Hf | intros [r |]].
  - by apply readonly_keeps, readonly_ret.
  - apply keeps_bind; [apply keeps_construct | intros n].
    apply keeps_bind; [apply keeps_addNode | intros _].
    by apply readonly_keeps, readonly_ret.
Qed.

Ltac keeps_step H :=
  match goal with
  | |- keeps (bind _ _) => apply keeps_bind; [| intros ?]
  | |- keeps (ret _) => apply readonly_keeps, readonly_ret
  | |- keeps (raise _) => apply readonly_keeps, readonly_raise
  | |- keeps (node _) => apply readonly_keeps, readonly_node
  | |- keeps (assert _) => apply readonly_keeps, readonly_assert
  | |- keeps (pop _) => apply readonly_keeps, readonly_pop
  | |- keeps (dict_get _ _) => apply readonly_keeps, readonly_dict_get
  | |- keeps (ObjectGraph.findNode _) =>
      apply readonly_keeps, readonly_base_findNode
  | |- keeps (ObjectGraph.addNode _) => apply keeps_addNode
  | |- keeps (Methods.replaced _ _) => apply readonly_keeps, readonly_replaced
  | |- keeps (Methods.compile _ _) => apply readonly_keeps, readonly_compile
  | |- keeps (Methods.as_fromlist _) =>
      apply readonly_keeps, readonly_as_fromlist
  | |- keeps (Methods.as_level _) => apply readonly_keeps, readonly_as_level
  | |- keeps (Methods.unit_of _ _ _ _ _) =>
      apply readonly_keeps, readonly_unit_of
  | |- keeps (Methods.locate _ _ _ _) => apply readonly_keeps, readonly_locate
  | |- keeps (Methods.find_all_submodules _ _) =>
      apply readonly_keeps, readonly_find_all_submodules
  | |- keeps (Methods.lazy_pop _) => apply keeps_lazy_pop
  | |- keeps (dict_set _ _ _) => apply keeps_dict_set
  | |- keeps (set_add _ _) => apply keeps_set_add
  | |- keeps (set_update _ _) => apply keeps_set_update
  | |- keeps (createReference _ _) => apply keeps_createReference
  | |- keeps (update_node _ _) => apply keeps_update_node
  | |- keeps (try_ImportError _) => apply keeps_try
  | |- keeps (forM_ _ _) => apply keeps_forM; intros ?
  | |- keeps (foldM _ _ _) => apply keeps_foldM; intros ? ?
  | |- keeps (createNode _ _ _ _) => apply keeps_createNode; intros ?
  | |- keeps (?s _ ?c) => apply H
  | |- keeps (match ?x with _ => _ end) => destruct x
  end.

Lemma dispatch_keeps host (s : Self) :
  (forall A (c : call A), keeps (s A c)) ->
  forall A (c : call A), keeps (Methods.dispatch host s A c).
Proof.
  intros H A c. destruct c; simpl.
  - unfold Methods.findNode, self.findNode, self._safe_import_hook,
      self.implyNodeReference.
    repeat keeps_step H.
  - unfold Methods.implyNodeReference, self.import_hook.
    repeat keeps_step H.
  - unfold Methods.run_script, self.findNode, self.scan_code.
    repeat keeps_step H.
  - unfold Methods.import_hook, self.determine_parent, self.find_head_package,
      self.load_tail, self.ensure_fromlist.
    repeat keeps_step H.
  - unfold Methods.determine_parent, self.findNode.
    repeat keeps_step H.
  - unfold Methods.find_head_package, self.import_module.
    repeat keeps_step H.
  - unfold Methods.load_tail, self.import_module, self.load_tail.
    repeat keeps_step H.
  - unfold Methods.ensure_fromlist, self.import_module.
    repeat keeps_step H.
  - unfold Methods.import_module, self.findNode, self.find_module,
      self.load_module.
    repeat keeps_step H.
  - unfold Methods.load_module, self.load_package, self.findNode,
      self.scan_code.
    repeat keeps_step H.
  - unfold Methods._safe_import_hook, self.import_hook, self.findNode.
    repeat keeps_step H.
  - unfold Methods.scan_code, Methods.scan_event, Methods.scan_import,
      self.scan_code, self._safe_import_hook, self.findNode,
      self.determine_parent.
    repeat keeps_step H.
  - unfold Methods.load_package, self.findNode, self.find_module,
      self.load_module.
    repeat keeps_step H.
  - unfold Methods.find_module, self.findNode.
    repeat keeps_step H.
Qed.

Lemma bound_keeps host (f : nat) {A} (c : call A) : keeps (bound host f A c).
Proof.
  revert A c. induction f as [| f IH]; intros A c.
  - by intros g.
  - by apply dispatch_keeps.
Qed.

(** Whatever method runs, to whatever depth, and however it ends: the lazy
    registry has gained no entry (entries are only ever taken out of it),
    and the search path and the path rewriting rules are what they were. *)
Theorem registry_only_shrinks (host : Host) (fuel : nat) {A} (c : call A)
    (g : ModuleGraph) :
  match bound host fuel A c g with
  | Ok _ g' | Raise _ g' =>
      lazynodes g' ⊆ lazynodes g /\ path g' = path g
      /\ replace_paths g' = replace_paths g
  | OutOfFuel => True
  end.
Proof.
  revert A c g. induction fuel as [| f IH]; intros A c g; [done |].
  apply (dispatch_keeps host (bound host f)).
  intros B c' g'. apply IH.
Qed.

(** Whatever method runs on a well-formed graph, and however it ends: no
    node, no edge and no name of a name set has been removed, every node is
    the object it was, and the graph is well formed. *)
Theorem graph_only_grows (host : Host) (fuel : nat) {A} (c : call A)
    (g : ModuleGraph) :
  wf g ->
  match bound host fuel A c g with
  | Ok _ g' | Raise _ g' =>
      wf g'
      /\ (forall i n, nodes g !! i = Some n ->
            exists n', nodes g' !! i = Some n' /\ same_object n n')
      /\ edges g ⊆ edges g'
      /\ (forall i n, nodes g !! i = Some n ->
            set_at (globalnames n) g ⊆ set_at (globalnames n) g'
            /\ set_at (starimports n) g ⊆ set_at (starimports n) g')
  | OutOfFuel => True
  end.
Proof.
  intros Hwf. pose proof (bound_mono host fuel c g Hwf) as H.
  destruct (bound host fuel A c g) as [a g' | e g' |]; [| | done];
    destruct H as [Hwf' (Hn & He & Hs & _)];
    (split; [done |]; split; [done |]; split; [done |]);
    intros i n Hi; destruct (Hwf i n Hi) as [_ (_ & _ & H2 & H3)];
    split; by apply Hs.
Qed.

(* ===================================================================== *)
(** ** The wrapper and ImportError *)
(* ===================================================================== *)

Lemma kept_no_deps g g' : kept g g' -> no_deps g -> no_deps g'.
Proof.
  intros (H & _) Hnd k l E. apply (Hnd k l).
  by eapply lookup_weaken.
Qed.

Lemma quiet_plain {A} (c : M A) :
  (forall g msg g', c g <> Raise (ImportError msg) g') -> quiet c.
Proof. intros H g _. apply H. Qed.

Lemma quiet_bind {A B} (c : M A) (k : A -> M B) :
  keeps c -> quiet c -> (forall a, quiet (k a)) -> quiet (bind c k).
Proof.
  intros Hk Hc Hq g Hnd msg g'. unfold bind. specialize (Hk g).
  destruct (c g) as [a g1 | e g1 |] eqn:E; [| | done].
  - apply Hq. by eapply kept_no_deps.
  - intros [= -> ->]. by apply (Hc g Hnd msg g').
Qed.

Lemma quiet_try {A} (c : M A) : quiet (try_ImportError c).
Proof.
  apply quiet_plain. intros g msg g'. unfold try_ImportError.
  destruct (c g) as [a g1 | e g1 |]; [done | | done]. by destruct e.
Qed.

Lemma quiet_foldM {A B} (l : list A) (b : B -> A -> M B) (acc : B) :
  (forall a x, keeps (b a x)) -> (forall a x, quiet (b a x)) ->
  quiet (foldM b acc l).
Proof.
  intros Hk Hb. revert acc. induction l as [| x l IH]; intros acc; simpl.
  - by apply quiet_plain.
  - apply quiet_bind; [apply Hk | apply Hb | intros a; apply IH].
Qed.

Lemma quiet_ret {A} (a : A) : quiet (ret a).
Proof. by apply quiet_plain. Qed.

Lemma quiet_raise {A} (e : exn) :
  (forall msg, e <> ImportError msg) -> quiet (@raise A e).
Proof.
  intros H. apply quiet_plain. intros g msg g' [= E _]. by apply (H msg).
Qed.

Lemma quiet_node r : quiet (node r).
Proof.
  apply quiet_plain. intros g msg g'. unfold node.
  by destruct (nodes g !! r).
Qed.

Lemma quiet_assert b : quiet (assert b).
Proof. apply quiet_plain. intros g msg g'. by destruct b. Qed.

Lemma quiet_pop s : quiet (pop s).
Proof.
  apply quiet_plain. intros g msg g'. unfold pop. by destruct (elements s).
Qed.

Lemma quiet_dict_get l k : quiet (dict_get l k).
Proof. by apply quiet_plain. Qed.

Lemma quiet_dict_set l k v : quiet (dict_set l k v).
Proof. by apply quiet_plain. Qed.

Lemma quiet_createReference a b : quiet (createReference a b).
Proof.
  apply quiet_plain. intros g msg g'.
  unfold createReference, ObjectGraph.createReference. by destruct b.
Qed.

Lemma quiet_addNode n : quiet (ObjectGraph.addNode n).
Proof.
  apply quiet_plain. intros g msg g'. unfold ObjectGraph.addNode.
  by destruct (nodes g !! graphident n).
Qed.

Lemma quiet_construct c name arg : quiet (construct c name arg).
Proof.
  apply quiet_plain. intros g msg g'.
  unfold construct, Node_init, new_dict, new_set, fresh, bind, ret, raise, node.
  destruct c; try done. destruct arg as [o |]; [| done]. simpl.
  by destruct (nodes g !! o).
Qed.

Lemma quiet_createNode (find : string -> M (option string)) c name arg :
  (forall n, keeps (find n)) -> (forall n, quiet (find n)) ->
  quiet (createNode find c name arg).
Proof.
  intros Hk Hq. unfold createNode.
  apply quiet_bind; [apply Hk | apply Hq | intros [r |]].
  - apply quiet_ret.
  - apply quiet_bind; [apply keeps_construct | apply quiet_construct | intros n].
    apply quiet_bind; [apply keeps_addNode | apply quiet_addNode | intros _].
    apply quiet_ret.
Qed.

Ltac quiet_step H K :=
  match goal with
  | |- quiet (bind _ _) =>
      apply quiet_bind; [solve [repeat keeps_step K] | | intros ?]
  | |- quiet (try_ImportError _) => apply quiet_try
  | |- quiet (ret _) => apply quiet_ret
  | |- quiet (raise _) => apply quiet_raise; intros ?; discriminate
  | |- quiet (node _) => apply quiet_node
  | |- quiet (assert _) => apply quiet_assert
  | |- quiet (pop _) => apply quiet_pop
  | |- quiet (dict_get _ _) => apply quiet_dict_get
  | |- quiet (dict_set _ _ _) => apply quiet_dict_set
  | |- quiet (createReference _ _) => apply quiet_createReference
  | |- quiet (ObjectGraph.addNode _) => apply quiet_addNode
  | |- quiet (createNode _ _ _ _) =>
      apply quiet_createNode; [intros ?; apply K | intros ?; apply H; exact I]
  | |- quiet (foldM _ _ _) =>
      apply quiet_foldM; [intros ? ?; solve [repeat keeps_step K] | intros ? ?]
  | |- quiet (?s _ ?c) => apply H; exact I
  | |- quiet (match ?x with _ => _ end) => destruct x
  end.

Lemma bound_quiet host (f : nat) {A} (c : call A) :
  guarded c -> quiet (bound host f A c).
Proof.
  revert A c. induction f as [| f IH]; intros A c Hc.
  - by apply quiet_plain.
  - pose proof (fun A (c : call A) => bound_keeps host f c) as K.
    destruct c; try done; cbn [bound Methods.dispatch].
    + intros g Hnd msg g'.
      unfold Methods.findNode, bind at 1, ObjectGraph.findNode.
      destruct (nodes g !! name) as [n |]; [done |].
      unfold bind at 1, Methods.lazy_pop.
      destruct (lazynodes g !! name) as [[| target | deps] |] eqn:E;
        [| | by destruct (Hnd name deps) | done].
      * assert (quiet (m <- createNode (self.findNode (bound host f))
                                ExcludedModule name None ;;
                       ret (Some m))) as Hq.
        { unfold self.findNode. repeat quiet_step IH K. }
        apply Hq. eapply kept_no_deps; [| exact Hnd].
        repeat split. simpl. apply delete_subseteq.
      * assert (quiet (subs <- self._safe_import_hook (bound host f) target
                                 None None (-1) ;;
                       other <- pop subs ;;
                       m <- createNode (self.findNode (bound host f)) AliasNode
                              name (Some other) ;;
                       self.implyNodeReference (bound host f) m (INode other) ;;
                       ret (Some m))) as Hq.
        { unfold self.findNode, self._safe_import_hook,
            self.implyNodeReference.
          repeat quiet_step IH K. }
        apply Hq. eapply kept_no_deps; [| exact Hnd].
        repeat split. simpl. apply delete_subseteq.
    + destruct other as [nm | o]; [done |].
      unfold Methods.implyNodeReference. repeat quiet_step IH K.
    + unfold Methods._safe_import_hook, self.import_hook, self.findNode.
      repeat quiet_step IH K.
Qed.

(** [_safe_import_hook] is "the wrapper for [import_hook] that won't raise
    [ImportError]": when no name is registered with a list of implied
    dependencies, it never ends by raising [ImportError], whatever it is asked
    to import and whatever the depth of the calls; nor does [findNode]. *)
Theorem safe_import_never_raises (host : Host) (fuel : nat) (g : ModuleGraph)
    (name : string) (caller : option string)
    (fromlist : option (list string)) (level : Z) :
  no_deps g ->
  (forall msg g',
     _safe_import_hook host fuel name caller fromlist level g
     <> Raise (ImportError msg) g')
  /\ (forall msg g', findNode host fuel name g <> Raise (ImportError msg) g').
Proof.
  intros Hnd. split.
  - apply (bound_quiet host fuel (SafeImportHook name caller fromlist level) I
             g Hnd).
  - apply (bound_quiet host fuel (FindNode name) I g Hnd).
Qed.

(* ===================================================================== *)
(** ** What a returned import has done *)
(* ===================================================================== *)

Lemma try_Ok_inv {A} (c : M A) g r g' :
  try_ImportError c g = Ok r g' ->
  match r with
  | inl a => c g = Ok a g'
  | inr msg => c g = Raise (ImportError msg) g'
  end.
Proof.
  unfold try_ImportError. destruct (c g) as [a g1 | e g1 |]; [| | done].
  - by intros [= <- <-].
  - destruct e; try done. by intros [= <- <-].
Qed.

(** A submodule that [import_module] returns for a parent is linked to the
    parent; one it had to load is also entered, under its part name, in the
    namespace of the parent. *)
Theorem import_module_under_parent (host : Host) (fuel : nat)
    (partname fqname p m : string) (g g' : ModuleGraph) :
  import_module host fuel partname fqname (Some p) g = Ok (Some m) g' ->
  (Some m, p, "direct") ∈ edges g'
  /\ (nodes g !! fqname = None -> lazynodes g !! fqname = None ->
      exists pn, nodes g' !! p = Some pn
                 /\ dict_at (namespace pn) g' !! partname = Some (Some m)).
Proof.
  destruct fuel as [| f]; [done |].
  change (import_module host (S f) partname fqname (Some p))
    with (Methods.import_module (bound host f) partname fqname (Some p)).
  unfold Methods.import_module. intros H.
  apply bind_Ok_inv in H as (found & g0 & Hfind & H).
  destruct found as [m' |].
  - apply bind_Ok_inv in H as ([] & g1 & Hlink & H).
    injection H as <- <-. injection Hlink as <-. split.
    + simpl. apply elem_of_union_r. by apply elem_of_singleton.
    + intros Hn Hl. destruct f as [| f]; [done |].
      change (self.findNode (bound host (S f)) fqname)
        with (findNode host (S f) fqname) in Hfind.
      by rewrite (findNode_absent host f g fqname Hn Hl) in Hfind.
  - apply bind_Ok_inv in H as (ppath & g1 & Hpp & H).
    apply bind_Ok_inv in Hpp as (pn0 & g1' & _ & Hpp).
    injection Hpp as <- <-.
    destruct (packagepath pn0) as [pp |]; [| done].
    apply bind_Ok_inv in H as (r & g2 & _ & H).
    destruct r as [d | msg]; [| done].
    apply bind_Ok_inv in H as (m1 & g3 & _ & H).
    apply bind_Ok_inv in H as ([] & g4 & Hlink & H).
    injection H as <- <-.
    apply bind_Ok_inv in Hlink as ([] & g5 & Hlink & Hset).
    injection Hlink as <-.
    apply bind_Ok_inv in Hset as (pn & g6 & Hpn & Hset).
    unfold node in Hpn. simpl in Hpn.
    destruct (nodes g3 !! p) as [pn' |] eqn:Ep; [| done].
    injection Hpn as <- <-. injection Hset as <-. split.
    + simpl. apply elem_of_union_r. by apply elem_of_singleton.
    + intros _ _. exists pn'. split; [done |].
      unfold dict_at at 1. simpl. rewrite lookup_insert_eq. simpl.
      apply lookup_insert_eq.
Qed.

Lemma forM_createReference (caller : option string) (l : list string) g :
  exists g',
    forM_ l (fun x => createReference caller (Some x)) g = Ok tt g'
    /\ edges g ⊆ edges g'
    /\ forall x, x ∈ l -> (caller, x, "direct") ∈ edges g'.
Proof.
  revert g. induction l as [| y l IH]; intros g.
  - exists g. split; [done |]. split; [done |].
    intros x Hx. by apply elem_of_nil in Hx.
  - cbn [forM_]. unfold bind at 1.
    change (createReference caller (Some y) g)
      with (Ok tt (linked caller y g)).
    destruct (IH (linked caller y g)) as (g' & E & Hsub & Hin).
    exists g'. split; [done |].
    assert (edges g ∪ {[(caller, y, "direct")]} ⊆ edges g') as Hsub' by done.
    split; [by etrans; [apply union_subseteq_l |] |].
    intros x [-> | Hx]%elem_of_cons; [| by apply Hin].
    apply Hsub'. apply elem_of_union_r. by apply elem_of_singleton.
Qed.

(** When [import_hook] returns, it returns at least one module, and the
    graph has a [direct] edge from the caller to every module it returns. *)
Theorem import_hook_links_caller (host : Host) (fuel : nat) (name : string)
    (caller : option string) (fromlist : option (list string)) (level : Z)
    (g g' : ModuleGraph) (mods : gset string) :
  import_hook host fuel name caller fromlist level g = Ok mods g' ->
  mods <> ∅
  /\ forall x, x ∈ mods -> (caller, x, "direct") ∈ edges g'.
Proof.
  destruct fuel as [| f]; [done |].
  change (import_hook host (S f) name caller fromlist level)
    with (Methods.import_hook (bound host f) name caller fromlist level).
  unfold Methods.import_hook. intros H.
  apply bind_Ok_inv in H as (parent & g1 & _ & H).
  apply bind_Ok_inv in H as (qt & g2 & _ & H).
  apply bind_Ok_inv in H as (m & g3 & _ & H).
  apply bind_Ok_inv in H as (mn & g4 & _ & H).
  apply bind_Ok_inv in H as (subs & g5 & _ & H).
  apply bind_Ok_inv in H as ([] & g6 & Hlinks & H).
  injection H as <- <-.
  destruct (forM_createReference caller (elements ({[m]} ∪ subs)) g5)
    as (g7 & E & _ & Hin).
  rewrite E in Hlinks. injection Hlinks as <-. split.
  - intros He. assert (m ∈ ({[m]} ∪ subs : gset string)) as Hm.
    { apply elem_of_union_l. by apply elem_of_singleton. }
    rewrite He in Hm. by apply not_elem_of_empty in Hm.
  - intros x Hx. apply Hin. by apply elem_of_elements.
Qed.

Lemma foldM_Ok_inv {A B} (P : B -> Prop) (body : B -> A -> M B) (l : list A) :
  (forall acc x g b g', P acc -> body acc x g = Ok b g' -> P b) ->
  forall acc g r g', P acc -> foldM body acc l g = Ok r g' -> P r.
Proof.
  intros Hb. induction l as [| x l IH]; intros acc g r g' Hacc H.
  - by injection H as <- <-.
  - cbn [foldM] in H. apply bind_Ok_inv in H as (b & g1 & Hx & H).
    eapply IH; [| exact H]. by eapply Hb.
Qed.

(** When [_safe_import_hook] returns, the set it returns is not empty: the
    [pop()] that [findNode] applies to it finds an element. *)
Theorem safe_import_hook_nonempty (host : Host) (fuel : nat) (name : string)
    (caller : option string) (fromlist : option (list string)) (level : Z)
    (g g' : ModuleGraph) (subs : gset string) :
  _safe_import_hook host fuel name caller fromlist level g = Ok subs g' ->
  subs <> ∅ /\ exists x g'', pop subs g'' = Ok x g'' /\ x ∈ subs.
Proof.
  destruct fuel as [| f]; [done |].
  change (_safe_import_hook host (S f) name caller fromlist level)
    with (Methods._safe_import_hook (bound host f) name caller fromlist level).
  unfold Methods._safe_import_hook. intros H.
  apply bind_Ok_inv in H as (r & g1 & _ & H).
  apply bind_Ok_inv in H as (m & g2 & _ & H).
  assert (m ∈ subs) as Hm.
  { revert H. apply (foldM_Ok_inv (fun s : gset string => m ∈ s)).
    - intros acc x ga b gb Hacc Hbody.
      apply bind_Ok_inv in Hbody as (mn & gc & _ & Hbody).
      apply bind_Ok_inv in Hbody as (known & gd & _ & Hbody).
      destruct known as [sm |].
      + apply bind_Ok_inv in Hbody as ([] & ge & _ & Hbody).
        injection Hbody as <- <-.
        destruct sm; [by apply elem_of_union_l | done].
      + apply bind_Ok_inv in Hbody as (sm & ge & _ & Hbody).
        apply bind_Ok_inv in Hbody as (sm' & gf & _ & Hbody).
        apply bind_Ok_inv in Hbody as ([] & gh & _ & Hbody).
        destruct sm' as [x' |].
        * apply bind_Ok_inv in Hbody as ([] & gi & _ & Hbody).
          injection Hbody as <- <-. by apply elem_of_union_l.
        * by injection Hbody as <- <-.
    - by apply elem_of_singleton. }
  split.
  - intros He. rewrite He in Hm. by apply not_elem_of_empty in Hm.
  - unfold pop. destruct (elements subs) as [| x l] eqn:E.
    + apply elements_empty_inv in E. apply leibniz_equiv in E.
      rewrite E in Hm. by apply not_elem_of_empty in Hm.
    + exists x, g'. split; [done |].
      apply elem_of_elements. rewrite E. apply elem_of_cons. by left.
Qed.

(* ===================================================================== *)
(** ** Modules without code *)
(* ===================================================================== *)

(** [load_module] for a unit that has no code (a builtin, an extension, a
    namespace package): the node is made and nothing is scanned. *)
Lemma load_module_no_code (host : Host) (f : nat) (g : ModuleGraph)
    (fqname : string) (fp : option file) (pathname : option string)
    (stuff : string * string * modtype) (c : NodeClass)
    (pp : option (list string)) :
  wf g -> nodes g !! fqname = None -> lazynodes g !! fqname = None ->
  snd stuff <> PKG_DIRECTORY -> c <> AliasNode ->
  Methods.unit_of host fqname fp pathname (snd stuff) g = Ok (c, None, pp) g ->
  exists n g',
    load_module host (S (S f)) fqname fp pathname stuff g = Ok fqname g'
    /\ nodes g' !! fqname = Some n
    /\ cls n = c /\ identifier n = fqname /\ filename n = pathname
    /\ code_handle n = None /\ packagepath n = pp
    /\ (forall i, i <> fqname -> nodes g' !! i = nodes g !! i)
    /\ edges g' = edges g /\ lazynodes g' = lazynodes g.
Proof.
  intros Hwf Hn Hl Htyp Hc Hunit.
  destruct (createNode_fresh host f c fqname g) as
    (n & g1 & E & Hnodes & Hcl & _ & Hid & Hco & Hpp & He & Hlz & _);
    [done | done | done | done |].
  set (ga := with_nodes (alter (set_filename pathname) fqname (nodes g1)) g1).
  set (gb := match pp with
             | Some p => with_nodes (alter (set_packagepath (Some p)) fqname
                                       (nodes ga)) ga
             | None => ga
             end).
  set (n' := match pp with
             | Some p => set_packagepath (Some p) (set_filename pathname n)
             | None => set_filename pathname n
             end).
  exists n', gb.
  assert (load_module host (S (S f)) fqname fp pathname stuff g = Ok fqname gb)
    as Hrun.
  { change (load_module host (S (S f)) fqname fp pathname stuff)
      with (Methods.load_module host (bound host (S f)) fqname fp pathname
              stuff).
    unfold Methods.load_module.
    destruct (snd stuff) eqn:Et; try done;
      (step ltac:(exact Hunit); cbn [fst snd];
       step ltac:(exact E);
       step ltac:(reflexivity); fold ga;
       step ltac:(reflexivity);
       subst gb; destruct pp; [by step ltac:(reflexivity) | done]). }
  split; [exact Hrun |].
  assert (nodes gb !! fqname = Some n') as Hb.
  { subst gb n' ga. destruct pp; simpl;
      rewrite ?lookup_alter_eq, Hnodes, lookup_insert_eq; done. }
  split; [exact Hb |].
  assert (forall i, i <> fqname -> nodes gb !! i = nodes g !! i) as Hothers.
  { intros i Hi. subst gb ga. destruct pp; simpl;
      rewrite ?lookup_alter_ne by done; rewrite Hnodes;
      by rewrite lookup_insert_ne. }
  subst n'. destruct pp; simpl;
    repeat match goal with |- _ /\ _ => split end; try done;
    subst gb ga; simpl; done.
Qed.

Section FromTopLevel.

Variable host : Host.
Variable g : ModuleGraph.
Variables (m : string) (mn : Node) (name : string).
Hypothesis g_wf : wf g.
Hypothesis m_node : nodes g !! m = Some mn.
Hypothesis m_module : path_true (packagepath mn) = false.
Hypothesis m_top : Str.has_dot (identifier mn) = false.
Hypothesis name_plain : Str.has_dot name = false.
Hypothesis name_new : nodes g !! name = None.
Hypothesis name_not_lazy : lazynodes g !! name = None.

(** The import of an undotted name by a top-level module, once
    [find_module] has found a unit without code for it. *)
Lemma import_hook_no_code (k : nat) (fp : option file)
    (pathname : option string) (stuff : string * string * modtype)
    (c : NodeClass) (pp : option (list string)) :
  find_module host (S (S k)) name None None g = Ok (fp, pathname, stuff) g ->
  snd stuff <> PKG_DIRECTORY -> c <> AliasNode ->
  Methods.unit_of host name fp pathname (snd stuff) g = Ok (c, None, pp) g ->
  exists n g',
    import_hook host (S (S (S (S (S k))))) name (Some m) None (-1) g
    = Ok {[name]} g'
    /\ nodes g' !! name = Some n
    /\ cls n = c /\ identifier n = name /\ filename n = pathname
    /\ code_handle n = None /\ packagepath n = pp
    /\ (forall i, i <> name -> nodes g' !! i = nodes g !! i)
    /\ edges g' = edges g ∪ {[(Some m, name, "direct")]}.
Proof.
  intros Hfind Htyp Hc Hunit.
  destruct (load_module_no_code host k g name fp pathname stuff c pp)
    as (n & g1 & Eload & Hn1 & Hcl & Hid & Hfn & Hco & Hpp & Hothers & He & _);
    try done.
  exists n, (linked (Some m) name g1).
  split; [| by repeat match goal with |- _ /\ _ => split end; try done;
               simpl; rewrite He].
  assert (import_module host (S (S (S k))) name name None g = Ok (Some name) g1)
    as Ei.
  { change (import_module host (S (S (S k))) name name None)
      with (Methods.import_module (bound host (S (S k))) name name None).
    unfold Methods.import_module.
    step ltac:(by apply (findNode_absent host (S k))).
    step ltac:(reflexivity). cbn [mjoin].
    step ltac:(by apply try_Ok, Hfind). cbn [fst snd].
    step ltac:(exact Eload).
    step ltac:(reflexivity). done. }
  change (import_hook host (S (S (S (S (S k))))) name (Some m) None (-1))
    with (Methods.import_hook (bound host (S (S (S (S k))))) name (Some m)
            None (-1)).
  unfold Methods.import_hook.
  step ltac:(by apply (determine_parent_top host g m mn)).
  assert (find_head_package host (S (S (S (S k)))) None name g
          = Ok (name, "") g1) as Eh.
  { change (find_head_package host (S (S (S (S k)))) None name)
      with (Methods.find_head_package (bound host (S (S (S k)))) None name).
    unfold Methods.find_head_package. rewrite (cut_no_dot name name_plain).
    cbn [fst snd default].
    step ltac:(reflexivity).
    step ltac:(exact Ei). done. }
  step ltac:(exact Eh). cbn [fst snd].
  step ltac:(reflexivity).
  step ltac:(unfold node; by rewrite Hn1).
  step ltac:(reflexivity).
  rewrite (right_id_L ∅ (∪)), elements_singleton. cbn [forM_].
  step ltac:(reflexivity). done.
Qed.

End FromTopLevel.

(** A top-level module imports a name of [sys.builtin_module_names]: the
    name resolves to a [BuiltinModule] node without file and without code,
    linked from the importer, whatever is on the search path under that
    name. *)
Theorem import_builtin (host : Host) (fuel : nat) (g : ModuleGraph)
    (m name : string) (mn : Node) :
  wf g ->
  nodes g !! m = Some mn ->
  path_true (packagepath mn) = false ->
  Str.has_dot (identifier mn) = false ->
  Str.has_dot name = false ->
  name ∈ builtin_module_names host ->
  nodes g !! name = None ->
  lazynodes g !! name = None ->
  (5 <= fuel)%nat ->
  exists n g',
    import_hook host fuel name (Some m) None (-1) g = Ok {[name]} g'
    /\ nodes g' !! name = Some n
    /\ cls n = BuiltinModule /\ filename n = None /\ code_handle n = None
    /\ packagepath n = None
    /\ (forall i, i <> name -> nodes g' !! i = nodes g !! i)
    /\ edges g' = edges g ∪ {[(Some m, name, "direct")]}.
Proof.
  intros Hwf Hm Hmod Htop Hplain Hbi Hn Hl Hfuel.
  destruct (import_hook_no_code host g m mn name Hwf Hm Hmod Htop Hplain Hn Hl
              0 None None ("", "", C_BUILTIN) BuiltinModule None)
    as (n & g' & E & Hn' & Hcl & _ & Hfn & Hco & Hpp & Hothers & He);
    try done.
  - change (find_module host 2 name None None)
      with (Methods.find_module host (bound host 1) name None None).
    unfold Methods.find_module.
    step ltac:(reflexivity).
    step ltac:(by apply (findNode_absent host 0)).
    unfold Methods.locate. by rewrite (bool_decide_eq_true_2 _ Hbi).
  - exists n, g'. split; [| done].
    by apply (more_fuel host 5 fuel (ImportHook name (Some m) None (-1)) g _
                Hfuel E).
Qed.

(** A top-level module imports a name that [imp.find_module] finds as an
    extension module: the name resolves to an [Extension] node with the real
    path of the file and without code, linked from the importer. *)
Theorem import_extension (host : Host) (fuel : nat) (g : ModuleGraph)
    (m name : string) (mn : Node) (fp : option file) (buf suffix mode : string) :
  wf g ->
  nodes g !! m = Some mn ->
  path_true (packagepath mn) = false ->
  Str.has_dot (identifier mn) = false ->
  Str.has_dot name = false ->
  name ∉ builtin_module_names host ->
  imp_find_module host name (path g) = Some (fp, buf, (suffix, mode, C_EXTENSION)) ->
  nodes g !! name = None ->
  lazynodes g !! name = None ->
  (5 <= fuel)%nat ->
  exists n g',
    import_hook host fuel name (Some m) None (-1) g = Ok {[name]} g'
    /\ nodes g' !! name = Some n
    /\ cls n = Extension /\ filename n = Some (location host buf)
    /\ code_handle n = None /\ packagepath n = None
    /\ (forall i, i <> name -> nodes g' !! i = nodes g !! i)
    /\ edges g' = edges g ∪ {[(Some m, name, "direct")]}.
Proof.
  intros Hwf Hm Hmod Htop Hplain Hbi Hfound Hn Hl Hfuel.
  destruct (import_hook_no_code host g m mn name Hwf Hm Hmod Htop Hplain Hn Hl
              0 fp (Some (location host buf)) (suffix, mode, C_EXTENSION)
              Extension None)
    as (n & g' & E & Hn' & Hcl & _ & Hfn & Hco & Hpp & Hothers & He);
    try done.
  - change (find_module host 2 name None None)
      with (Methods.find_module host (bound host 1) name None None).
    unfold Methods.find_module.
    step ltac:(reflexivity).
    step ltac:(by apply (findNode_absent host 0)).
    unfold Methods.locate. rewrite (bool_decide_eq_false_2 _ Hbi).
    by rewrite Hfound.
  - exists n, g'. split; [| done].
    by apply (more_fuel host 5 fuel (ImportHook name (Some m) None (-1)) g _
                Hfuel E).
Qed.

(** A top-level module imports a name that [imp.find_module] does not
    find but that the host has loaded as a namespace package (an entry of
    [sys.modules] without [__file__] and with a non-empty [__path__]): the
    name resolves to a [NamespaceModule] node whose package path is that
    [__path__]. *)
Theorem import_namespace_package (host : Host) (fuel : nat) (g : ModuleGraph)
    (m name : string) (mn : Node) (sm : sysmodule) (dirs : list string) :
  wf g ->
  nodes g !! m = Some mn ->
  path_true (packagepath mn) = false ->
  Str.has_dot (identifier mn) = false ->
  Str.has_dot name = false ->
  name ∉ builtin_module_names host ->
  imp_find_module host name (path g) = None ->
  sys_modules host name = Some sm ->
  Str.nonempty (default "" (mod_file sm)) = false ->
  mod_path sm = Some dirs ->
  dirs <> [] ->
  nodes g !! name = None ->
  lazynodes g !! name = None ->
  (5 <= fuel)%nat ->
  exists n g',
    import_hook host fuel name (Some m) None (-1) g = Ok {[name]} g'
    /\ nodes g' !! name = Some n
    /\ cls n = NamespaceModule /\ filename n = None /\ code_handle n = None
    /\ packagepath n = Some dirs
    /\ (forall i, i <> name -> nodes g' !! i = nodes g !! i)
    /\ edges g' = edges g ∪ {[(Some m, name, "direct")]}.
Proof.
  intros Hwf Hm Hmod Htop Hplain Hbi Hnone Hsm Hfile Hpath Hdirs Hn Hl Hfuel.
  destruct (import_hook_no_code host g m mn name Hwf Hm Hmod Htop Hplain Hn Hl
              0 None None ("", "", NAMESPACE) NamespaceModule (Some dirs))
    as (n & g' & E & Hn' & Hcl & _ & Hfn & Hco & Hpp & Hothers & He);
    try done.
  - change (find_module host 2 name None None)
      with (Methods.find_module host (bound host 1) name None None).
    unfold Methods.find_module.
    step ltac:(reflexivity).
    step ltac:(by apply (findNode_absent host 0)).
    unfold Methods.locate. rewrite (bool_decide_eq_false_2 _ Hbi).
    rewrite Hnone, Hsm, Hfile, Hpath. by destruct dirs.
  - unfold Methods.unit_of. cbn [snd]. by rewrite Hsm, Hpath.
  - exists n, g'. split; [| done].
    by apply (more_fuel host 5 fuel (ImportHook name (Some m) None (-1)) g _
                Hfuel E).
Qed.

(* ===================================================================== *)
(** ** Failures and parents *)
(* ===================================================================== *)

(** A module that is not a package ([packagepath] is [None]) has no
    submodules to load: [import_module] under it returns [None] for a name
    the graph does not know, without looking at the file system, and
    [load_tail] turns that into the [ImportError] of the dotted name. *)
Theorem submodule_of_plain_module (host : Host) (f : nat) (g : ModuleGraph)
    (q tail : string) (qn : Node) :
  nodes g !! q = Some qn ->
  packagepath qn = None ->
  Str.nonempty tail = true ->
  nodes g !! qualify (identifier qn) (fst (Str.cut tail)) = None ->
  lazynodes g !! qualify (identifier qn) (fst (Str.cut tail)) = None ->
  import_module host (S (S f)) (fst (Str.cut tail))
    (qualify (identifier qn) (fst (Str.cut tail))) (Some q) g = Ok None g
  /\ load_tail host (S (S (S f))) q tail g
     = Raise (ImportError ("No module named "
                           +:+ qualify (identifier qn) (fst (Str.cut tail)))) g.
Proof.
  intros Hq Hpp Htail Hn Hl.
  set (head := fst (Str.cut tail)) in *.
  set (mname := qualify (identifier qn) head) in *.
  assert (forall k, import_module host (S (S k)) head mname (Some q) g
                    = Ok None g) as Ei.
  { intros k.
    change (import_module host (S (S k)) head mname (Some q))
      with (Methods.import_module (bound host (S k)) head mname (Some q)).
    unfold Methods.import_module.
    step ltac:(by apply (findNode_absent host k)).
    rewrite bind_bind. step ltac:(unfold node; by rewrite Hq).
    step ltac:(reflexivity). by rewrite Hpp. }
  split; [apply Ei |].
  change (load_tail host (S (S (S f))) q tail)
    with (Methods.load_tail (bound host (S (S f))) q tail).
  unfold Methods.load_tail. rewrite Htail.
  step ltac:(unfold node; by rewrite Hq).
  fold head. fold mname.
  step ltac:(apply (Ei f)). done.
Qed.

(** [find_module] refuses a name that already has a node: it raises
    [ImportError] with the part name as its message, and does not look for
    the module. *)
Theorem find_module_already_included (host : Host) (f : nat) (g : ModuleGraph)
    (name : string) (search : option (list string)) (parent : option string)
    (fullname : string) (n : Node) :
  match parent with
  | Some p => exists pn, nodes g !! p = Some pn
                         /\ fullname = qualify (identifier pn) name
  | None => fullname = name
  end ->
  nodes g !! fullname = Some n ->
  find_module host (S (S f)) name search parent g
  = Raise (ImportError name) g.
Proof.
  intros Hp Hn.
  change (find_module host (S (S f)) name search parent)
    with (Methods.find_module host (bound host (S f)) name search parent).
  unfold Methods.find_module.
  destruct parent as [p |].
  - destruct Hp as (pn & Hpn & ->).
    rewrite bind_bind. step ltac:(unfold node; by rewrite Hpn).
    step ltac:(reflexivity).
    step ltac:(by apply (findNode_existing host f g _ n)). done.
  - subst fullname. step ltac:(reflexivity).
    step ltac:(by apply (findNode_existing host f g _ n)). done.
Qed.

(** A relative import without a module name ([from . import y], [from ..
    import y]) is resolved by [scan_code] through [determine_parent], outside
    the wrapper that catches [ImportError]: when its level exceeds the package
    nesting depth of the unit, the scan of the unit ends with [ImportError]
    "relative importpath too deep". *)
Theorem relative_import_of_package_too_deep (host : Host) (f : nat)
    (g : ModuleGraph) (co : code) (m : string) (mn : Node) (level : Z)
    (fromlist : const) (rest : list event) (err : option exn) :
  nodes g !! m = Some mn ->
  (nesting_depth mn < level)%Z ->
  Decoder.scanner (opcodes host) (version_info host) co
  = (RelativeImport (CInt level) fromlist "" :: rest, err) ->
  (fromlist = CNone \/ exists l, fromlist = CNames l) ->
  scan_code host (S (S f)) co m g
  = Raise (ImportError "relative importpath too deep") g.
Proof.
  intros Hm Hd Hscan Hfl.
  change (scan_code host (S (S f)) co m)
    with (Methods.scan_code host (bound host (S f)) co m).
  unfold Methods.scan_code. rewrite Hscan. cbn [fst snd forM_].
  rewrite bind_bind. apply bind_Raise.
  unfold Methods.scan_event.
  step ltac:(reflexivity).
  assert (exists fl, Methods.as_fromlist fromlist g = Ok fl g) as (fl & Efl).
  { destruct Hfl as [-> | (l & ->)]; by eexists. }
  step ltac:(exact Efl). cbn [Str.nonempty].
  apply bind_Raise.
  by apply (determine_parent_too_deep host f g m mn level).
Qed.

(** [run_script] for a file that cannot be read: the exception of the
    host's [compile] escapes, and the graph is as it was; no node has been
    made for the path. *)
Theorem run_script_unreadable (host : Host) (f : nat) (g : ModuleGraph)
    (pathname : string) (caller : option string) :
  nodes g !! realpath host pathname = None ->
  lazynodes g !! realpath host pathname = None ->
  compile_file host (realpath host pathname) = None ->
  run_script host (S (S f)) pathname caller g
  = Raise (IOError (realpath host pathname)) g.
Proof.
  intros Hn Hl Hc.
  change (run_script host (S (S f)) pathname caller)
    with (Methods.run_script host (bound host (S f)) pathname caller).
  unfold Methods.run_script.
  step ltac:(by apply (findNode_absent host f)).
  apply bind_Raise. unfold Methods.compile. by rewrite Hc.
Qed.

(** For a package, the parent of its own imports is the package itself:
    with the implicit level of Python 2 ([-1]) and with level 1 (a relative
    import [from . import x]), [determine_parent] returns the caller. *)
Theorem determine_parent_of_package (host : Host) (f : nat) (g : ModuleGraph)
    (c : string) (cn : Node) (level : Z) :
  nodes g !! c = Some cn ->
  identifier cn = c ->
  path_true (packagepath cn) = true ->
  level = (-1)%Z \/ level = 1%Z ->
  determine_parent host (S (S f)) (Some c) level g = Ok (Some c) g.
Proof.
  intros Hc Hid Hpp Hlevel.
  change (determine_parent host (S (S f)) (Some c) level)
    with (Methods.determine_parent (bound host (S f)) (Some c) level).
  unfold Methods.determine_parent.
  assert (findNode host (S f) c g = Ok (Some c) g) as Ef
    by (by apply (findNode_existing host f g c cn)).
  destruct Hlevel as [-> | ->]; cbn [Z.eqb].
  - step ltac:(unfold node; by rewrite Hc).
    cbn [Z.leb Z.compare]. rewrite Hpp, Hid.
    step ltac:(exact Ef).
    rewrite bool_decide_eq_true_2 by done. done.
  - step ltac:(unfold node; by rewrite Hc).
    rewrite Hpp, Hid.
    change (1 <=? 1)%Z with true. change (1 - 1 =? 0)%Z with true.
    cbv beta iota.
    step ltac:(exact Ef).
    rewrite bool_decide_eq_true_2 by done. done.
Qed.

(* ===================================================================== *)
(** ** Loading a package *)
(* ===================================================================== *)

Section LoadPackage.

Variable host : Host.
Variables (fqname pathname initpath s3 s4 : string) (fl : file).
Variable names : list event.
Variable g : ModuleGraph.

Hypothesis g_wf : wf g.
Hypothesis target_new : nodes g !! package_name host fqname = None.
Hypothesis target_not_lazy : lazynodes g !! package_name host fqname = None.
Hypothesis target_not_init : package_name host fqname <> "__init__".
Hypothesis init_new : nodes g !! "__init__" = None.
Hypothesis init_not_lazy : lazynodes g !! "__init__" = None.
Hypothesis no_rewrite : replace_paths g = [].
Hypothesis init_found :
  imp_find_module host "__init__"
    (package_path host (package_name host fqname) pathname)
  = Some (Some fl, initpath, (s3, s4, PY_SOURCE)).
Hypothesis init_events :
  Decoder.scanner (opcodes host) (version_info host) (unit_code fl)
  = (names, None).
Hypothesis init_stores : stores_only names.
Hypothesis init_flat : no_nested_code (unit_code fl).

Lemma load_package_general (k : nat) :
  exists pn g',
    load_package host (S (S (S k))) fqname (Some pathname) g
    = Ok (package_name host fqname) g'
    /\ nodes g' !! package_name host fqname = Some pn
    /\ cls pn = Package /\ identifier pn = package_name host fqname
    /\ filename pn = Some (location host initpath)
    /\ packagepath pn
       = Some (package_path host (package_name host fqname) pathname)
    /\ code_handle pn = Some (unit_code fl)
    /\ (forall name, Store name ∈ names -> name ∈ set_at (globalnames pn) g')
    /\ (forall i, i <> package_name host fqname ->
          nodes g' !! i = nodes g !! i)
    /\ edges g' = edges g.
Proof.
  set (target := package_name host fqname) in *.
  set (dirs := package_path host target pathname) in *.
  destruct (createNode_fresh host (S k) Package target g) as
    (n & g1 & E & Hnodes & Hcl & _ & Hid & _ & _ & He & Hlz & _ & _ & _ & Hrp);
    [done | done | done | done |].
  set (ga := with_nodes (alter (set_filename (Some pathname)) target (nodes g1))
               g1).
  set (gb := with_nodes (alter (set_packagepath (Some dirs)) target (nodes ga))
               ga).
  set (gc := with_nodes (alter (set_filename (Some (location host initpath)))
                           target (nodes gb)) gb).
  set (gd := with_nodes (alter (set_code (Some (unit_code fl))) target
                           (nodes gc)) gc).
  set (nb := set_packagepath (Some dirs) (set_filename (Some pathname) n)).
  set (nd := set_code (Some (unit_code fl))
               (set_filename (Some (location host initpath)) nb)).
  assert (nodes gb !! target = Some nb) as Hb.
  { subst gb ga. simpl. rewrite !lookup_alter_eq, Hnodes.
    by rewrite lookup_insert_eq. }
  assert (nodes gd !! target = Some nd) as Hd.
  { subst gd gc gb ga. simpl. rewrite !lookup_alter_eq, Hnodes.
    by rewrite lookup_insert_eq. }
  assert (forall i, i <> target -> nodes gd !! i = nodes g !! i) as Hothers.
  { intros i Hi. subst gd gc gb ga. simpl. rewrite !lookup_alter_ne by done.
    rewrite Hnodes. by rewrite lookup_insert_ne. }
  destruct (forM_stores (bound host k) target names gd nd Hd init_stores)
    as (g' & Est & Hn' & He' & _ & Hin).
  exists nd, g'.
  split; [| rewrite Hn', He'; subst gd gc gb ga; simpl;
            by repeat match goal with |- _ /\ _ => split end].
  assert (load_module host (S (S k)) target (Some fl)
            (Some (location host initpath)) (s3, s4, PY_SOURCE) gb
          = Ok target g') as El.
  { change (load_module host (S (S k)) target (Some fl)
              (Some (location host initpath)) (s3, s4, PY_SOURCE))
      with (Methods.load_module host (bound host (S k)) target (Some fl)
              (Some (location host initpath)) (s3, s4, PY_SOURCE)).
    unfold Methods.load_module. cbn [snd].
    step ltac:(reflexivity). cbn [fst snd].
    step ltac:(by apply (createNode_existing host k gb SourceModule target
                           None nb)).
    step ltac:(reflexivity). fold gc.
    assert (replace_paths gc = []) as Hrpc
      by (subst gc gb ga; simpl; by rewrite Hrp).
    rewrite bind_bind.
    step ltac:(unfold Methods.replaced; by rewrite Hrpc).
    rewrite bind_bind.
    step ltac:(reflexivity). fold gd.
    assert (scan_code host (S k) (unit_code fl) target gd = Ok tt g') as Es.
    { change (scan_code host (S k) (unit_code fl) target)
        with (Methods.scan_code host (bound host k) (unit_code fl) target).
      unfold Methods.scan_code. rewrite init_events. cbn [fst snd].
      step ltac:(exact Est).
      step ltac:(reflexivity).
      by apply forM_no_nested. }
    step ltac:(exact Es).
    step ltac:(reflexivity). done. }
  change (load_package host (S (S (S k))) fqname (Some pathname))
    with (Methods.load_package host (bound host (S (S k))) fqname
            (Some pathname)).
  unfold Methods.load_package. fold (package_name host fqname). fold target.
  cbv zeta.
  step ltac:(exact E).
  step ltac:(reflexivity). fold ga.
  fold (package_path host target pathname). fold dirs.
  step ltac:(reflexivity). fold gb.
  step ltac:(unfold node; by rewrite Hb).
  assert (find_module host (S (S k)) "__init__" (Some dirs) None gb
          = Ok (Some fl, Some (location host initpath), (s3, s4, PY_SOURCE)) gb)
    as Ef.
  { change (find_module host (S (S k)) "__init__" (Some dirs) None)
      with (Methods.find_module host (bound host (S k)) "__init__"
              (Some dirs) None).
    unfold Methods.find_module.
    step ltac:(reflexivity).
    step ltac:(apply (findNode_absent host k);
               [subst gb ga; simpl; rewrite !lookup_alter_ne by done;
                rewrite Hnodes; by rewrite lookup_insert_ne
               | subst gb ga; simpl; by rewrite Hlz]).
    unfold Methods.locate. by rewrite init_found. }
  change (packagepath nb) with (Some dirs).
  step ltac:(exact Ef). cbn [fst snd].
  step ltac:(exact El). done.
Qed.

End LoadPackage.

(** [load_package] for a directory whose [__init__] is a source file that
    only binds names: the package is one node, of class [Package], under the
    name [replacePackageMap] gives it; its package path is the directory
    followed by the directories registered in [packagePathMap] (or those
    alone, when the directory is among them); its file and its code are those
    of the initializer, whose names are its global names. *)
Theorem load_package_node (host : Host) (fuel : nat) (g : ModuleGraph)
    (fqname pathname initpath s3 s4 : string) (fl : file)
    (names : list event) :
  wf g ->
  nodes g !! package_name host fqname = None ->
  lazynodes g !! package_name host fqname = None ->
  package_name host fqname <> "__init__" ->
  nodes g !! "__init__" = None ->
  lazynodes g !! "__init__" = None ->
  replace_paths g = [] ->
  imp_find_module host "__init__"
    (package_path host (package_name host fqname) pathname)
  = Some (Some fl, initpath, (s3, s4, PY_SOURCE)) ->
  Decoder.scanner (opcodes host) (version_info host) (unit_code fl)
  = (names, None) ->
  stores_only names ->
  no_nested_code (unit_code fl) ->
  (3 <= fuel)%nat ->
  exists pn g',
    load_package host fuel fqname (Some pathname) g
    = Ok (package_name host fqname) g'
    /\ nodes g' !! package_name host fqname = Some pn
    /\ cls pn = Package /\ identifier pn = package_name host fqname
    /\ filename pn = Some (location host initpath)
    /\ packagepath pn
       = Some (package_path host (package_name host fqname) pathname)
    /\ code_handle pn = Some (unit_code fl)
    /\ (forall name, Store name ∈ names -> name ∈ set_at (globalnames pn) g')
    /\ (forall i, i <> package_name host fqname ->
          nodes g' !! i = nodes g !! i)
    /\ edges g' = edges g.
Proof.
  intros Hwf Hn Hl Hni Hin Hil Hrp Hfound Hev Hst Hflat Hfuel.
  destruct (load_package_general host fqname pathname initpath s3 s4 fl names g
              Hwf Hn Hl Hni Hin Hil Hrp Hfound Hev Hst Hflat 0)
    as (pn & g' & E & H).
  exists pn, g'. split; [| exact H].
  by apply (more_fuel host 3 fuel (LoadPackage fqname (Some pathname)) g _
              Hfuel E).
Qed.

(** [AddPackagePath(pkg, extra)] and [load_package]: [AddPackagePath]
    appends [extra] to the directories registered for [pkg].  A package
    loaded afterwards, whose node gets the name [target]
    ([replacePackageMap] applied), has as its package path the directories
    registered for [target], when its own directory is among them, and else
    its own directory followed by them.  So the package path ends with
    [extra] when [target] is [pkg]; for a package that is renamed to another
    name, or for another package, [extra] is not used. *)
Theorem AddPackagePath_honoured (host : Host) (fuel : nat) (g : ModuleGraph)
    (fqname pkg pathname extra initpath s3 s4 : string) (fl : file)
    (names : list event) :
  let target := package_name host fqname in
  let registered := default [] (packagePathMap host !! target) in
  let additions :=
    if bool_decide (target = pkg) then (registered ++ [extra])%list
    else registered in
  let dirs :=
    if bool_decide (pathname ∈ additions) then additions
    else pathname :: additions in
  wf g ->
  nodes g !! target = None -> lazynodes g !! target = None ->
  target <> "__init__" ->
  nodes g !! "__init__" = None -> lazynodes g !! "__init__" = None ->
  replace_paths g = [] ->
  imp_find_module host "__init__" dirs
  = Some (Some fl, initpath, (s3, s4, PY_SOURCE)) ->
  Decoder.scanner (opcodes host) (version_info host) (unit_code fl)
  = (names, None) ->
  stores_only names ->
  no_nested_code (unit_code fl) ->
  (3 <= fuel)%nat ->
  exists pn g',
    load_package (AddPackagePath pkg extra host) fuel fqname (Some pathname) g
    = Ok target g'
    /\ nodes g' !! target = Some pn
    /\ packagepath pn = Some dirs.
Proof.
  intros target registered additions dirs Hwf Hn Hl Hni Hin Hil Hrp Hfound Hev
    Hst Hflat Hfuel.
  set (host' := AddPackagePath pkg extra host).
  assert (package_name host' fqname = target) as Hname by done.
  assert (package_path host' target pathname = dirs) as Hpath.
  { unfold package_path. subst host' dirs additions registered. simpl.
    destruct (decide (target = pkg)) as [-> | Hne].
    - rewrite lookup_insert_eq.
      by rewrite (bool_decide_eq_true_2 (pkg = pkg)) by done.
    - rewrite lookup_insert_ne by done.
      by rewrite (bool_decide_eq_false_2 (target = pkg)) by done. }
  destruct (load_package_general host' fqname pathname initpath s3 s4 fl names g)
    with (k := 0%nat)
    as (pn & g' & E & Hpn & _ & _ & _ & Hpp & _); rewrite ?Hname, ?Hpath;
    try done.
  rewrite Hname in E, Hpn. rewrite Hname, Hpath in Hpp.
  exists pn, g'. split; [| done].
  by apply (more_fuel host' 3 fuel (LoadPackage fqname (Some pathname)) g _
              Hfuel E).
Qed.

(** [ReplacePackage(oldname, newname)] is honoured by [load_package]: the
    package found as [oldname] becomes the node [newname], and no node is
    made under [oldname]. *)
Theorem ReplacePackage_honoured (host : Host) (fuel : nat) (g : ModuleGraph)
    (oldname newname pathname initpath s3 s4 : string) (fl : file)
    (names : list event) :
  Str.nonempty newname = true ->
  oldname <> newname ->
  wf g ->
  nodes g !! newname = None -> lazynodes g !! newname = None ->
  newname <> "__init__" ->
  nodes g !! "__init__" = None -> lazynodes g !! "__init__" = None ->
  replace_paths g = [] ->
  imp_find_module host "__init__" (package_path host newname pathname)
  = Some (Some fl, initpath, (s3, s4, PY_SOURCE)) ->
  Decoder.scanner (opcodes host) (version_info host) (unit_code fl)
  = (names, None) ->
  stores_only names ->
  no_nested_code (unit_code fl) ->
  (3 <= fuel)%nat ->
  exists pn g',
    load_package (ReplacePackage oldname newname host) fuel oldname
      (Some pathname) g
    = Ok newname g'
    /\ nodes g' !! newname = Some pn
    /\ cls pn = Package /\ identifier pn = newname
    /\ nodes g' !! oldname = nodes g !! oldname.
Proof.
  intros Hnew Hne Hwf Hn Hl Hni Hin Hil Hrp Hfound Hev Hst Hflat Hfuel.
  set (host' := ReplacePackage oldname newname host).
  assert (package_name host' oldname = newname) as Hname.
  { unfold package_name. subst host'. simpl. rewrite lookup_insert_eq.
    by rewrite Hnew. }
  assert (package_path host' newname pathname
          = package_path host newname pathname) as Hpath by done.
  destruct (load_package_general host' oldname pathname initpath s3 s4 fl names
              g)
    with (k := 0%nat)
    as (pn & g' & E & Hpn & Hcl & Hid & _ & _ & _ & _ & Hothers & _);
    rewrite ?Hname, ?Hpath; try done.
  rewrite Hname in E, Hpn, Hid, Hothers.
  exists pn, g'. split; [| by rewrite (Hothers oldname Hne)].
  by apply (more_fuel host' 3 fuel (LoadPackage oldname (Some pathname)) g _
              Hfuel E).
Qed.

Lemma foldl_insert_notin (l : list (string * lazy)) (init : gmap string lazy)
    (name : string) :
  name ∉ l.*1 ->
  foldl (fun acc kv => <[fst kv := snd kv]> acc) init l !! name = init !! name.
Proof.
  revert init. induction l as [| [k v] l IH]; intros init H; [done |].
  cbn [foldl fst snd]. rewrite IH.
  - apply lookup_insert_ne. intros ->. apply H. simpl. apply elem_of_cons.
    by left.
  - intros Hin. apply H. simpl. apply elem_of_cons. by right.
Qed.

Lemma foldl_insert_in (l : list (string * lazy)) (init : gmap string lazy)
    (name : string) (d : lazy) :
  NoDup l.*1 -> (name, d) ∈ l ->
  foldl (fun acc kv => <[fst kv := snd kv]> acc) init l !! name = Some d.
Proof.
  revert init. induction l as [| [k v] l IH]; intros init Hnd Hin.
  - by apply elem_of_nil in Hin.
  - simpl in Hnd. apply NoDup_cons in Hnd as [Hk Hnd].
    cbn [foldl fst snd]. apply elem_of_cons in Hin as [[= <- <-] | Hin].
    + rewrite foldl_insert_notin by done. apply lookup_insert_eq.
    + by apply IH.
Qed.

(** [ModuleGraph(path, excludes, replace_paths, implies)]: the graph starts
    without nodes and edges; its search path is [path], or [sys.path] when
    none is given, and its rewriting rules are [replace_paths]; a name of
    [implies] that is not excluded is registered with what [implies] gives
    for it (the keys of [implies] being distinct), and a name that is in
    neither list is not registered. *)
Theorem ModuleGraph_init_registry (sys_path : list string)
    (given : option (list string)) (excludes : list string)
    (rules : list (string * string)) (implies : list (string * lazy))
    (name : string) :
  let g := ModuleGraph_init sys_path given excludes rules implies in
  nodes g = ∅ /\ edges g = ∅
  /\ path g = default sys_path given /\ replace_paths g = rules
  /\ (name ∉ excludes -> name ∉ implies.*1 -> lazynodes g !! name = None)
  /\ (name ∉ excludes -> NoDup implies.*1 ->
      forall d, (name, d) ∈ implies -> lazynodes g !! name = Some d).
Proof.
  intros g. split; [done |]. split; [done |]. split; [done |].
  split; [done |].
  subst g. cbn [lazynodes ModuleGraph_init]. split.
  - intros He Hi. rewrite excludes_registered.
    rewrite bool_decide_eq_false_2 by done.
    by rewrite foldl_insert_notin.
  - intros He Hnd d Hd. rewrite excludes_registered.
    rewrite bool_decide_eq_false_2 by done.
    by apply foldl_insert_in.
Qed.

Lemma moduleInfo_not_None host suffixes p x :
  Methods.moduleInfo host suffixes p = Some x ->
  exists ext mode typ,
    (ext, mode, typ) ∈ suffixes /\ Str.endswith ext p = true
    /\ x = Str.strip_suffix ext (basename host p).
Proof.
  induction suffixes as [| [[ext mode] typ] r IH]; [done |].
  cbn [Methods.moduleInfo]. destruct (Str.endswith ext p) eqn:E.
  - intros [= <-]. exists ext, mode, typ. split; [| done].
    apply elem_of_cons. by left.
  - intros H. destruct (IH H) as (e & mo & t & Hin & He & Hx).
    exists e, mo, t. split; [| done]. apply elem_of_cons. by right.
Qed.

(** [find_all_submodules] reads the graph and the directories only; it
    yields nothing for a module without package path; it never yields
    [__init__]; and every name it yields is the module name, by one of the
    host's suffixes, of an entry of a directory of the package path. *)
Theorem find_all_submodules_names (host : Host) (m : string)
    (g g' : ModuleGraph) (mn : Node) (names : list string) :
  nodes g !! m = Some mn ->
  Methods.find_all_submodules host m g = Ok names g' ->
  g' = g
  /\ (path_true (packagepath mn) = false -> names = [])
  /\ ("__init__" ∉ names)
  /\ forall x, x ∈ names ->
       exists dir entries entry ext mode typ,
         dir ∈ default [] (packagepath mn)
         /\ listdir host dir = Some entries /\ entry ∈ entries
         /\ (ext, mode, typ) ∈ imp_get_suffixes host
         /\ Str.endswith ext entry = true
         /\ x = Str.strip_suffix ext (basename host entry).
Proof.
  intros Hm. unfold Methods.find_all_submodules, bind, node. rewrite Hm.
  destruct (path_true (packagepath mn)) eqn:Epp; intros [= <- <-].
  - split; [done |]. split; [done |].
    assert (forall x,
      x ∈ flat_map
            (fun dir =>
               match listdir host dir with
               | Some names =>
                   filter (fun x => x ≠ "__init__")
                          (omap (Methods.moduleInfoForPath host) names)
               | None => []
               end) (default [] (packagepath mn)) ->
      x <> "__init__"
      /\ exists dir entries entry,
           dir ∈ default [] (packagepath mn)
           /\ listdir host dir = Some entries /\ entry ∈ entries
           /\ Methods.moduleInfoForPath host entry = Some x) as Hall.
    { intros x Hx. apply list_elem_of_In, in_flat_map in Hx as (dir & Hdir & Hx).
      apply list_elem_of_In in Hdir, Hx.
      destruct (listdir host dir) as [entries |] eqn:El;
        [| by apply elem_of_nil in Hx].
      apply list_elem_of_filter in Hx as [Hne Hx].
      apply list_elem_of_omap in Hx as (entry & Hentry & Hinfo).
      split; [done |]. by exists dir, entries, entry. }
    split.
    + intros Hin. by destruct (Hall _ Hin) as [Hne _].
    + intros x Hx.
      destruct (Hall x Hx) as [_ (dir & entries & entry & Hd & Hl & He & Hi)].
      apply moduleInfo_not_None in Hi as (ext & mode & typ & H1 & H2 & H3).
      by exists dir, entries, entry, ext, mode, typ.
  - split; [done |]. split; [done |]. split; [apply not_elem_of_nil |].
    intros x Hx. by apply elem_of_nil in Hx.
Qed.

(* ===================================================================== *)
(** ** Names imported from a module *)
(* ===================================================================== *)

(** [from q import attr] in a top-level module, [q] being known to the
    graph. *)
Section FromImport.

Variable host : Host.
Variables (m q attr : string) (mn qn : Node).
Hypothesis q_plain_name : Str.has_dot q = false.

(** The import of [q] itself, in a graph that knows it. *)
Lemma import_hook_known (k : nat) (g : ModuleGraph)
    (fromlist : option (list string)) :
  nodes g !! m = Some mn ->
  path_true (packagepath mn) = false ->
  Str.has_dot (identifier mn) = false ->
  nodes g !! q = Some qn ->
  (fromlist = None \/ path_true (packagepath qn) = false) ->
  import_hook host (S (S (S (S k)))) q (Some m) fromlist (-1) g
  = Ok {[q]} (linked (Some m) q g).
Proof.
  intros Hm Hmod Htop Hq Hfl.
  assert (import_module host (S (S k)) q q None g = Ok (Some q) g) as Ei.
  { by apply (import_module_existing host k g q q None qn). }
  change (import_hook host (S (S (S (S k)))) q (Some m) fromlist (-1))
    with (Methods.import_hook (bound host (S (S (S k)))) q (Some m) fromlist
            (-1)).
  unfold Methods.import_hook.
  step ltac:(by apply (determine_parent_top host g m mn)).
  assert (find_head_package host (S (S (S k))) None q g = Ok (q, "") g) as Eh.
  { change (find_head_package host (S (S (S k))) None q)
      with (Methods.find_head_package (bound host (S (S k))) None q).
    unfold Methods.find_head_package. rewrite (cut_no_dot q q_plain_name).
    cbn [fst snd default].
    step ltac:(reflexivity).
    step ltac:(exact Ei). done. }
  step ltac:(exact Eh). cbn [fst snd].
  step ltac:(reflexivity).
  step ltac:(unfold node; by rewrite Hq).
  assert ((match fromlist with
           | Some (x :: l) =>
               if path_true (packagepath qn)
               then self.ensure_fromlist (bound host (S (S (S k)))) q (x :: l)
               else ret ∅
           | _ => ret ∅
           end) g = Ok ∅ g) as Es.
  { destruct Hfl as [-> | Hpp]; [done |]. rewrite Hpp.
    by destruct fromlist as [[| x l] |]. }
  step ltac:(exact Es).
  rewrite (right_id_L ∅ (∪)), elements_singleton. cbn [forM_].
  step ltac:(reflexivity). done.
Qed.

Variable g : ModuleGraph.
Hypothesis g_wf : wf g.
Hypothesis m_node : nodes g !! m = Some mn.
Hypothesis m_module : path_true (packagepath mn) = false.
Hypothesis m_top : Str.has_dot (identifier mn) = false.
Hypothesis q_node : nodes g !! q = Some qn.
Hypothesis attr_unbound : dict_at (namespace qn) g !! attr = None.
Hypothesis attr_new : nodes g !! qualify q attr = None.
Hypothesis attr_not_lazy : lazynodes g !! qualify q attr = None.

Lemma from_plain_module_run (k : nat) :
  path_true (packagepath qn) = false ->
  _safe_import_hook host (S (S (S (S (S k))))) q (Some m) (Some [attr]) (-1) g
  = Ok {[q]}
       (with_dicts (<[namespace qn := <[attr := None]> (dict_at (namespace qn) g)]>
                      (dicts g))
                   (linked (Some m) q g)).
Proof.
  intros Hpp.
  set (g1 := linked (Some m) q g).
  assert (node q g1 = Ok qn g1) as Hq1
    by (unfold node; change (nodes g1) with (nodes g); by rewrite q_node).
  change (_safe_import_hook host (S (S (S (S (S k))))) q (Some m) (Some [attr])
            (-1))
    with (Methods._safe_import_hook (bound host (S (S (S (S k))))) q (Some m)
            (Some [attr]) (-1)).
  unfold Methods._safe_import_hook.
  step ltac:(apply try_Ok;
             apply (import_hook_known k g None); [done .. | by left]).
  fold g1.
  rewrite size_singleton. cbn [Nat.eqb assert].
  unfold pop. rewrite elements_singleton.
  step ltac:(reflexivity).
  cbn [default from_option id foldM].
  step' ltac:(exact Hq1).
  step' ltac:(reflexivity).
  change (dict_at (namespace qn) g1) with (dict_at (namespace qn) g).
  rewrite attr_unbound.
  assert (findNode host (S (S (S (S k)))) (qualify q attr) g1
          = Ok None g1) as Efind
    by (by apply (findNode_absent host (S (S (S k))))).
  step' ltac:(exact Efind).
  step' ltac:(apply try_Ok;
             apply (import_hook_known k g1 (Some [attr]));
             [done .. | by right]).
  change (linked (Some m) q g1) with (linked (Some m) q (linked (Some m) q g)).
  rewrite (linked_twice (Some m) q g). fold g1.
  step' ltac:(exact Efind).
  step' ltac:(reflexivity). done.
Qed.

Lemma from_package_missing_run (k : nat) (dirs : list string) :
  packagepath qn = Some dirs -> dirs <> [] ->
  identifier qn = q ->
  attr <> "*" ->
  imp_find_module host attr dirs = None ->
  sys_modules host (qualify q attr) = None ->
  exists n g',
    _safe_import_hook host (S (S (S (S (S (S k)))))) q (Some m) (Some [attr])
      (-1) g
    = Ok {[q; qualify q attr]} g'
    /\ nodes g' = <[qualify q attr := n]> (nodes g)
    /\ cls n = MissingModule
    /\ edges g' = edges g ∪ {[(Some m, q, "direct")]}
                  ∪ {[(Some (qualify q attr), q, "direct")]}
    /\ dict_at (namespace qn) g' !! attr = Some (Some (qualify q attr)).
Proof.
  intros Hpp Hdirs Hid Hstar Hnone Hsm.
  set (g1 := linked (Some m) q g).
  set (full := qualify q attr) in *.
  assert (path_true (packagepath qn) = true) as Hpt
    by (rewrite Hpp; by destruct dirs).
  assert (wf g1) as Hwf1 by (by eapply wf_same).
  assert (node q g1 = Ok qn g1) as Hq1
    by (unfold node; change (nodes g1) with (nodes g); by rewrite q_node).
  destruct (createNode_fresh host (S (S (S (S k)))) MissingModule full g1) as
    (n & g2 & E & Hnodes & Hcl & _ & _ & _ & _ & He2 & _ & _ & _);
    [done | done | done | done |].
  assert (import_module host (S (S (S k))) attr full (Some q) g1 = Ok None g1)
    as Ei.
  { change (import_module host (S (S (S k))) attr full (Some q))
      with (Methods.import_module (bound host (S (S k))) attr full (Some q)).
    unfold Methods.import_module.
    step ltac:(by apply (findNode_absent host (S k))).
    rewrite bind_bind. step ltac:(exact Hq1).
    step ltac:(reflexivity). rewrite Hpp. cbn [mjoin].
    assert (find_module host (S (S k)) attr (Some dirs) (Some q) g1
            = Raise (ImportError ("No module named " +:+ attr)) g1) as Ef.
    { change (find_module host (S (S k)) attr (Some dirs) (Some q))
        with (Methods.find_module host (bound host (S k)) attr (Some dirs)
                (Some q)).
      unfold Methods.find_module.
      rewrite bind_bind. step ltac:(exact Hq1).
      step ltac:(reflexivity). rewrite Hid. fold full.
      step ltac:(by apply (findNode_absent host k)).
      unfold Methods.locate. by rewrite Hnone, Hsm. }
    step ltac:(by apply try_Raise, Ef). done. }
  assert (import_hook host (S (S (S (S (S k))))) q (Some m) (Some [attr]) (-1) g1
          = Raise (ImportError ("No module named " +:+ full)) g1) as Efrom.
  { assert (import_module host (S (S (S k))) q q None g1 = Ok (Some q) g1)
      as Eq by (by apply (import_module_existing host (S k) g1 q q None qn)).
    change (import_hook host (S (S (S (S (S k))))) q (Some m) (Some [attr]) (-1))
      with (Methods.import_hook (bound host (S (S (S (S k))))) q (Some m)
              (Some [attr]) (-1)).
    unfold Methods.import_hook.
    step ltac:(by apply (determine_parent_top host g1 m mn)).
    assert (find_head_package host (S (S (S (S k)))) None q g1 = Ok (q, "") g1)
      as Eh.
    { change (find_head_package host (S (S (S (S k)))) None q)
        with (Methods.find_head_package (bound host (S (S (S k)))) None q).
      unfold Methods.find_head_package. rewrite (cut_no_dot q q_plain_name).
      cbn [fst snd default].
      step ltac:(reflexivity).
      step ltac:(exact Eq). done. }
    step ltac:(exact Eh). cbn [fst snd].
    step ltac:(reflexivity).
    step ltac:(exact Hq1).
    rewrite Hpt. apply bind_Raise.
    change (self.ensure_fromlist (bound host (S (S (S (S k))))) q [attr])
      with (Methods.ensure_fromlist host (bound host (S (S (S k)))) q [attr]).
    unfold Methods.ensure_fromlist.
    assert ((list_to_set [attr] : gset string) = {[attr]}) as ->
      by (simpl; apply (right_id_L ∅ (∪))).
    rewrite bool_decide_eq_false_2
      by (intros H; apply elem_of_singleton in H; congruence).
    step ltac:(reflexivity).
    rewrite elements_singleton. cbn [foldM].
    apply bind_Raise.
    step ltac:(exact Hq1).
    step ltac:(reflexivity).
    change (dict_at (namespace qn) g1) with (dict_at (namespace qn) g).
    rewrite attr_unbound. cbn [mjoin option_join]. rewrite Hid. fold full.
    step ltac:(exact Ei). done. }
  exists n.
  eexists. split.
  - change (_safe_import_hook host (S (S (S (S (S (S k)))))) q (Some m)
              (Some [attr]) (-1))
      with (Methods._safe_import_hook (bound host (S (S (S (S (S k)))))) q
              (Some m) (Some [attr]) (-1)).
    unfold Methods._safe_import_hook.
    step ltac:(apply try_Ok;
               apply (import_hook_known (S k) g None); [done .. | by left]).
    fold g1.
    rewrite size_singleton. cbn [Nat.eqb assert].
    unfold pop. rewrite elements_singleton.
    step ltac:(reflexivity).
    cbn [default from_option id foldM].
    step' ltac:(exact Hq1).
    step' ltac:(reflexivity).
    change (dict_at (namespace qn) g1) with (dict_at (namespace qn) g).
    rewrite attr_unbound. fold full.
    step' ltac:(by apply (findNode_absent host (S (S (S (S k)))))).
    step' ltac:(by apply try_Raise, Efrom).
    step' ltac:(exact E).
    step' ltac:(reflexivity).
    step' ltac:(reflexivity).
    step' ltac:(reflexivity).
    reflexivity.
  - simpl. rewrite Hnodes, He2. split; [done |]. split; [done |].
    split; [done |].
    unfold dict_at at 1. simpl. rewrite lookup_insert_eq. simpl.
    apply lookup_insert_eq.
Qed.

End FromImport.

(** [from q import attr], [q] being a module that is not a package and has
    no [attr] in its namespace: the scan wrapper links the importer to [q]
    and takes [attr] for an attribute; it makes no node for [q.attr], not
    even a [MissingModule], and enters [attr] in the namespace of [q] with
    [None]. *)
Theorem from_plain_module (host : Host) (fuel : nat) (g : ModuleGraph)
    (m q attr : string) (mn qn : Node) :
  nodes g !! m = Some mn ->
  path_true (packagepath mn) = false ->
  Str.has_dot (identifier mn) = false ->
  Str.has_dot q = false ->
  nodes g !! q = Some qn ->
  path_true (packagepath qn) = false ->
  dict_at (namespace qn) g !! attr = None ->
  nodes g !! qualify q attr = None ->
  lazynodes g !! qualify q attr = None ->
  (5 <= fuel)%nat ->
  exists g',
    _safe_import_hook host fuel q (Some m) (Some [attr]) (-1) g = Ok {[q]} g'
    /\ nodes g' = nodes g
    /\ edges g' = edges g ∪ {[(Some m, q, "direct")]}
    /\ dict_at (namespace qn) g' !! attr = Some None.
Proof.
  intros Hm Hmod Htop Hq Hqn Hpp Hattr Hn Hl Hfuel.
  pose proof (from_plain_module_run host m q attr mn qn Hq g Hm Hmod Htop Hqn
                Hattr Hn Hl 0 Hpp) as E.
  eexists. split.
  - by apply (more_fuel host 5 fuel
                (SafeImportHook q (Some m) (Some [attr]) (-1)) g _ Hfuel E).
  - split; [done |]. split; [done |].
    unfold dict_at at 1. simpl. rewrite lookup_insert_eq. simpl.
    apply lookup_insert_eq.
Qed.

(** [from q import attr], [q] being a package that has no [attr] in its
    namespace and no module [attr] in its directories: the scan wrapper
    records [q.attr] as a [MissingModule], linked to the package and entered
    in its namespace. *)
Theorem from_package_missing (host : Host) (fuel : nat) (g : ModuleGraph)
    (m q attr : string) (mn qn : Node) (dirs : list string) :
  wf g ->
  nodes g !! m = Some mn ->
  path_true (packagepath mn) = false ->
  Str.has_dot (identifier mn) = false ->
  Str.has_dot q = false ->
  nodes g !! q = Some qn ->
  identifier qn = q ->
  packagepath qn = Some dirs -> dirs <> [] ->
  attr <> "*" ->
  dict_at (namespace qn) g !! attr = None ->
  nodes g !! qualify q attr = None ->
  lazynodes g !! qualify q attr = None ->
  imp_find_module host attr dirs = None ->
  sys_modules host (qualify q attr) = None ->
  (6 <= fuel)%nat ->
  exists n g',
    _safe_import_hook host fuel q (Some m) (Some [attr]) (-1) g
    = Ok {[q; qualify q attr]} g'
    /\ nodes g' = <[qualify q attr := n]> (nodes g)
    /\ cls n = MissingModule
    /\ edges g' = edges g ∪ {[(Some m, q, "direct")]}
                  ∪ {[(Some (qualify q attr), q, "direct")]}
    /\ dict_at (namespace qn) g' !! attr = Some (Some (qualify q attr)).
Proof.
  intros Hwf Hm Hmod Htop Hq Hqn Hid Hpp Hdirs Hstar Hattr Hn Hl Hnone Hsm Hfuel.
  destruct (from_package_missing_run host m q attr mn qn Hq g Hwf Hm Hmod Htop
              Hqn Hattr Hn Hl 0 dirs Hpp Hdirs Hid Hstar Hnone Hsm)
    as (n & g' & E & H).
  exists n, g'. split; [| exact H].
  by apply (more_fuel host 6 fuel
              (SafeImportHook q (Some m) (Some [attr]) (-1)) g _ Hfuel E).
Qed.

(** A package whose initializer is a cached unit with a wrong format tag. *)
Section BadInitializer.

Variable host : Host.
Variables (m p dir initpath s1 s2 s3 s4 : string) (mn : Node) (fl : file).
Variable g : ModuleGraph.

Hypothesis g_wf : wf g.
Hypothesis m_node : nodes g !! m = Some mn.
Hypothesis m_module : path_true (packagepath mn) = false.
Hypothesis m_top : Str.has_dot (identifier mn) = false.
Hypothesis p_top : Str.has_dot p = false.
Hypothesis p_not_builtin : p ∉ builtin_module_names host.
Hypothesis p_not_replaced : replacePackageMap host !! p = None.
Hypothesis p_new : nodes g !! p = None.
Hypothesis p_not_lazy : lazynodes g !! p = None.
Hypothesis p_not_init : p <> "__init__".
Hypothesis init_new : nodes g !! "__init__" = None.
Hypothesis init_not_lazy : lazynodes g !! "__init__" = None.
Hypothesis p_found :
  imp_find_module host p (path g) = Some (None, dir, (s1, s2, PKG_DIRECTORY)).
Hypothesis init_found :
  imp_find_module host "__init__" (package_path host p (location host dir))
  = Some (Some fl, initpath, (s3, s4, PY_COMPILED)).
Hypothesis wrong_tag : bytes_eqb (head4 fl) (imp_get_magic host) = false.

Lemma bad_initializer_run (k : nat) :
  exists pn g',
    _safe_import_hook host (S (S (S (S (S (S (S (S k)))))))) p (Some m) None
      (-1) g
    = Ok {[p]} g'
    /\ nodes g' !! p = Some pn
    /\ cls pn = Package /\ code_handle pn = None
    /\ filename pn = Some (location host dir)
    /\ packagepath pn = Some (package_path host p (location host dir))
    /\ (forall i, i <> p -> nodes g' !! i = nodes g !! i)
    /\ edges g' = edges g ∪ {[(Some m, p, "direct")]}.
Proof.
  set (pkgdir := location host dir) in *.
  set (dirs := package_path host p pkgdir) in *.
  set (msg := "Bad magic number in " +:+ location host initpath).
  destruct (createNode_fresh host (S k) Package p g) as
    (n & g1 & E & Hnodes & Hcl & _ & _ & Hco & _ & He & Hlz & _ & _ & _ & _);
    [done | done | done | done |].
  set (ga := with_nodes (alter (set_filename (Some pkgdir)) p (nodes g1)) g1).
  set (gb := with_nodes (alter (set_packagepath (Some dirs)) p (nodes ga)) ga).
  set (nb := set_packagepath (Some dirs) (set_filename (Some pkgdir) n)).
  assert (nodes gb !! p = Some nb) as Hb.
  { subst gb ga. simpl. rewrite !lookup_alter_eq, Hnodes.
    by rewrite lookup_insert_eq. }
  assert (forall i, i <> p -> nodes gb !! i = nodes g !! i) as Hothers.
  { intros i Hi. subst gb ga. simpl. rewrite !lookup_alter_ne by done.
    rewrite Hnodes. by rewrite lookup_insert_ne. }
  assert (load_package host (S (S (S k))) p (Some pkgdir) g
          = Raise (ImportError msg) gb) as Ep.
  { change (load_package host (S (S (S k))) p (Some pkgdir))
      with (Methods.load_package host (bound host (S (S k))) p (Some pkgdir)).
    unfold Methods.load_package. rewrite p_not_replaced.
    step ltac:(exact E).
    step ltac:(reflexivity). fold ga.
    fold (package_path host p pkgdir). fold dirs.
    step ltac:(reflexivity). fold gb.
    step ltac:(unfold node; by rewrite Hb).
    assert (find_module host (S (S k)) "__init__" (Some dirs) None gb
            = Ok (Some fl, Some (location host initpath), (s3, s4, PY_COMPILED))
                 gb) as Ef.
    { change (find_module host (S (S k)) "__init__" (Some dirs) None)
        with (Methods.find_module host (bound host (S k)) "__init__"
                (Some dirs) None).
      unfold Methods.find_module.
      step ltac:(reflexivity).
      step ltac:(apply (findNode_absent host k);
                 [by rewrite Hothers
                 | subst gb ga; simpl; by rewrite Hlz]).
      unfold Methods.locate. by rewrite init_found. }
    change (packagepath nb) with (Some dirs).
    step ltac:(exact Ef). cbn [fst snd].
    apply bind_Raise.
    by apply (load_module_bad_magic host (S k) gb p fl
                (Some (location host initpath)) s3 s4). }
  assert (import_hook host (S (S (S (S (S (S (S k))))))) p (Some m) None (-1) g
          = Raise (ImportError msg) gb) as Eh.
  { assert (find_module host (S (S (S (S k)))) p None None g
            = Ok (None, Some pkgdir, (s1, s2, PKG_DIRECTORY)) g) as Ef.
    { change (find_module host (S (S (S (S k)))) p None None)
        with (Methods.find_module host (bound host (S (S (S k)))) p None None).
      unfold Methods.find_module.
      step ltac:(reflexivity).
      step ltac:(by apply (findNode_absent host (S (S k)))).
      unfold Methods.locate.
      rewrite (bool_decide_eq_false_2 _ p_not_builtin). by rewrite p_found. }
    assert (import_module host (S (S (S (S (S k))))) p p None g
            = Raise (ImportError msg) gb) as Ei.
    { change (import_module host (S (S (S (S (S k))))) p p None)
        with (Methods.import_module (bound host (S (S (S (S k))))) p p None).
      unfold Methods.import_module.
      step ltac:(by apply (findNode_absent host (S (S (S k))))).
      step ltac:(reflexivity). cbn [mjoin].
      step ltac:(by apply try_Ok, Ef). cbn [fst snd].
      apply bind_Raise.
      change (self.load_module (bound host (S (S (S (S k))))) p None
                (Some pkgdir) (s1, s2, PKG_DIRECTORY))
        with (Methods.load_module host (bound host (S (S (S k)))) p None
                (Some pkgdir) (s1, s2, PKG_DIRECTORY)).
      unfold Methods.load_module. cbn [snd]. exact Ep. }
    change (import_hook host (S (S (S (S (S (S (S k))))))) p (Some m) None (-1))
      with (Methods.import_hook (bound host (S (S (S (S (S (S k))))))) p
              (Some m) None (-1)).
    unfold Methods.import_hook.
    step ltac:(by apply (determine_parent_top host g m mn)).
    apply bind_Raise.
    change (self.find_head_package (bound host (S (S (S (S (S (S k)))))))
              None p)
      with (Methods.find_head_package (bound host (S (S (S (S (S k))))))
              None p).
    unfold Methods.find_head_package. rewrite (cut_no_dot p p_top).
    cbn [fst snd default].
    step ltac:(reflexivity).
    apply bind_Raise. exact Ei. }
  exists nb, (linked (Some m) p gb). split.
  - change (_safe_import_hook host (S (S (S (S (S (S (S (S k)))))))) p (Some m)
              None (-1))
      with (Methods._safe_import_hook
              (bound host (S (S (S (S (S (S (S k)))))))) p (Some m) None (-1)).
    unfold Methods._safe_import_hook.
    step ltac:(by apply try_Raise, Eh).
    rewrite bind_bind.
    step ltac:(by apply (createNode_existing host _ gb MissingModule p None nb)).
    rewrite bind_bind. step ltac:(reflexivity).
    step ltac:(reflexivity). done.
  - subst nb gb ga. simpl. rewrite He.
    by repeat match goal with |- _ /\ _ => split end.
Qed.

End BadInitializer.

(** A top-level module imports a package whose [__init__] is a cached unit
    with a wrong format tag.  The [ImportError] of the initializer reaches
    the scan wrapper after [load_package] has made the node of the package:
    the wrapper finds that node where it would make a [MissingModule], and the
    package is recorded as a [Package] without code. *)
Theorem package_with_bad_initializer (host : Host) (fuel : nat)
    (g : ModuleGraph) (m p dir initpath s1 s2 s3 s4 : string) (mn : Node)
    (fl : file) :
  wf g ->
  nodes g !! m = Some mn ->
  path_true (packagepath mn) = false ->
  Str.has_dot (identifier mn) = false ->
  Str.has_dot p = false ->
  p ∉ builtin_module_names host ->
  replacePackageMap host !! p = None ->
  nodes g !! p = None -> lazynodes g !! p = None -> p <> "__init__" ->
  nodes g !! "__init__" = None -> lazynodes g !! "__init__" = None ->
  imp_find_module host p (path g) = Some (None, dir, (s1, s2, PKG_DIRECTORY)) ->
  imp_find_module host "__init__" (package_path host p (location host dir))
  = Some (Some fl, initpath, (s3, s4, PY_COMPILED)) ->
  bytes_eqb (head4 fl) (imp_get_magic host) = false ->
  (8 <= fuel)%nat ->
  exists pn g',
    _safe_import_hook host fuel p (Some m) None (-1) g = Ok {[p]} g'
    /\ nodes g' !! p = Some pn
    /\ cls pn = Package /\ code_handle pn = None
    /\ filename pn = Some (location host dir)
    /\ packagepath pn = Some (package_path host p (location host dir))
    /\ (forall i, i <> p -> nodes g' !! i = nodes g !! i)
    /\ edges g' = edges g ∪ {[(Some m, p, "direct")]}.
Proof.
  intros Hwf Hm Hmod Htop Hp Hbi Hrep Hn Hl Hni Hin Hil Hfound Hinit Htag Hfuel.
  destruct (bad_initializer_run host m p dir initpath s1 s2 s3 s4 mn fl g
              Hwf Hm Hmod Htop Hp Hbi Hrep Hn Hl Hni Hin Hil Hfound Hinit Htag 0)
    as (pn & g' & E & H).
  exists pn, g'. split; [| exact H].
  by apply (more_fuel host 8 fuel (SafeImportHook p (Some m) None (-1)) g _
              Hfuel E).
Qed.

(* ===================================================================== *)
(** ** The command line *)

Lemma option_step_fields split st oa :
  excludes (option_step split st oa)
  = (excludes st ++ (if String.eqb (fst oa) "-x" then [snd oa] else []))%list
  /\ addpath (option_step split st oa)
     = (addpath st ++ (if String.eqb (fst oa) "-p" then split (snd oa)
                       else []))%list
  /\ dodot (option_step split st oa) = dodot st || String.eqb (fst oa) "-g"
  /\ domods (option_step split st oa) = domods st || String.eqb (fst oa) "-m".
Proof.
  unfold option_step.
  destruct (String.eqb (fst oa) "-d"), (String.eqb (fst oa) "-m"),
    (String.eqb (fst oa) "-p"), (String.eqb (fst oa) "-q"),
    (String.eqb (fst oa) "-x"), (String.eqb (fst oa) "-g"); simpl;
    rewrite ?app_nil_r, ?orb_true_r, ?orb_false_r; done.
Qed.

Lemma foldl_option_step split opts st :
  excludes (foldl (option_step split) st opts)
  = (excludes st
     ++ (snd <$> filter (fun oa => fst oa = "-x") opts))%list
  /\ addpath (foldl (option_step split) st opts)
     = (addpath st
        ++ concat (split <$> (snd <$> filter (fun oa => fst oa = "-p") opts)))%list
  /\ dodot (foldl (option_step split) st opts)
     = dodot st || bool_decide ("-g" ∈ opts.*1)
  /\ domods (foldl (option_step split) st opts)
     = domods st || bool_decide ("-m" ∈ opts.*1).
Proof.
  revert st. induction opts as [| oa opts IH]; intros st.
  - cbn [foldl]. rewrite filter_nil. simpl.
    rewrite !app_nil_r, !orb_false_r. done.
  - cbn [foldl].
    destruct (IH (option_step split st oa)) as (H1 & H2 & H3 & H4).
    destruct (option_step_fields split st oa) as (F1 & F2 & F3 & F4).
    rewrite H1, H2, H3, H4, F1, F2, F3, F4. clear.
    rewrite !filter_cons. cbn [fmap list_fmap].
    repeat split.
    + destruct (String.eqb_spec (fst oa) "-x") as [E | E].
      * rewrite decide_True by done. simpl. by rewrite <- app_assoc.
      * rewrite decide_False by done. by rewrite app_nil_r.
    + destruct (String.eqb_spec (fst oa) "-p") as [E | E].
      * rewrite decide_True by done. simpl. by rewrite <- app_assoc.
      * rewrite decide_False by done. by rewrite app_nil_r.
    + rewrite <- orb_assoc. f_equal.
      destruct (String.eqb_spec (fst oa) "-g") as [E | E].
      * simpl. symmetry. apply bool_decide_eq_true_2. apply elem_of_cons.
        by left.
      * simpl. apply bool_decide_ext. rewrite elem_of_cons.
        split; [by right |]. intros [Heq | Hin]; [by destruct E | done].
    + rewrite <- orb_assoc. f_equal.
      destruct (String.eqb_spec (fst oa) "-m") as [E | E].
      * simpl. symmetry. apply bool_decide_eq_true_2. apply elem_of_cons.
        by left.
      * simpl. apply bool_decide_ext. rewrite elem_of_cons.
        split; [by right |]. intros [Heq | Hin]; [by destruct E | done].
Qed.

(** The options of [main]: the excluded names are the arguments of the
    [-x] options, in their order; the additional search path is made of the
    arguments of the [-p] options, each split at [os.pathsep], in their
    order; the dot report is chosen exactly when there is a [-g], and the
    arguments are taken for module names from the start exactly when there is
    a [-m]. *)
Theorem main_options (split : string -> list string)
    (opts : list (string * string)) :
  excludes (process_options split opts)
  = snd <$> filter (fun oa => fst oa = "-x") opts
  /\ addpath (process_options split opts)
     = concat (split <$> (snd <$> filter (fun oa => fst oa = "-p") opts))
  /\ dodot (process_options split opts) = bool_decide ("-g" ∈ opts.*1)
  /\ domods (process_options split opts) = bool_decide ("-m" ∈ opts.*1).
Proof.
  unfold process_options.
  destruct (foldl_option_step split opts defaults) as (H1 & H2 & H3 & H4).
  by rewrite H1, H2, H3, H4.
Qed.

(** [main] on a host whose [sys.path] is not empty, called with a script
    and no further argument: it makes its graph and runs the script on it.
    The search path of the graph is the [-p] directories, then the directory
    of the script in the place of the first entry of [sys.path], then the
    other entries of [sys.path]; and every name given with [-x] is registered
    as excluded before the script is run. *)
Theorem main_runs_script (host : Host) (dirname : string -> string)
    (split : string -> list string) (this_file : string) (fuel : nat)
    (opts : list (string * string)) (script first : string)
    (rest : list string) :
  sys_path host = first :: rest ->
  exists g0,
    main host dirname split this_file fuel opts [script]
    = inr (run_script host fuel script None g0)
    /\ nodes g0 = ∅
    /\ path g0
       = (concat (split <$> (snd <$> filter (fun oa => fst oa = "-p") opts))
          ++ dirname script :: rest)%list
    /\ forall name, ("-x", name) ∈ opts -> lazynodes g0 !! name = Some LazyNone.
Proof.
  intros Hsys.
  destruct (main_options split opts) as (Hx & Hp & _ & _).
  unfold main, main_path, main_script. rewrite Hsys. cbn [tail foldM].
  eexists. split; [reflexivity |]. split; [done |]. split.
  - cbn [path main_graph ModuleGraph_init default from_option id].
    by rewrite Hp.
  - intros name Hin. cbn [lazynodes main_graph ModuleGraph_init foldl].
    rewrite excludes_registered. rewrite bool_decide_eq_true_2; [done |].
    rewrite Hx. apply list_elem_of_fmap. exists ("-x", name).
    split; [done |]. by apply list_elem_of_filter.
Qed.

(** ** The properties on the example hosts *)
(* ===================================================================== *)

Lemma with_argument_py27 : with_argument World.py27.
Proof. by repeat split. Qed.

(** With a list of implied dependencies registered, the wrapper does raise
    [ImportError]: [a.b] is registered with the dependency [nonexistent], and
    [from a import b] ends with the [ImportError] of that dependency. *)
Lemma safe_import_raises_with_deps :
  raised (_safe_import_hook World.host 20 "a" None (Some ["b"]) (-1)
            (World.graph [] [("a.b", LazyDeps ["nonexistent"])]))
  = Some (ImportError "No module named nonexistent").
Proof. vm_compute. reflexivity. Qed.

Lemma scan_opcodes_25_assembled_witness :
  Decoder.scan_opcodes_25 World.py27 World.lonely_py
  = statements_25 World.py27 ["missing"; "missing"] [CInt (-1); CNone]
      Site.lonely_instrs.
Proof.
  refine (scan_opcodes_25_assembled World.py27 ["missing"; "missing"]
            [CInt (-1); CNone] "/app/lonely.py" Site.lonely_instrs _ _).
  - apply with_argument_py27.
  - repeat constructor.
Defined.

Lemma scan_opcodes_assembled_witness :
  Decoder.scan_opcodes World.py27 World.old_py
  = statements_24 World.py27 ["os"] [CNone] Site.old_instrs.
Proof.
  refine (scan_opcodes_assembled World.py27 ["os"] [CNone] "/app/old.py"
            Site.old_instrs _ _).
  - apply with_argument_py27.
  - repeat constructor.
Defined.

Lemma replace_paths_in_code_back_witness :
  co_filename (Methods.replace_paths_in_code World.host [("/app", "/opt")]
                 World.lonely_py)
  = "/opt/lonely.py"
  /\ co_filename
       (Methods.replace_paths_in_code World.host [("/opt", "/app")]
          (Methods.replace_paths_in_code World.host [("/app", "/opt")]
             World.lonely_py))
     = "/app/lonely.py".
Proof.
  destruct (replace_paths_in_code_back World.host "/app" "/opt" World.lonely_py)
    as (H1 & H2 & _); [reflexivity | reflexivity | reflexivity |].
  split; [exact H1 | exact H2].
Defined.

Lemma rewrite_filename_first_witness :
  Methods.rewrite_filename World.host [("/usr", "/x"); ("/app", "/opt")]
    "/app/a.py"
  = "/opt/a.py".
Proof.
  refine (proj2 (rewrite_filename_first World.host [("/usr", "/x")] []
                   "/app" "/opt" "/app/a.py" _) _).
  - constructor; [reflexivity | constructor].
  - reflexivity.
Defined.

Lemma graph_only_grows_witness :
  match bound World.host 14 _ (RunScript "/app/script.py" None)
          (World.graph [] []) with
  | Ok _ g' | Raise _ g' =>
      wf g'
      /\ (forall i n, nodes (World.graph [] []) !! i = Some n ->
            exists n', nodes g' !! i = Some n' /\ same_object n n')
      /\ edges (World.graph [] []) ⊆ edges g'
      /\ (forall i n, nodes (World.graph [] []) !! i = Some n ->
            set_at (globalnames n) (World.graph [] [])
            ⊆ set_at (globalnames n) g'
            /\ set_at (starimports n) (World.graph [] [])
               ⊆ set_at (starimports n) g')
  | OutOfFuel => True
  end.
Proof.
  apply (graph_only_grows World.host 14 (RunScript "/app/script.py" None)
           (World.graph [] [])).
  apply wf_init.
Defined.

Lemma safe_import_never_raises_witness :
  (forall msg g',
     _safe_import_hook World.host 7 "missing" (Some "a") None (-1) graph_a
     <> Raise (ImportError msg) g')
  /\ (forall msg g',
        findNode World.host 7 "missing" graph_a <> Raise (ImportError msg) g').
Proof.
  apply (safe_import_never_raises World.host 7 graph_a "missing" (Some "a")
           None (-1)).
  intros k l. simpl. by rewrite lookup_empty.
Defined.

Lemma import_module_under_parent_witness :
  (Some "a", "a", "direct") ∈ edges (linked (Some "a") "a" graph_a).
Proof.
  refine (proj1 (import_module_under_parent World.host 2 "a" "a" "a" "a"
                   graph_a (linked (Some "a") "a" graph_a) _)).
  apply (import_module_existing World.host 0 graph_a "a" "a" (Some "a")
           module_a).
  vm_compute. reflexivity.
Defined.

Lemma import_hook_links_caller_witness :
  ({[ "a" ]} : gset string) <> ∅
  /\ forall x, x ∈ ({[ "a" ]} : gset string) ->
       (Some "a", x, "direct") ∈ edges (linked (Some "a") "a" graph_a).
Proof.
  refine (import_hook_links_caller World.host 4 "a" (Some "a") None (-1)
            graph_a (linked (Some "a") "a" graph_a) {[ "a" ]} _).
  apply (import_hook_known World.host "a" "a" module_a module_a eq_refl 0
           graph_a None).
  - vm_compute. reflexivity.
  - reflexivity.
  - reflexivity.
  - vm_compute. reflexivity.
  - by left.
Defined.

Lemma safe_import_hook_nonempty_witness :
  ({[ "a" ]} : gset string) <> ∅.
Proof.
  refine (proj1 (safe_import_hook_nonempty World.host 5 "a" (Some "a")
                   (Some ["x"]) (-1) graph_a _ {[ "a" ]} _)).
  apply (from_plain_module_run World.host "a" "a" "x" module_a module_a eq_refl
           graph_a).
  - vm_compute. reflexivity.
  - reflexivity.
  - reflexivity.
  - vm_compute. reflexivity.
  - vm_compute. reflexivity.
  - vm_compute. reflexivity.
  - reflexivity.
  - reflexivity.
Defined.

Lemma import_builtin_witness :
  exists n g',
    import_hook World.host 5 "sys" (Some "a") None (-1) graph_a
    = Ok {[ "sys" ]} g'
    /\ nodes g' !! "sys" = Some n
    /\ cls n = BuiltinModule /\ filename n = None /\ code_handle n = None
    /\ packagepath n = None
    /\ (forall i, i <> "sys" -> nodes g' !! i = nodes graph_a !! i)
    /\ edges g' = edges graph_a ∪ {[(Some "a", "sys", "direct")]}.
Proof.
  refine (import_builtin World.host 5 graph_a "a" "sys" module_a
            _ _ _ _ _ _ _ _ _).
  - apply wfb_sound. vm_compute. reflexivity.
  - vm_compute. reflexivity.
  - reflexivity.
  - reflexivity.
  - reflexivity.
  - apply elem_of_cons. by left.
  - vm_compute. reflexivity.
  - reflexivity.
  - lia.
Defined.

Lemma import_extension_witness :
  exists n g',
    import_hook Site.host 5 "_speedups" (Some "a") None (-1) graph_a
    = Ok {[ "_speedups" ]} g'
    /\ nodes g' !! "_speedups" = Some n
    /\ cls n = Extension /\ filename n = Some "/app/_speedups.so"
    /\ code_handle n = None /\ packagepath n = None
    /\ (forall i, i <> "_speedups" -> nodes g' !! i = nodes graph_a !! i)
    /\ edges g' = edges graph_a ∪ {[(Some "a", "_speedups", "direct")]}.
Proof.
  refine (import_extension Site.host 5 graph_a "a" "_speedups" module_a None
            "/app/_speedups.so" ".so" "rb" _ _ _ _ _ _ _ _ _ _).
  - apply wfb_sound. vm_compute. reflexivity.
  - vm_compute. reflexivity.
  - reflexivity.
  - reflexivity.
  - reflexivity.
  - intros H. apply elem_of_cons in H as [H | H]; [discriminate H |].
    by apply elem_of_nil in H.
  - reflexivity.
  - vm_compute. reflexivity.
  - reflexivity.
  - lia.
Defined.

Lemma import_namespace_package_witness :
  exists n g',
    import_hook Site.host 5 "ns" (Some "a") None (-1) graph_a
    = Ok {[ "ns" ]} g'
    /\ nodes g' !! "ns" = Some n
    /\ cls n = NamespaceModule /\ filename n = None /\ code_handle n = None
    /\ packagepath n = Some ["/site/ns"]
    /\ (forall i, i <> "ns" -> nodes g' !! i = nodes graph_a !! i)
    /\ edges g' = edges graph_a ∪ {[(Some "a", "ns", "direct")]}.
Proof.
  refine (import_namespace_package Site.host 5 graph_a "a" "ns" module_a
            {| mod_file := None; mod_path := Some ["/site/ns"] |} ["/site/ns"]
            _ _ _ _ _ _ _ _ _ _ _ _ _ _).
  - apply wfb_sound. vm_compute. reflexivity.
  - vm_compute. reflexivity.
  - reflexivity.
  - reflexivity.
  - reflexivity.
  - intros H. apply elem_of_cons in H as [H | H]; [discriminate H |].
    by apply elem_of_nil in H.
  - reflexivity.
  - reflexivity.
  - reflexivity.
  - reflexivity.
  - discriminate.
  - vm_compute. reflexivity.
  - reflexivity.
  - lia.
Defined.

Lemma submodule_of_plain_module_witness :
  load_tail World.host 3 "a" "b" graph_a
  = Raise (ImportError "No module named a.b") graph_a.
Proof.
  refine (proj2 (submodule_of_plain_module World.host 0 graph_a "a" "b"
                   module_a _ _ _ _ _)).
  - vm_compute. reflexivity.
  - reflexivity.
  - reflexivity.
  - vm_compute. reflexivity.
  - reflexivity.
Defined.

Lemma find_module_already_included_witness :
  find_module World.host 2 "a" None None graph_a
  = Raise (ImportError "a") graph_a.
Proof.
  refine (find_module_already_included World.host 0 graph_a "a" None None "a"
            module_a _ _).
  - reflexivity.
  - vm_compute. reflexivity.
Defined.

Lemma relative_import_of_package_too_deep_witness :
  scan_code World.host 2 Site.dot_py "a" graph_a
  = Raise (ImportError "relative importpath too deep") graph_a.
Proof.
  refine (relative_import_of_package_too_deep World.host 0 graph_a Site.dot_py
            "a" module_a 1 (CNames ["y"]) [Store "y"] None _ _ _ _).
  - vm_compute. reflexivity.
  - vm_compute. reflexivity.
  - vm_compute. reflexivity.
  - right. by exists ["y"].
Defined.

Lemma run_script_unreadable_witness :
  run_script World.host 2 "/app/nothing.py" None (World.graph [] [])
  = Raise (IOError "/app/nothing.py") (World.graph [] []).
Proof.
  refine (run_script_unreadable World.host 0 (World.graph [] [])
            "/app/nothing.py" None _ _ _).
  - reflexivity.
  - reflexivity.
  - reflexivity.
Defined.

Lemma determine_parent_of_package_witness :
  determine_parent World.host 2 (Some "pkg") (-1) Site.graph_a_pkg
  = Ok (Some "pkg") Site.graph_a_pkg.
Proof.
  refine (determine_parent_of_package World.host 0 Site.graph_a_pkg "pkg"
            Site.package_pkg (-1) _ _ _ _).
  - vm_compute. reflexivity.
  - vm_compute. reflexivity.
  - vm_compute. reflexivity.
  - by left.
Defined.

Lemma load_package_node_witness :
  exists pn g',
    load_package World.host 3 "p" (Some "/app/p") (World.graph [] [])
    = Ok "p" g'
    /\ nodes g' !! "p" = Some pn
    /\ cls pn = Package /\ identifier pn = "p"
    /\ filename pn = Some "/app/p/__init__.py"
    /\ packagepath pn = Some ["/app/p"]
    /\ code_handle pn = Some World.p_init_py
    /\ (forall name, Store name ∈ [Store "A"; Store "B"] ->
          name ∈ set_at (globalnames pn) g')
    /\ (forall i, i <> "p" -> nodes g' !! i = nodes (World.graph [] []) !! i)
    /\ edges g' = edges (World.graph [] []).
Proof.
  refine (load_package_node World.host 3 (World.graph [] []) "p" "/app/p"
            "/app/p/__init__.py" ".py" "U"
            {| head4 := []; unit_code := World.p_init_py |}
            [Store "A"; Store "B"] _ _ _ _ _ _ _ _ _ _ _ _).
  - apply wf_init.
  - reflexivity.
  - reflexivity.
  - discriminate.
  - reflexivity.
  - reflexivity.
  - reflexivity.
  - vm_compute. reflexivity.
  - vm_compute. reflexivity.
  - constructor; [by exists "A" |]. constructor; [by exists "B" |]. constructor.
  - repeat constructor; intros c' H; discriminate H.
  - lia.
Defined.

Lemma AddPackagePath_honoured_witness :
  exists pn g',
    load_package (AddPackagePath "p" "/extra" World.host) 3 "p" (Some "/app/p")
      (World.graph [] [])
    = Ok "p" g'
    /\ nodes g' !! "p" = Some pn
    /\ packagepath pn = Some ["/app/p"; "/extra"].
Proof.
  refine (AddPackagePath_honoured World.host 3 (World.graph [] []) "p" "p"
            "/app/p" "/extra" "/app/p/__init__.py" ".py" "U"
            {| head4 := []; unit_code := World.p_init_py |}
            [Store "A"; Store "B"] _ _ _ _ _ _ _ _ _ _ _ _).
  - apply wf_init.
  - reflexivity.
  - reflexivity.
  - discriminate.
  - reflexivity.
  - reflexivity.
  - reflexivity.
  - vm_compute. reflexivity.
  - vm_compute. reflexivity.
  - constructor; [by exists "A" |]. constructor; [by exists "B" |]. constructor.
  - repeat constructor; intros c' H; discriminate H.
  - lia.
Defined.

Lemma ReplacePackage_honoured_witness :
  exists pn g',
    load_package (ReplacePackage "p" "xml" World.host) 3 "p" (Some "/app/p")
      (World.graph [] [])
    = Ok "xml" g'
    /\ nodes g' !! "xml" = Some pn
    /\ cls pn = Package /\ identifier pn = "xml"
    /\ nodes g' !! "p" = nodes (World.graph [] []) !! "p".
Proof.
  refine (ReplacePackage_honoured World.host 3 (World.graph [] []) "p" "xml"
            "/app/p" "/app/p/__init__.py" ".py" "U"
            {| head4 := []; unit_code := World.p_init_py |}
            [Store "A"; Store "B"] _ _ _ _ _ _ _ _ _ _ _ _ _ _).
  - reflexivity.
  - discriminate.
  - apply wf_init.
  - reflexivity.
  - reflexivity.
  - discriminate.
  - reflexivity.
  - reflexivity.
  - reflexivity.
  - vm_compute. reflexivity.
  - vm_compute. reflexivity.
  - constructor; [by exists "A" |]. constructor; [by exists "B" |]. constructor.
  - repeat constructor; intros c' H; discriminate H.
  - lia.
Defined.

Lemma ModuleGraph_init_registry_witness :
  lazynodes (ModuleGraph_init ["/app"] None ["x"] [] [("y", LazyAlias "z")])
    !! "y"
  = Some (LazyAlias "z").
Proof.
  refine (proj2 (proj2 (proj2 (proj2 (proj2
            (ModuleGraph_init_registry ["/app"] None ["x"] []
               [("y", LazyAlias "z")] "y"))))) _ _ (LazyAlias "z") _).
  - intros H. apply elem_of_cons in H as [H | H]; [discriminate H |].
    by apply elem_of_nil in H.
  - simpl. apply NoDup_singleton.
  - apply elem_of_cons. by left.
Defined.

Lemma find_all_submodules_names_witness :
  "__init__" ∉ ["sub"].
Proof.
  refine (proj1 (proj2 (proj2
            (find_all_submodules_names Site.host "pkg" Site.graph_a_pkg
               Site.graph_a_pkg Site.package_pkg ["sub"] _ _)))).
  - vm_compute. reflexivity.
  - vm_compute. reflexivity.
Defined.

Lemma from_plain_module_witness :
  exists g',
    _safe_import_hook World.host 5 "a" (Some "a") (Some ["x"]) (-1) graph_a
    = Ok {[ "a" ]} g'
    /\ nodes g' = nodes graph_a
    /\ edges g' = edges graph_a ∪ {[(Some "a", "a", "direct")]}
    /\ dict_at (namespace module_a) g' !! "x" = Some None.
Proof.
  refine (from_plain_module World.host 5 graph_a "a" "a" "x" module_a module_a
            _ _ _ _ _ _ _ _ _ _).
  - vm_compute. reflexivity.
  - reflexivity.
  - reflexivity.
  - reflexivity.
  - vm_compute. reflexivity.
  - reflexivity.
  - vm_compute. reflexivity.
  - vm_compute. reflexivity.
  - reflexivity.
  - lia.
Defined.

Lemma from_package_missing_witness :
  exists n g',
    _safe_import_hook World.host 6 "pkg" (Some "a") (Some ["nothing"]) (-1)
      Site.graph_a_pkg
    = Ok {[ "pkg"; "pkg.nothing" ]} g'
    /\ nodes g' = <[ "pkg.nothing" := n ]> (nodes Site.graph_a_pkg)
    /\ cls n = MissingModule
    /\ edges g' = edges Site.graph_a_pkg ∪ {[(Some "a", "pkg", "direct")]}
                  ∪ {[(Some "pkg.nothing", "pkg", "direct")]}
    /\ dict_at (namespace Site.package_pkg) g' !! "nothing"
       = Some (Some "pkg.nothing").
Proof.
  refine (from_package_missing World.host 6 Site.graph_a_pkg "a" "pkg"
            "nothing" module_a Site.package_pkg ["/app/pkg"]
            _ _ _ _ _ _ _ _ _ _ _ _ _ _ _ _).
  - apply wfb_sound. vm_compute. reflexivity.
  - vm_compute. reflexivity.
  - reflexivity.
  - reflexivity.
  - reflexivity.
  - vm_compute. reflexivity.
  - vm_compute. reflexivity.
  - vm_compute. reflexivity.
  - discriminate.
  - discriminate.
  - vm_compute. reflexivity.
  - vm_compute. reflexivity.
  - vm_compute. reflexivity.
  - vm_compute. reflexivity.
  - reflexivity.
  - lia.
Defined.

Lemma package_with_bad_initializer_witness :
  exists pn g',
    _safe_import_hook Site.host 8 "badpkg" (Some "a") None (-1) graph_a
    = Ok {[ "badpkg" ]} g'
    /\ nodes g' !! "badpkg" = Some pn
    /\ cls pn = Package /\ code_handle pn = None
    /\ filename pn = Some "/app/badpkg"
    /\ packagepath pn = Some ["/app/badpkg"]
    /\ (forall i, i <> "badpkg" -> nodes g' !! i = nodes graph_a !! i)
    /\ edges g' = edges graph_a ∪ {[(Some "a", "badpkg", "direct")]}.
Proof.
  refine (package_with_bad_initializer Site.host 8 graph_a "a" "badpkg"
            "/app/badpkg" "/app/badpkg/__init__.pyc" "" "" ".pyc" "rb" module_a
            World.bad_pyc _ _ _ _ _ _ _ _ _ _ _ _ _ _ _ _).
  - apply wfb_sound. vm_compute. reflexivity.
  - vm_compute. reflexivity.
  - reflexivity.
  - reflexivity.
  - reflexivity.
  - intros H. apply elem_of_cons in H as [H | H]; [discriminate H |].
    by apply elem_of_nil in H.
  - reflexivity.
  - vm_compute. reflexivity.
  - reflexivity.
  - discriminate.
  - vm_compute. reflexivity.
  - reflexivity.
  - reflexivity.
  - vm_compute. reflexivity.
  - reflexivity.
  - lia.
Defined.

Lemma main_runs_script_witness :
  exists g0,
    main World.host (fun _ => "/app") (fun a => [a]) "modulegraph.py" 14
      [("-x", "pkg.missing")] ["/app/script.py"]
    = inr (run_script World.host 14 "/app/script.py" None g0)
    /\ nodes g0 = ∅
    /\ path g0 = ["/app"]
    /\ forall name, ("-x", name) ∈ [("-x", "pkg.missing")] ->
         lazynodes g0 !! name = Some LazyNone.
Proof.
  refine (main_runs_script World.host (fun _ => "/app") (fun a => [a])
            "modulegraph.py" 14 [("-x", "pkg.missing")] "/app/script.py"
            "/app" [] _).
  reflexivity.
Defined.
